(** * flask_rest_jsonapi.resource: the resource dispatch layer

    A shallow embedding of [flask_rest_jsonapi/resource.py]: the dispatch
    wrapper [Resource.dispatch_request] with its response normalisation and
    ETag handling, and the verb handlers of [ResourceList], [ResourceDetail]
    and [ResourceRelationship] that the stated properties are about.

    Python values are modelled by the types below; the data layer, the
    schema engine, the JSON encoder and the hash function are capabilities
    the module imports, and appear here as records of functions, each of
    which may raise.  Every call into the data layer is logged in a trace,
    so that which storage call was made, with which arguments, is a
    statement about a list of events.

    The decorators [check_headers] and [check_method_requirements] live in
    [flask_rest_jsonapi.decorators]; a verb method is modelled by its body,
    for a resource that has its schema and data layer.  The [before_*] and
    [after_*] hooks are the ones of the module: they do nothing. *)

From Stdlib Require Import String Ascii List ZArith Bool Lia.
From Stdlib Require Import DecimalString.
Import ListNotations.
Local Open Scope string_scope.
Local Open Scope Z_scope.
Set Warnings "-register-all".

(** ** Python values *)

(** The documents that travel through the module: what [request.get_json()]
    returns, what the schema loads and dumps.  A dict is an association list
    in insertion order with distinct keys.  A float is kept as a decimal
    literal [m * 10^e]; no operation of the module computes on one. *)
Inductive json : Type :=
| JNull
| JBool (b : bool)
| JInt (z : Z)
| JFloat (m e : Z)
| JStr (s : string)
| JList (l : list json)
| JDict (kvs : list (string * json)).

(** A configuration value of [current_app.config]: the module tests flags
    with [is True] and [is False], which only the two booleans satisfy. *)
Inductive pyval : Type :=
| PyNone
| PyBool (b : bool)
| PyInt (z : Z)
| PyStr (s : string).

Definition is_True (v : pyval) : bool :=
  match v with PyBool true => true | _ => false end.

Definition is_False (v : pyval) : bool :=
  match v with PyBool false => true | _ => false end.

(** A value captured from the URL by a route converter. *)
Inductive urlval : Type :=
| UInt (z : Z)
| UStr (s : string).

(** [str(v)] on a captured URL value. *)
Definition py_str (v : urlval) : string :=
  match v with
  | UInt z => NilZero.string_of_int (Z.to_int z)
  | UStr s => s
  end.

Definition kwargs := list (string * urlval).

(** ** Dictionaries as association lists *)

Section Dict.
Context {V : Type}.

Fixpoint dict_get (k : string) (d : list (string * V)) : option V :=
  match d with
  | [] => None
  | (k', v) :: d' => if String.eqb k k' then Some v else dict_get k d'
  end.

Definition dict_has (k : string) (d : list (string * V)) : bool :=
  match dict_get k d with Some _ => true | None => false end.

(** [d[k] = v]: replaces the value in place, or appends a new key. *)
Fixpoint dict_set (k : string) (v : V) (d : list (string * V))
  : list (string * V) :=
  match d with
  | [] => [(k, v)]
  | (k', v') :: d' =>
      if String.eqb k k' then (k, v) :: d' else (k', v') :: dict_set k v d'
  end.

(** [d.update(e)] *)
Definition dict_update (d e : list (string * V)) : list (string * V) :=
  fold_left (fun acc kv => dict_set (fst kv) (snd kv) acc) e d.
End Dict.

(** ** Strings *)

Definition str_mem (s : string) (l : list string) : bool :=
  existsb (String.eqb s) l.

(** [s.split(sep)] for a one-character separator. *)
Fixpoint split_on (c : ascii) (s : string) : list string :=
  match s with
  | EmptyString => [EmptyString]
  | String a s' =>
      if Ascii.eqb a c then EmptyString :: split_on c s'
      else match split_on c s' with
           | h :: t => String a h :: t
           | [] => [String a EmptyString]
           end
  end.

(** [str.isspace] on the code points below 256 (header values are decoded
    as latin-1): TAB..CR, FS..US, space, NEL and NBSP. *)
Definition is_space (a : ascii) : bool :=
  let n := N_of_ascii a in
  ((9 <=? n) && (n <=? 13) || (28 <=? n) && (n <=? 32)
   || (n =? 133) || (n =? 160))%N.

Fixpoint lstrip (s : string) : string :=
  match s with
  | String a s' => if is_space a then lstrip s' else s
  | EmptyString => EmptyString
  end.

Fixpoint rstrip (s : string) : string :=
  match s with
  | EmptyString => EmptyString
  | String a s' =>
      match rstrip s' with
      | EmptyString => if is_space a then EmptyString else String a EmptyString
      | r => String a r
      end
  end.

(** [s.strip()] *)
Definition strip (s : string) : string := rstrip (lstrip s).

(** [s.replace(a, b)] for single characters. *)
Fixpoint replace_char (a b : ascii) (s : string) : string :=
  match s with
  | EmptyString => EmptyString
  | String c s' =>
      String (if Ascii.eqb c a then b else c) (replace_char a b s')
  end.

(** [needle in hay] on two strings: substring search. *)
Fixpoint is_substring (needle hay : string) : bool :=
  if String.prefix needle hay then true
  else match hay with
       | EmptyString => false
       | String _ hay' => is_substring needle hay'
       end.

Definition ascii_lower (a : ascii) : ascii :=
  let n := N_of_ascii a in
  if ((65 <=? n) && (n <=? 90))%N then ascii_of_N (n + 32) else a.

Fixpoint lower (s : string) : string :=
  match s with
  | EmptyString => EmptyString
  | String a s' => String (ascii_lower a) (lower s')
  end.


(** ** Python operations on documents *)

(** Exceptions.  The classes of [flask_rest_jsonapi.exceptions] that the
    module imports, and every other Python exception by its class name and
    its [str()]. *)
Inductive exc_class : Type :=
| JsonApiException
| BadRequest
| InvalidType
| RelationNotFound
| ObjectNotFound
| NotModified
| PreconditionFailed.

(** Modelled from the spec: the [status] attribute of each exception class
    is declared in [flask_rest_jsonapi/exceptions.py], which is not part of
    the sources at hand; the values are those of the specification's error
    taxonomy (kind -> status), the base class being the 500 of an unexpected
    failure. *)
Definition exc_status (c : exc_class) : Z :=
  match c with
  | JsonApiException => 500
  | BadRequest => 400
  | InvalidType => 409
  | RelationNotFound => 404
  | ObjectNotFound => 404
  | NotModified => 304
  | PreconditionFailed => 412
  end.

(** An instance [cls(source, detail)]. *)
Record jsonapi_exc : Type := mk_exc {
  exc_cls : exc_class;
  exc_source : json;
  exc_detail : string
}.

Inductive exn : Type :=
| JsonApi (e : jsonapi_exc)
| PyExc (cls : string) (msg : string).

Definition res (A : Type) : Type := (exn + A)%type.

Definition pointer (p : string) : json := JDict [("pointer", JStr p)].

(** [j == s] for a document [j] and a [str] [s]. *)
Definition json_eq_str (j : json) (s : string) : bool :=
  match j with
  | JStr s' => String.eqb s' s
  | _ => false
  end.

(** [k in j] for a [str] [k]: key test on a dict, membership on a list,
    substring on a string, [TypeError] on anything else. *)
Definition py_in (k : string) (j : json) : res bool :=
  match j with
  | JDict kvs => inr (dict_has k kvs)
  | JList l => inr (existsb (fun x => json_eq_str x k) l)
  | JStr s => inr (is_substring k s)
  | _ => inl (PyExc "TypeError" "argument is not iterable")
  end.

(** [j[k]] for a [str] [k]. *)
Definition py_getitem (j : json) (k : string) : res json :=
  match j with
  | JDict kvs =>
      match dict_get k kvs with
      | Some v => inr v
      | None => inl (PyExc "KeyError" k)
      end
  | JList _ | JStr _ =>
      inl (PyExc "TypeError" "indices must be integers")
  | _ => inl (PyExc "TypeError" "object is not subscriptable")
  end.

(** [j[k] = v] for a [str] [k]. *)
Definition py_setitem (j : json) (k : string) (v : json) : res json :=
  match j with
  | JDict kvs => inr (JDict (dict_set k v kvs))
  | JList _ =>
      inl (PyExc "TypeError" "indices must be integers")
  | _ => inl (PyExc "TypeError" "object does not support item assignment")
  end.

(** [j.get(k, default)]: only a dict has the method. *)
Definition py_get (j : json) (k : string) (default : json) : res json :=
  match j with
  | JDict kvs =>
      match dict_get k kvs with
      | Some v => inr v
      | None => inr default
      end
  | _ => inl (PyExc "AttributeError" "object has no attribute 'get'")
  end.

(** [d.update({'jsonapi': {'version': '1.0'}})] when [d] is a dict. *)
Definition jsonapi_version : json := JDict [("version", JStr "1.0")].

Definition stamp_version (d : json) : json :=
  match d with
  | JDict kvs => JDict (dict_set "jsonapi" jsonapi_version kvs)
  | _ => d
  end.

(** ** Requests, responses, configuration *)

(** Request headers are strings; response headers are a Python dict whose
    values are whatever the verb method put there. *)
Definition headers := list (string * string).

Definition hdrs := list (string * json).

Definition default_headers : hdrs :=
  [("Content-Type", JStr "application/vnd.api+json")].

Record Response : Type := make_response {
  resp_data : string;
  resp_status : Z;
  resp_headers : hdrs
}.

(** [resp.headers[k] = v] *)
Definition set_header (k : string) (v : json) (r : Response) : Response :=
  make_response (resp_data r) (resp_status r) (dict_set k v (resp_headers r)).

(** [response.headers.add(k, v)] *)
Definition add_header (k : string) (v : json) (r : Response) : Response :=
  make_response (resp_data r) (resp_status r) (resp_headers r ++ [(k, v)])%list.

Record request : Type := mk_request {
  req_method : string;
  req_path : string;
  req_args : list (string * string);
  req_headers : headers;
  req_json : json
}.

(** [request.args.get(k)]: the first value given for [k]. *)
Definition args_get (k : string) (rq : request) : option string :=
  dict_get k (req_args rq).

(** [request.headers.get(k)]: header names compare without case. *)
Fixpoint headers_get (k : string) (h : headers) : option string :=
  match h with
  | [] => None
  | (k', v) :: h' =>
      if String.eqb (lower k') (lower k) then Some v else headers_get k h'
  end.

(** Truth value of what [headers.get] returns: [None] and [''] are false. *)
Definition truthy (o : option string) : bool :=
  match o with
  | None | Some EmptyString => false
  | Some _ => true
  end.

Definition opt_is (o : option string) (s : string) : bool :=
  match o with
  | Some s' => String.eqb s' s
  | None => false
  end.

Record config : Type := mk_config {
  DEBUG : pyval;
  PROPOGATE_ERROR : pyval;
  ETAG : pyval;
  SOFT_DELETE : pyval;
  DASHERIZE_API : pyval
}.

(** What a verb method returns to the dispatch wrapper. *)
Inductive verb_return : Type :=
| RetResponse (r : Response)
| RetDoc (d : json)
| RetPair (d : json) (status : Z)
| RetTriple (d : json) (status : Z) (h : hdrs).

(** The imported functions that turn values into bytes and errors into
    documents: [json.dumps], [hashlib.sha1(..).hexdigest()],
    [jsonapi_errors], [JsonApiException.to_dict], and the reading of the
    clock [str(datetime.now(pytz.utc))]. *)
Record Platform : Type := mk_platform {
  json_dumps : json -> string;
  sha1_hexdigest : string -> string;
  jsonapi_errors : list json -> json;
  to_dict : jsonapi_exc -> json;
  now_str : string
}.

(** ** The capabilities a resource is configured with *)

(** An entry of [schema._declared_fields]: a [Relationship] field carries
    [type_] and [id_field]; any other field has neither attribute. *)
Inductive field : Type :=
| Plain
| Relationship (type_ id_field : string).

Definition field_type_ (f : field) : res string :=
  match f with
  | Relationship t _ => inr t
  | Plain => inl (PyExc "AttributeError" "type_")
  end.

Definition field_id_field (f : field) : res string :=
  match f with
  | Relationship _ i => inr i
  | Plain => inl (PyExc "AttributeError" "id_field")
  end.

(** What [schema.load(json_data)] does: it returns [(data, errors)], or
    raises [IncorrectTypeError], [ValidationError] (both carrying
    [messages]), or something else. *)
Inductive load_outcome : Type :=
| Loaded (data : json) (errors : list (string * json))
| RaisedIncorrectType (messages : json)
| RaisedValidation (messages : json)
| RaisedOther (e : exn).

Section Capabilities.
Variables store obj schema_inst : Type.

(** The calls the module makes on [self._data_layer].  [get_object] takes
    the [get_trashed] keyword when the caller passes it. *)
Record DataLayer : Type := mk_data_layer {
  dl_get_object : kwargs -> option bool -> store -> res (option obj) * store;
  dl_create_object : json -> kwargs -> store -> res obj * store;
  dl_update_object : obj -> json -> kwargs -> store -> res unit * store;
  dl_delete_object : obj -> kwargs -> store -> res unit * store;
  dl_create_relationship :
    json -> string -> string -> kwargs -> store -> res (obj * pyval) * store;
  dl_update_relationship :
    json -> string -> string -> kwargs -> store -> res (obj * pyval) * store;
  dl_delete_relationship :
    json -> string -> string -> kwargs -> store -> res (obj * pyval) * store
}.

(** [self.schema] with the functions of [flask_rest_jsonapi.schema] and
    [flask_rest_jsonapi.querystring] applied to it: the query string
    manager is determined by [request.args] and the schema, so
    [qs_include] and [compute_schema] take [request.args] in its place. *)
Record SchemaCap : Type := mk_schema {
  schema_name : string;
  _declared_fields : list (string * field);
  get_relationships_values : list string;
  get_model_field : string -> res string;
  qs_include : list (string * string) -> res (list string);
  compute_schema :
    list (string * json) -> list (string * string) -> list string ->
    res schema_inst;
  schema_load : schema_inst -> json -> load_outcome;
  schema_dump : schema_inst -> store -> obj -> res json
}.

(** The class attributes of a resource: [schema], the [data_layer] dict's
    ['url_field'] entry when it has one, [_data_layer], and the three
    optional [*_schema_kwargs] dicts ([dict()] when absent). *)
Record resource : Type := mk_resource {
  schema : SchemaCap;
  url_field : option string;
  _data_layer : DataLayer;
  get_schema_kwargs : list (string * json);
  post_schema_kwargs : list (string * json);
  patch_schema_kwargs : list (string * json)
}.

(** A call into the data layer, as it appears in the trace. *)
Inductive event : Type :=
| GetObject (kw : kwargs) (get_trashed : option bool)
| CreateObject (data : json) (kw : kwargs)
| UpdateObject (o : obj) (data : json) (kw : kwargs)
| DeleteObject (o : obj) (kw : kwargs)
| CreateRelationship (json_data : json) (model_field id_field : string)
    (kw : kwargs)
| UpdateRelationship (json_data : json) (model_field id_field : string)
    (kw : kwargs)
| DeleteRelationship (json_data : json) (model_field id_field : string)
    (kw : kwargs).

Record world : Type := mk_world {
  w_store : store;
  w_trace : list event
}.

(** Computations that read and change the store, log their data layer
    calls and may raise. *)
Definition M (A : Type) : Type := world -> res A * world.

Definition ret {A} (a : A) : M A := fun w => (inr a, w).

Definition raise {A} (e : exn) : M A := fun w => (inl e, w).

Definition bind {A B} (m : M A) (k : A -> M B) : M B :=
  fun w =>
    match m w with
    | (inl e, w') => (inl e, w')
    | (inr a, w') => k a w'
    end.

Definition lift {A} (r : res A) : M A := fun w => (r, w).

Definition call {A} (ev : event) (f : store -> res A * store) : M A :=
  fun w =>
    let (r, s) := f (w_store w) in
    (r, mk_world s (w_trace w ++ [ev])).

(** [schema.dump(o).data] reads the object as the store now has it. *)
Definition dump (S : SchemaCap) (sch : schema_inst) (o : obj) : M json :=
  fun w => (schema_dump S sch (w_store w) o, w).
End Capabilities.

Arguments ret {store obj A} a.
Arguments raise {store obj A} e.
Arguments bind {store obj A B} m k.
Arguments lift {store obj A} r.
Arguments call {store obj A} ev f.
Arguments dump {store obj schema_inst} S sch o.
Arguments mk_world {store obj} _ _.
Arguments w_store {store obj} _.
Arguments w_trace {store obj} _.
Arguments GetObject {obj} kw get_trashed.
Arguments CreateObject {obj} data kw.
Arguments UpdateObject {obj} o data kw.
Arguments DeleteObject {obj} o kw.
Arguments CreateRelationship {obj} json_data model_field id_field kw.
Arguments UpdateRelationship {obj} json_data model_field id_field kw.
Arguments DeleteRelationship {obj} json_data model_field id_field kw.

Notation "x <- m ;; k" := (bind m (fun x => k))
  (at level 61, m at next level, right associativity).
Notation "m ;;; k" := (bind m (fun _ => k))
  (at level 61, right associativity).
Notation "'let?' x := r 'in' k" :=
  (match r with inl e => inl e | inr x => k end)
  (at level 61, x pattern, r at next level, right associativity).

(** ** Error entries of a failed load *)

(** [for x in j]: a list yields its elements, a dict its keys, a string its
    characters. *)
Fixpoint chars (s : string) : list json :=
  match s with
  | EmptyString => []
  | String a s' => JStr (String a EmptyString) :: chars s'
  end.

Definition py_iter (j : json) : res (list json) :=
  match j with
  | JList l => inr l
  | JDict kvs => inr (map (fun kv => JStr (fst kv)) kvs)
  | JStr s => inr (chars s)
  | _ => inl (PyExc "TypeError" "object is not iterable")
  end.

(** The loop body: [error['status'] = status; error['title'] = title]. *)
Definition stamp_entry (status title : string) (error : json) : res json :=
  let? e1 := py_setitem error "status" (JStr status) in
  py_setitem e1 "title" (JStr title).

Fixpoint stamp_entries (status title : string) (l : list json)
  : res (list json) :=
  match l with
  | [] => inr []
  | error :: l' =>
      let? e' := stamp_entry status title error in
      let? r := stamp_entries status title l' in
      inr (e' :: r)
  end.

(** [for error in errors['errors']: ...], then [errors] as the loop left
    it.  The entries are changed in place, so after a loop over a list the
    document holds the stamped entries; a loop over anything else either
    has no iteration or fails at its first. *)
Definition stamp_errors (status title : string) (errors : json) : res json :=
  let? es := py_getitem errors "errors" in
  let? items := py_iter es in
  let? stamped := stamp_entries status title items in
  match es with
  | JList _ => py_setitem errors "errors" (JList stamped)
  | _ => inr errors
  end.

(** ** The [data] node of a relationship request *)

Definition dquote : string := String (ascii_of_nat 34) EmptyString.

Definition missing_type : string :=
  "Missing type in " ++ dquote ++ "data" ++ dquote ++ " node".

Definition missing_id : string :=
  "Missing id in " ++ dquote ++ "data" ++ dquote ++ " node".

Definition missing_data : string :=
  "You must provide data with a " ++ dquote ++ "data" ++ dquote
  ++ " route node".

Definition bad_request (source detail : string) : exn :=
  JsonApi (mk_exc BadRequest (JStr source) detail).

(** The three tests made on a linkage object; [detail] is the text of the
    type mismatch, which differs between the single and the list case. *)
Definition check_linkage (related_type_ detail : string) (o : json)
  : res unit :=
  let? has_type := py_in "type" o in
  if negb has_type
  then inl (bad_request "/data/type" missing_type)
  else
    let? has_id := py_in "id" o in
    if negb has_id
    then inl (bad_request "/data/id" missing_id)
    else
      let? t := py_getitem o "type" in
      if negb (json_eq_str t related_type_)
      then inl (JsonApi (mk_exc InvalidType (JStr "/data/type") detail))
      else inr tt.

Fixpoint check_linkages (related_type_ detail : string) (l : list json)
  : res unit :=
  match l with
  | [] => inr tt
  | o :: l' =>
      let? _ := check_linkage related_type_ detail o in
      check_linkages related_type_ detail l'
  end.

(** The block that opens [post], [patch] and [delete] of
    [ResourceRelationship] after the relationship is resolved; the three
    methods carry the same text. *)
Definition check_data_node (json_data : json) (related_type_ : string)
  : res unit :=
  let? has_data := py_in "data" json_data in
  if negb has_data
  then inl (bad_request "/data" missing_data)
  else
    let? d := py_getitem json_data "data" in
    let? _ :=
      match d with
      | JDict _ =>
          check_linkage related_type_
            "The type field does not match the resource type" d
      | _ => inr tt
      end in
    match d with
    | JList l =>
        check_linkages related_type_
          "The type provided does not match the resource type" l
    | _ => inr tt
    end.

(** [if result.get('links', {}).get('self') is not None:
       result['links']['self'] = request.path] *)
Definition rewrite_self (path : string) (result : json) : res json :=
  let? links := py_get result "links" (JDict []) in
  let? self := py_get links "self" JNull in
  match self with
  | JNull => inr result
  | _ =>
      let? links := py_getitem result "links" in
      let? links' := py_setitem links "self" (JStr path) in
      py_setitem result "links" links'
  end.

(** ** class ResourceList *)

Module ResourceList.
Section Verbs.
Variables store obj schema_inst : Type.
Variable P : Platform.
Variable cfg : config.
Variable rq : request.
Variable R : resource store obj schema_inst.

Let S := schema _ _ _ R.
Let DL := _data_layer _ _ _ R.

Definition before_post (args : list urlval) (kw : kwargs) (data : json)
  : M store obj unit := ret tt.

Definition after_post (result : json) : M store obj unit := ret tt.

(** [def post(self, *args, **kwargs)]: create an object. *)
Definition post (args : list urlval) (kw : kwargs)
  : M store obj verb_return :=
  let json_data := req_json rq in
  let qs := req_args rq in
  include <- lift (qs_include _ _ _ S qs) ;;
  sch <- lift (compute_schema _ _ _ S (post_schema_kwargs _ _ _ R)
                 qs include) ;;
  match schema_load _ _ _ S sch json_data with
  | RaisedIncorrectType messages =>
      errors <- lift (stamp_errors "409" "Incorrect type" messages) ;;
      ret (RetPair errors 409)
  | RaisedValidation messages =>
      errors <- lift (stamp_errors "422" "Validation error" messages) ;;
      ret (RetPair errors 422)
  | RaisedOther e => raise e
  | Loaded data errors =>
      match errors with
      | _ :: _ =>
          errors <- lift (stamp_errors "422" "Validation error"
                            (JDict errors)) ;;
          ret (RetPair errors 422)
      | [] =>
          before_post args kw data ;;;
          o <- call (CreateObject data kw)
                 (dl_create_object _ _ DL data kw) ;;
          result <- dump S sch o ;;
          after_post result ;;;
          d <- lift (py_getitem result "data") ;;
          links <- lift (py_getitem d "links") ;;
          self <- lift (py_getitem links "self") ;;
          ret (RetTriple result 201 [("Location", self)])
      end
  end.
End Verbs.
End ResourceList.

(** ** class ResourceDetail *)

Definition object_not_found : exn :=
  JsonApi (mk_exc ObjectNotFound (pointer EmptyString) "Object Not Found").

Module ResourceDetail.
Section Verbs.
Variables store obj schema_inst : Type.
Variable P : Platform.
Variable cfg : config.
Variable rq : request.
Variable R : resource store obj schema_inst.

Let S := schema _ _ _ R.
Let DL := _data_layer _ _ _ R.

Definition before_get (args : list urlval) (kw : kwargs)
  : M store obj unit := ret tt.

Definition after_get (result : json) : M store obj unit := ret tt.

Definition before_patch (args : list urlval) (kw : kwargs) (data : json)
  : M store obj unit := ret tt.

Definition after_patch (result : json) : M store obj unit := ret tt.

Definition before_delete (args : list urlval) (kw : kwargs)
  : M store obj unit := ret tt.

Definition after_delete (result : json) : M store obj unit := ret tt.

(** The two ways [get] and [patch] fetch the object: with
    [get_trashed=True] when the query says [get_trashed=true], and
    without the keyword otherwise. *)
Definition fetch (kw : kwargs) : M store obj (option obj) :=
  if opt_is (args_get "get_trashed" rq) "true"
  then call (GetObject kw (Some true)) (dl_get_object _ _ DL kw (Some true))
  else call (GetObject kw None) (dl_get_object _ _ DL kw None).

(** [def get(self, *args, **kwargs)]: get object details. *)
Definition get (args : list urlval) (kw : kwargs)
  : M store obj verb_return :=
  before_get args kw ;;;
  found <- fetch kw ;;
  match found with
  | None => raise object_not_found
  | Some o =>
      let qs := req_args rq in
      include <- lift (qs_include _ _ _ S qs) ;;
      sch <- lift (compute_schema _ _ _ S (get_schema_kwargs _ _ _ R)
                     qs include) ;;
      result <- dump S sch o ;;
      after_get result ;;;
      ret (RetDoc result)
  end.

(** [kwargs[self.data_layer.get('url_field', 'id')]] *)
Definition url_id (kw : kwargs) : res urlval :=
  let k := match url_field _ _ _ R with Some f => f | None => "id" end in
  match dict_get k kw with
  | Some v => inr v
  | None => inl (PyExc "KeyError" k)
  end.

(** The identifier test of [patch], made once the body has loaded. *)
Definition check_id (json_data : json) (kw : kwargs) : res unit :=
  let? d := py_getitem json_data "data" in
  let? has_id := py_in "id" d in
  if negb has_id then inl (bad_request "/data/id" missing_id)
  else
    let? d := py_getitem json_data "data" in
    let? id := py_getitem d "id" in
    let? v := url_id kw in
    if negb (json_eq_str id (py_str v))
    then inl (bad_request "/data/id"
           "Value of id does not match the resource identifier in url")
    else inr tt.

(** [def patch(self, *args, **kwargs)]: update an object. *)
Definition patch (args : list urlval) (kw : kwargs)
  : M store obj verb_return :=
  let json_data := req_json rq in
  let qs := req_args rq in
  let schema_kwargs :=
    dict_set "partial" (JBool true) (patch_schema_kwargs _ _ _ R) in
  include <- lift (qs_include _ _ _ S qs) ;;
  sch <- lift (compute_schema _ _ _ S schema_kwargs qs include) ;;
  match schema_load _ _ _ S sch json_data with
  | RaisedIncorrectType messages =>
      errors <- lift (stamp_errors "409" "Incorrect type" messages) ;;
      ret (RetPair errors 409)
  | RaisedValidation messages =>
      errors <- lift (stamp_errors "422" "Validation error" messages) ;;
      ret (RetPair errors 422)
  | RaisedOther e => raise e
  | Loaded data errors =>
      match errors with
      | _ :: _ =>
          errors <- lift (stamp_errors "422" "Validation error"
                            (JDict errors)) ;;
          ret (RetPair errors 422)
      | [] =>
          lift (check_id json_data kw) ;;;
          before_patch args kw data ;;;
          found <- fetch kw ;;
          match found with
          | None => raise object_not_found
          | Some o =>
              call (UpdateObject o data kw)
                (dl_update_object _ _ DL o data kw) ;;;
              result <- dump S sch o ;;
              after_patch result ;;;
              ret (RetDoc result)
          end
      end
  end.

(** The test that chooses between a physical and a soft delete. *)
Definition hard_delete : bool :=
  negb (dict_has "deleted_at" (_declared_fields _ _ _ S))
  || opt_is (args_get "permanent" rq) "true"
  || is_False (SOFT_DELETE cfg).

Definition deleted_message : json :=
  JDict [("meta", JDict [("message", JStr "Object successfully deleted")])].

(** [def delete(self, *args, **kwargs)]: delete an object. *)
Definition delete (args : list urlval) (kw : kwargs)
  : M store obj verb_return :=
  before_delete args kw ;;;
  let trashed := opt_is (args_get "permanent" rq) "true" in
  found <- call (GetObject kw (Some trashed))
             (dl_get_object _ _ DL kw (Some trashed)) ;;
  match found with
  | None => raise object_not_found
  | Some o =>
      (if hard_delete
       then call (DeleteObject o kw) (dl_delete_object _ _ DL o kw)
       else
         let data := JDict [("deleted_at", JStr (now_str P))] in
         call (UpdateObject o data kw)
           (dl_update_object _ _ DL o data kw)) ;;;
      let result := deleted_message in
      after_delete result ;;;
      ret (RetDoc result)
  end.
End Verbs.
End ResourceDetail.

(** ** class ResourceRelationship *)

Module ResourceRelationship.
Section Verbs.
Variables store obj schema_inst : Type.
Variable P : Platform.
Variable cfg : config.
Variable rq : request.
Variable R : resource store obj schema_inst.

Let S := schema _ _ _ R.
Let DL := _data_layer _ _ _ R.

Definition before_post (args : list urlval) (kw : kwargs) (json_data : json)
  : M store obj unit := ret tt.

Definition after_post (result : json) : M store obj unit := ret tt.

Definition before_patch (args : list urlval) (kw : kwargs)
  (json_data : json) : M store obj unit := ret tt.

Definition after_patch (result : json) : M store obj unit := ret tt.

Definition before_delete (args : list urlval) (kw : kwargs)
  (json_data : json) : M store obj unit := ret tt.

Definition after_delete (result : json) : M store obj unit := ret tt.

Definition declared (k : string) : res field :=
  match dict_get k (_declared_fields _ _ _ S) with
  | Some f => inr f
  | None => inl (PyExc "KeyError" k)
  end.

(** [def _get_relationship_data(self)]: the relationship field named by
    the last segment of the path, its model field, its related type and
    its related id field. *)
Definition _get_relationship_data
  : res (string * string * string * string) :=
  let relationship_field := last (split_on "/" (req_path rq)) EmptyString in
  let relationship_field :=
    if is_True (DASHERIZE_API cfg)
    then replace_char "-" "_" relationship_field
    else relationship_field in
  if negb (str_mem relationship_field (get_relationships_values _ _ _ S))
  then inl (JsonApi (mk_exc RelationNotFound (JStr EmptyString)
              (schema_name _ _ _ S ++ " has no attribute "
               ++ relationship_field)))
  else
    let? f := declared relationship_field in
    let? related_type_ := field_type_ f in
    let? f := declared relationship_field in
    let? related_id_field := field_id_field f in
    let? model_relationship_field :=
      get_model_field _ _ _ S relationship_field in
    inr (relationship_field, model_relationship_field, related_type_,
         related_id_field).

(** [includes = qs.include], then the relationship field appended unless
    [qs.include] has it; [include] is a property, read twice. *)
Definition includes_with (relationship_field : string)
  : res (list string) :=
  let qs := req_args rq in
  let? includes := qs_include _ _ _ S qs in
  let? again := qs_include _ _ _ S qs in
  if negb (str_mem relationship_field again)
  then inr (includes ++ [relationship_field])%list
  else inr includes.

(** [def post(self, *args, **kwargs)]: add relationship(s). *)
Definition post (args : list urlval) (kw : kwargs)
  : M store obj verb_return :=
  let json_data := req_json rq in
  rel <- lift _get_relationship_data ;;
  let '(relationship_field, model_relationship_field, related_type_,
        related_id_field) := rel in
  lift (check_data_node json_data related_type_) ;;;
  before_post args kw json_data ;;;
  r <- call (CreateRelationship json_data model_relationship_field
               related_id_field kw)
         (dl_create_relationship _ _ DL json_data model_relationship_field
            related_id_field kw) ;;
  let '(obj_, updated) := r in
  includes <- lift (includes_with relationship_field) ;;
  sch <- lift (compute_schema _ _ _ S [] (req_args rq) includes) ;;
  if is_False updated then ret (RetPair (JStr EmptyString) 204)
  else
    result <- dump S sch obj_ ;;
    result <- lift (rewrite_self (req_path rq) result) ;;
    after_post result ;;;
    ret (RetPair result 200).

(** [def patch(self, *args, **kwargs)]: update a relationship. *)
Definition patch (args : list urlval) (kw : kwargs)
  : M store obj verb_return :=
  let json_data := req_json rq in
  rel <- lift _get_relationship_data ;;
  let '(relationship_field, model_relationship_field, related_type_,
        related_id_field) := rel in
  lift (check_data_node json_data related_type_) ;;;
  before_patch args kw json_data ;;;
  r <- call (UpdateRelationship json_data model_relationship_field
               related_id_field kw)
         (dl_update_relationship _ _ DL json_data model_relationship_field
            related_id_field kw) ;;
  let '(obj_, updated) := r in
  includes <- lift (includes_with relationship_field) ;;
  sch <- lift (compute_schema _ _ _ S [] (req_args rq) includes) ;;
  if is_False updated then ret (RetPair (JStr EmptyString) 204)
  else
    result <- dump S sch obj_ ;;
    result <- lift (rewrite_self (req_path rq) result) ;;
    after_patch result ;;;
    ret (RetPair result 200).

(** [def delete(self, *args, **kwargs)]: delete relationship(s). *)
Definition delete (args : list urlval) (kw : kwargs)
  : M store obj verb_return :=
  let json_data := req_json rq in
  rel <- lift _get_relationship_data ;;
  let '(relationship_field, model_relationship_field, related_type_,
        related_id_field) := rel in
  lift (check_data_node json_data related_type_) ;;;
  before_delete args kw json_data ;;;
  r <- call (DeleteRelationship json_data model_relationship_field
               related_id_field kw)
         (dl_delete_relationship _ _ DL json_data model_relationship_field
            related_id_field kw) ;;
  let '(obj_, updated) := r in
  includes <- lift (includes_with relationship_field) ;;
  sch <- lift (compute_schema _ _ _ S [] (req_args rq) includes) ;;
  let status_code := if is_True updated then 200 else 204 in
  result <- dump S sch obj_ ;;
  result <- lift (rewrite_self (req_path rq) result) ;;
  after_delete result ;;;
  ret (RetPair result status_code).
End Verbs.
End ResourceRelationship.

(** ** class Resource: the dispatch wrapper *)

Module Resource.
Section Dispatch.
Variables store obj : Type.
Variable P : Platform.
Variable cfg : config.
Variable rq : request.

Definition verb := list urlval -> kwargs -> M store obj verb_return.

(** The verb methods an instance has. *)
Record view : Type := mk_view {
  view_get : option verb;
  view_post : option verb;
  view_patch : option verb;
  view_delete : option verb
}.

(** [getattr(self, name, None)] on the four verb names. *)
Definition getattr (v : view) (name : string) : option verb :=
  if String.eqb name "get" then view_get v
  else if String.eqb name "post" then view_post v
  else if String.eqb name "patch" then view_patch v
  else if String.eqb name "delete" then view_delete v
  else None.

Definition find_method (v : view) : option verb :=
  match getattr v (lower (req_method rq)) with
  | Some m => Some m
  | None =>
      if String.eqb (req_method rq) "HEAD" then getattr v "get" else None
  end.

(** [make_response(json.dumps(jsonapi_errors([e.to_dict()])), e.status,
    headers)] *)
Definition error_response (e : jsonapi_exc) (h : hdrs) : Response :=
  make_response
    (json_dumps P (jsonapi_errors P [to_dict P e]))
    (exc_status (exc_cls e))
    h.

Definition content_type : json := JStr "application/vnd.api+json".

(** Lines 84-106: the response object [resp] built from what the verb
    returned, and the dict the name [headers] is bound to afterwards.
    (A tuple of another length than two or three leaves [data] unbound in
    the source; the verb methods of this module return none.) *)
Definition build_response (response : verb_return) : Response * hdrs :=
  match response with
  | RetResponse r => (add_header "Content-Type" content_type r,
                      default_headers)
  | RetDoc d =>
      (make_response (json_dumps P (stamp_version d)) 200 default_headers,
       default_headers)
  | RetPair data status_code =>
      (make_response (json_dumps P (stamp_version data)) status_code
         default_headers,
       default_headers)
  | RetTriple data status_code h =>
      let h := dict_update h default_headers in
      (make_response (json_dumps P (stamp_version data)) status_code h, h)
  end.

Definition etag_tokens (value : string) : list string :=
  map strip (split_on "," value).

Definition precondition_failed : jsonapi_exc :=
  mk_exc PreconditionFailed (pointer EmptyString) "Precondition failed".

Definition not_modified : jsonapi_exc :=
  mk_exc NotModified (pointer EmptyString) "Resource not modified".

(** Lines 108-129: the value [dispatch_request] returns once [resp] is
    built.  The [return resp] statement belongs to the [if] on the [ETAG]
    flag; when the flag is not [True] the function ends without a
    [return] statement and its value is [None]. *)
Definition etag_handling (resp : Response) (h : hdrs) : option Response :=
  if is_True (ETAG cfg) then
    let etag := sha1_hexdigest P (resp_data resp) in
    let resp := set_header "ETag" (JStr etag) resp in
    let if_match := headers_get "If-Match" (req_headers rq) in
    let if_none_match := headers_get "If-None-Match" (req_headers rq) in
    if truthy if_match then
      let etag_list :=
        etag_tokens (match if_match with Some s => s | None => EmptyString
                     end) in
      if negb (str_mem etag etag_list) && negb (str_mem "*" etag_list)
      then Some (error_response precondition_failed h)
      else Some resp
    else if truthy if_none_match then
      let etag_list :=
        etag_tokens (match if_none_match with Some s => s
                     | None => EmptyString end) in
      if str_mem etag etag_list || str_mem "*" etag_list
      then Some (error_response not_modified h)
      else Some resp
    else Some resp
  else None.

(** [def dispatch_request(self, *args, **kwargs)] *)
Definition dispatch_request (v : view) (args : list urlval) (kw : kwargs)
  : M store obj (option Response) :=
  match find_method v with
  | None =>
      raise (PyExc "AssertionError"
               ("Unimplemented method " ++ req_method rq))
  | Some method =>
      fun w =>
        match method args kw w with
        | (inl (JsonApi e), w') =>
            (inr (Some (error_response e default_headers)), w')
        | (inl (PyExc c msg), w') =>
            if is_True (DEBUG cfg) then (inl (PyExc c msg), w')
            else
              let exc :=
                if is_True (PROPOGATE_ERROR cfg)
                then mk_exc JsonApiException (pointer EmptyString) msg
                else mk_exc JsonApiException (pointer EmptyString)
                       "Unknown error" in
              (inr (Some (error_response exc default_headers)), w')
        | (inr response, w') =>
            let (resp, h) := build_response response in
            (inr (etag_handling resp h), w')
        end
  end.
End Dispatch.
End Resource.

(** ** A small concrete instance

    An in-memory data layer, a schema for one resource type and a platform,
    on which the handlers can be run.  The store maps a key to a document:
    an object id to the object's attributes, and [id/field] to the linkage
    of a relationship. *)

Module Sample.
Definition store := list (string * json).
Definition obj := string.
Definition schema_inst := list string.

Definition dec (z : Z) : string := NilZero.string_of_int (Z.to_int z).

Fixpoint join (sep : string) (l : list string) : string :=
  match l with
  | [] => EmptyString
  | [x] => x
  | x :: l' => x ++ sep ++ join sep l'
  end.

(** A plain encoder (no escaping), enough to give bodies to hash. *)
Fixpoint encode (j : json) : string :=
  match j with
  | JNull => "null"
  | JBool true => "true"
  | JBool false => "false"
  | JInt z => dec z
  | JFloat m e => dec m ++ "e" ++ dec e
  | JStr s => dquote ++ s ++ dquote
  | JList l => "[" ++ join ", " (map encode l) ++ "]"
  | JDict kvs =>
      "{" ++ join ", "
               (map (fun kv => dquote ++ fst kv ++ dquote ++ ": "
                               ++ encode (snd kv)) kvs) ++ "}"
  end.

(** A toy digest: the sum of the character codes, in decimal. *)
Fixpoint code_sum (s : string) : Z :=
  match s with
  | EmptyString => 0
  | String a s' => Z.of_N (N_of_ascii a) + code_sum s'
  end.

Definition platform : Platform :=
  mk_platform
    encode
    (fun body => dec (code_sum body))
    (fun es => JDict [("errors", JList es); ("jsonapi", jsonapi_version)])
    (fun e => JDict [("status", JStr (dec (exc_status (exc_cls e))));
                     ("source", exc_source e);
                     ("detail", JStr (exc_detail e))])
    "2017-06-01 12:00:00+00:00".

Definition owner (kw : kwargs) : string :=
  match dict_get "id" kw with
  | Some v => py_str v
  | None => EmptyString
  end.

Definition remove (k : string) (s : store) : store :=
  filter (fun kv => negb (String.eqb (fst kv) k)) s.

Definition link_key (kw : kwargs) (model_field : string) : string :=
  owner kw ++ "/" ++ model_field.

Definition data_layer : DataLayer store obj :=
  mk_data_layer store obj
    (fun kw _ s =>
       (inr (if dict_has (owner kw) s then Some (owner kw) else None), s))
    (fun data kw s =>
       let id := dec (Z.of_nat (Datatypes.S (List.length s))) in
       (inr id, s ++ [(id, data)])%list)
    (fun o data kw s =>
     (inr tt,
      dict_set o
        match dict_get o s, data with
        | Some (JDict old), JDict new => JDict (dict_update old new)
        | _, _ => data
        end s))
    (fun o kw s => (inr tt, remove o s))
    (fun json_data mf idf kw s =>
       (inr (owner kw, PyBool (negb (dict_has (link_key kw mf) s))),
        dict_set (link_key kw mf) json_data s))
    (fun json_data mf idf kw s =>
       (inr (owner kw, PyBool true), dict_set (link_key kw mf) json_data s))
    (fun json_data mf idf kw s =>
       (inr (owner kw, PyBool (dict_has (link_key kw mf) s)),
        remove (link_key kw mf) s)).

Definition error_entry (detail ptr : string) : json :=
  JDict [("detail", JStr detail); ("source", pointer ptr)].

Definition missing (attrs : json) (k : string) : list json :=
  match py_in k attrs with
  | inr true => []
  | _ => [error_entry "Missing data for required field."
            ("/data/attributes/" ++ k)]
  end.

(** Loads [{data: {type: articles, attributes: {title, body}}}]. *)
Definition load (sch : schema_inst) (j : json) : load_outcome :=
  match py_getitem j "data" with
  | inl _ =>
      RaisedValidation
        (JDict [("errors",
                 JList [error_entry "Object must include data key." "/"])])
  | inr d =>
      match py_getitem d "type" with
      | inr (JStr "articles") =>
          match py_getitem d "attributes" with
          | inr attrs =>
              match (missing attrs "title" ++ missing attrs "body")%list
              with
              | [] => Loaded attrs []
              | es => Loaded (JDict []) [("errors", JList es)]
              end
          | inl _ => Loaded (JDict []) []
          end
      | _ =>
          RaisedIncorrectType
            (JDict [("errors",
                     JList [error_entry "Invalid type. Expected articles."
                              "/data/type"])])
      end
  end.

Definition self_link (o : obj) : json :=
  JDict [("self", JStr ("/articles/" ++ o))].

Definition dump_doc (sch : schema_inst) (s : store) (o : obj) : res json :=
  inr (JDict
         [("data",
           JDict [("type", JStr "articles");
                  ("id", JStr o);
                  ("attributes",
                   match dict_get o s with Some a => a | None => JNull end);
                  ("links", self_link o)]);
          ("links", self_link o);
          ("included", JList (map JStr sch))]).

Definition articles : SchemaCap store obj schema_inst :=
  mk_schema store obj schema_inst
    "ArticleSchema"
    [("title", Plain); ("body", Plain); ("deleted_at", Plain);
     ("author", Relationship "people" "id")]
    ["author"]
    (fun f => inr f)
    (fun args =>
       inr (match dict_get "include" args with
            | Some (String a s) => split_on "," (String a s)
            | _ => []
            end))
    (fun _ _ include => inr include)
    load
    dump_doc.

Definition articles_resource : resource store obj schema_inst :=
  mk_resource store obj schema_inst articles None data_layer [] [] [].

Definition config_with (etag soft_delete : pyval) : config :=
  mk_config (PyBool false) (PyBool false) etag soft_delete (PyBool false).

Definition detail_view (cfg : config) (rq : request)
  : Resource.view store obj :=
  Resource.mk_view store obj
    (Some (ResourceDetail.get store obj schema_inst rq articles_resource))
    None
    (Some (ResourceDetail.patch store obj schema_inst rq articles_resource))
    (Some (ResourceDetail.delete store obj schema_inst platform cfg rq
             articles_resource)).

Definition one_article : store :=
  [("7", JDict [("title", JStr "Hello"); ("body", JStr "World")])].

Definition start (s : store) : world store obj := mk_world s [].

(** Requests against [/articles], [/articles/7] and the [author]
    relationship of article 7. *)
Definition article7 : kwargs := [("id", UInt 7)].

Definition etag_on : config := config_with (PyBool true) (PyBool true).

Definition etag_off : config := config_with (PyBool false) (PyBool true).

Definition get7 (h : headers) : request :=
  mk_request "GET" "/articles/7" [] h JNull.

Definition delete7 (args : list (string * string)) : request :=
  mk_request "DELETE" "/articles/7" args [] JNull.

Definition article_body (id attrs : list (string * json)) : json :=
  JDict [("data",
          JDict ([("type", JStr "articles")] ++ id
                 ++ [("attributes", JDict attrs)])%list)].

Definition hello : list (string * json) :=
  [("title", JStr "Hello"); ("body", JStr "World")].

Definition patch7 (id : string) : request :=
  mk_request "PATCH" "/articles/7" [] [] (article_body [("id", JStr id)] hello).

Definition post_articles (attrs : list (string * json)) : request :=
  mk_request "POST" "/articles" [] [] (article_body [] attrs).

Definition author_of_7 (method : string) (data : json) : request :=
  mk_request method "/articles/7/relationships/author" [] []
    (JDict [("data", data)]).

Definition linkage (type id : string) : json :=
  JDict [("type", JStr type); ("id", JStr id)].
End Sample.

(** ** Vocabulary of the statements *)

(** An error entry after the loop body has run on it. *)
Definition stamped (status title : string) (entry : list (string * json))
  : list (string * json) :=
  dict_set "title" (JStr title) (dict_set "status" (JStr status) entry).

(** A linkage object that passes the three tests. *)
Definition linkage_ok (related_type_ : string) (o : list (string * json))
  : Prop :=
  dict_get "type" o = Some (JStr related_type_) /\ dict_get "id" o <> None.

(** The three relationship mutations: [post], [patch], [delete]. *)
Inductive mutation : Type := Add | Replace | Remove.

Section Vocabulary.
Variables store obj schema_inst : Type.
Variable cfg : config.
Variable rq : request.
Variable R : resource store obj schema_inst.

Let SC := schema _ _ _ R.
Let DL := _data_layer _ _ _ R.

(** What [schema.load] does with the request body in [post] and in
    [patch], each with the schema it computes first. *)
Definition post_loads (outcome : load_outcome) : Prop :=
  exists include sch,
    qs_include _ _ _ SC (req_args rq) = inr include
    /\ compute_schema _ _ _ SC (post_schema_kwargs _ _ _ R) (req_args rq)
         include = inr sch
    /\ schema_load _ _ _ SC sch (req_json rq) = outcome.

Definition patch_loads (outcome : load_outcome) : Prop :=
  exists include sch,
    qs_include _ _ _ SC (req_args rq) = inr include
    /\ compute_schema _ _ _ SC
         (dict_set "partial" (JBool true) (patch_schema_kwargs _ _ _ R))
         (req_args rq) include = inr sch
    /\ schema_load _ _ _ SC sch (req_json rq) = outcome.

(** The method, the data layer function it calls and the event that call
    leaves in the trace, for each mutation. *)
Definition mutate (m : mutation)
  : list urlval -> kwargs -> M store obj verb_return :=
  match m with
  | Add => ResourceRelationship.post store obj schema_inst cfg rq R
  | Replace => ResourceRelationship.patch store obj schema_inst cfg rq R
  | Remove => ResourceRelationship.delete store obj schema_inst cfg rq R
  end.

Definition dl_mutation (m : mutation)
  : json -> string -> string -> kwargs -> store -> res (obj * pyval) * store :=
  match m with
  | Add => dl_create_relationship _ _ DL
  | Replace => dl_update_relationship _ _ DL
  | Remove => dl_delete_relationship _ _ DL
  end.

Definition mutation_event (m : mutation)
  : json -> string -> string -> kwargs -> event obj :=
  match m with
  | Add => CreateRelationship
  | Replace => UpdateRelationship
  | Remove => DeleteRelationship
  end.
End Vocabulary.

(** ** class ResourceMeta *)

Module ResourceMeta.

(** A data layer class: the default one, or a class of the application,
    of which the metaclass only asks whether [BaseDataLayer] is in its
    method resolution order. *)
Inductive dl_class : Type :=
| SqlalchemyDataLayer
| Custom (name : string) (inherits_base : bool).

(** The ['class'] entry of a [data_layer] dict: no such key, the key with
    [None], or the key with a class. *)
Inductive class_entry : Type :=
| NoClass
| ClassNone
| Class (c : dl_class).

(** The [data_layer] attribute of a class body. *)
Inductive data_layer_attr : Type :=
| NotADict
| DataLayerDict (cls : class_entry).

(** The [decorators] attribute of a class body, by the sequence type it
    was written with.  A decorator is named by a string. *)
Inductive decorators_attr : Type :=
| AsTuple (l : list string)
| AsList (l : list string).

(** The class body [d], as far as [__new__] reads it. *)
Record class_body : Type := mk_body {
  body_data_layer : option data_layer_attr;
  body_decorators : option decorators_attr
}.

(** What [__new__] sets on the new class: the class whose instance becomes
    [_data_layer] (built from the [data_layer] dict), when there is one, and
    the tuple [decorators]. *)
Record resource_class : Type := mk_class {
  class_data_layer : option dl_class;
  class_decorators : list string
}.

Definition plain_exception (msg : string) : exn := PyExc "Exception" msg.

(** [cls] is the metaclass, so [cls.__name__] is its name whatever class
    is being created. *)
Definition cls_name : string := "ResourceMeta".

(** The [data_layer] part of [__new__] (lines 31-42). *)
Definition choose_data_layer (d : class_body) : res (option dl_class) :=
  match body_data_layer d with
  | None => inr None
  | Some NotADict =>
      inl (plain_exception
             ("You must provide a data layer information as dict in "
              ++ cls_name))
  | Some (DataLayerDict entry) =>
      match entry with
      | Class (Custom _ false) =>
          inl (plain_exception
                 ("You must provide a data layer class inherited from "
                  ++ "BaseDataLayer in " ++ cls_name))
      | Class c => inr (Some c)
      | NoClass => inr (Some SqlalchemyDataLayer)
      | ClassNone =>
          inl (PyExc "TypeError" "'NoneType' object is not callable")
      end
  end.

(** [rv.decorators = (check_headers,)], then [+= d['decorators']]: a tuple
    takes a tuple only. *)
Definition choose_decorators (d : class_body) : res (list string) :=
  match body_decorators d with
  | None => inr ["check_headers"]
  | Some (AsTuple l) => inr ("check_headers" :: l)
  | Some (AsList _) =>
      inl (PyExc "TypeError" "can only concatenate tuple to tuple")
  end.

(** [def __new__(cls, name, bases, d)] *)
Definition new (name : string) (d : class_body) : res resource_class :=
  let? data_layer := choose_data_layer d in
  let? decorators := choose_decorators d in
  inr (mk_class data_layer decorators).
End ResourceMeta.

(** ** The read methods of collections and relationships

    [ResourceList.get] and [ResourceRelationship.get] call two more
    functions of the data layer, the serializer on a list, the pagination
    helper and [url_for].  The trace keeps to the calls of [DataLayer]; the
    two reads below change the store they are given and nothing else. *)

Section Reads.
Variables store obj schema_inst val : Type.

(** [val] is the type of the Python values reached from an object by
    attribute access; [as_str] tells the strings among them. *)
Record ReadLayer : Type := mk_read_layer {
  get_collection :
    list (string * string) -> kwargs -> store -> res (Z * list obj) * store;
  get_relationship :
    string -> string -> string -> kwargs -> store -> res (obj * json) * store;
  dump_many : schema_inst -> store -> list obj -> res json;
  add_pagination_links :
    json -> Z -> list (string * string) -> string -> res json;
  url_for_view : string -> kwargs -> res string;
  url_for_related : string -> list (string * val) -> res string;
  of_obj : obj -> val;
  getattr_ : store -> val -> string -> res val;
  as_str : val -> option string
}.

(** A read of the store that is not logged. *)
Definition read {A} (f : store -> res A * store) : M store obj A :=
  fun w =>
    let (r, s) := f (w_store w) in
    (r, mk_world s (w_trace w)).

(** The attributes [related_view] and [related_view_kwargs] of the
    [Relationship] fields of a schema, by field name.  The fields belong to
    the schema class: what one request writes there, the next one reads. *)
Definition view_table : Type :=
  list (string * (string * list (string * val))).
End Reads.

Arguments read {store obj A} f.

(** [result.update(kvs)]: only a dict has the method. *)
Definition py_update (j : json) (kvs : list (string * json)) : res json :=
  match j with
  | JDict d => inr (JDict (dict_update d kvs))
  | _ => inl (PyExc "AttributeError" "object has no attribute 'update'")
  end.

(** [s[1:-1]] *)
Definition drop_last (s : string) : string :=
  match s with
  | EmptyString => EmptyString
  | String a s' => String.substring 0 (String.length s') (String a s')
  end.

Definition inner (s : string) : string :=
  match s with
  | EmptyString => EmptyString
  | String _ s' => drop_last s'
  end.

(** [s.endswith(c)] for a character [c]. *)
Fixpoint ends_with (c : ascii) (s : string) : bool :=
  match s with
  | EmptyString => false
  | String a EmptyString => Ascii.eqb a c
  | String _ s' => ends_with c s'
  end.

Definition starts_with (c : ascii) (s : string) : bool :=
  match s with
  | String a _ => Ascii.eqb a c
  | EmptyString => false
  end.

Module ResourceListRead.
Section Verbs.
Variables store obj schema_inst val : Type.
Variable rq : request.
Variable R : resource store obj schema_inst.
Variable RL : ReadLayer store obj schema_inst val.

(** [self.view], [self.view_kwargs] when the class has the attribute, and
    [request.view_args]. *)
Variable view : string.
Variable view_kwargs : option pyval.
Variable view_args : kwargs.

Let S := schema _ _ _ R.

Definition before_get (args : list urlval) (kw : kwargs)
  : M store obj unit := ret tt.

Definition after_get (result : json) : M store obj unit := ret tt.

(** [def get(self, *args, **kwargs)] of [ResourceList]: retrieve a
    collection of objects. *)
Definition get (args : list urlval) (kw : kwargs)
  : M store obj verb_return :=
  before_get args kw ;;;
  let qs := req_args rq in
  r <- read (get_collection _ _ _ _ RL qs kw) ;;
  let '(objects_count, objects) := r in
  let schema_kwargs :=
    dict_set "many" (JBool true) (get_schema_kwargs _ _ _ R) in
  include <- lift (qs_include _ _ _ S qs) ;;
  sch <- lift (compute_schema _ _ _ S schema_kwargs qs include) ;;
  result <- (fun w => (dump_many _ _ _ _ RL sch (w_store w) objects, w)) ;;
  let view_kwargs :=
    match view_kwargs with
    | Some v => if is_True v then view_args else []
    | None => []
    end in
  url <- lift (url_for_view _ _ _ _ RL view view_kwargs) ;;
  result <- lift (add_pagination_links _ _ _ _ RL result objects_count qs
                    url) ;;
  result <- lift (py_update result
                    [("meta", JDict [("count", JInt objects_count)])]) ;;
  after_get result ;;;
  ret (RetDoc result).
End Verbs.
End ResourceListRead.

Module ResourceRelationshipRead.
Section Verbs.
Variables store obj schema_inst val : Type.
Variable cfg : config.
Variable rq : request.
Variable R : resource store obj schema_inst.
Variable RL : ReadLayer store obj schema_inst val.

Let S := schema _ _ _ R.

(** The dotted path of a placeholder: [value[1:-1].split('.')] when
    [value] is a string that starts with [<] and ends with [>]. *)
Definition placeholder (value : val) : option (list string) :=
  match as_str _ _ _ _ RL value with
  | Some s =>
      if starts_with "<" s && ends_with ">" s
      then Some (split_on "." (inner s))
      else None
  | None => None
  end.

(** [for field in ...: tmp_obj = getattr(tmp_obj, field)] *)
Fixpoint traverse (s : store) (tmp_obj : val) (path : list string)
  : res val :=
  match path with
  | [] => inr tmp_obj
  | field :: path' =>
      let? tmp_obj := getattr_ _ _ _ _ RL s tmp_obj field in
      traverse s tmp_obj path'
  end.

(** The loop over [copy(related_view_kwargs).items()]: [items] is what is
    left of the copy, [d] the dict itself, which the loop assigns to.  The
    dict is returned as the loop left it, also when an attribute access
    raised. *)
Fixpoint resolve_items (s : store) (o : val) (items d : list (string * val))
  : res unit * list (string * val) :=
  match items with
  | [] => (inr tt, d)
  | (key, value) :: items' =>
      match placeholder value with
      | Some path =>
          match traverse s o path with
          | inr tmp_obj => resolve_items s o items' (dict_set key tmp_obj d)
          | inl e => (inl e, d)
          end
      | None => resolve_items s o items' d
      end
  end.

Definition related_attrs (views : view_table val) (relationship_field : string)
  : res (string * list (string * val)) :=
  match dict_get relationship_field views with
  | Some a => inr a
  | None => inl (PyExc "AttributeError" "related_view")
  end.

(** The [included] part: computed only when [qs.include] is not empty. *)
Definition with_included (s : store) (o : obj) (result : json) : res json :=
  let qs := req_args rq in
  let? include := qs_include _ _ _ S qs in
  match include with
  | [] => inr result
  | _ :: _ =>
      let? include := qs_include _ _ _ S qs in
      let? sch := compute_schema _ _ _ S [] qs include in
      let? serialized := schema_dump _ _ _ S sch s o in
      let? included := py_get serialized "included" (JDict []) in
      py_setitem result "included" included
  end.

(** What follows the loop: the document with its two links. *)
Definition finish (s : store) (o : obj) (data : json) (related_view : string)
  (related_view_kwargs : list (string * val)) : res verb_return :=
  let? related :=
    url_for_related _ _ _ _ RL related_view related_view_kwargs in
  let result :=
    JDict [("links", JDict [("self", JStr (req_path rq));
                            ("related", JStr related)]);
           ("data", data)] in
  let? result := with_included s o result in
  inr (RetDoc result).

(** [def get(self, *args, **kwargs)] of [ResourceRelationship]: get a
    relationship's details.  The table of the fields' view attributes goes
    in and comes out; the two hooks, which do nothing, are left out. *)
Definition get (args : list urlval) (kw : kwargs) (views : view_table val)
  (w : world store obj)
  : (res verb_return * view_table val) * world store obj :=
  match ResourceRelationship._get_relationship_data store obj schema_inst
          cfg rq R with
  | inl e => ((inl e, views), w)
  | inr (relationship_field, model_relationship_field, related_type_,
         related_id_field) =>
      match related_attrs views relationship_field with
      | inl e => ((inl e, views), w)
      | inr (related_view, related_view_kwargs) =>
          match read (get_relationship _ _ _ _ RL model_relationship_field
                        related_type_ related_id_field kw) w with
          | (inl e, w') => ((inl e, views), w')
          | (inr (o, data), w') =>
              let (r, resolved) :=
                resolve_items (w_store w') (of_obj _ _ _ _ RL o)
                  related_view_kwargs related_view_kwargs in
              let views' :=
                dict_set relationship_field (related_view, resolved) views in
              match r with
              | inl e => ((inl e, views'), w')
              | inr _ =>
                  ((finish (w_store w') o data related_view resolved,
                    views'), w')
              end
          end
      end
  end.
End Verbs.
End ResourceRelationshipRead.

(** A validator with no whitespace and no comma in it, as the hexadecimal
    digits of a digest are. *)
Fixpoint plain (s : string) : bool :=
  match s with
  | EmptyString => true
  | String a s' =>
      negb (is_space a) && negb (Ascii.eqb a ",") && plain s'
  end.

(** [c not in s] for a character [c]. *)
Fixpoint lacks (c : ascii) (s : string) : bool :=
  match s with
  | EmptyString => true
  | String a s' => negb (Ascii.eqb a c) && lacks c s'
  end.

(** A document that is no container: [in] and subscription raise
    [TypeError] on it. *)
Definition scalar (j : json) : bool :=
  match j with
  | JNull | JBool _ | JInt _ | JFloat _ _ => true
  | _ => false
  end.

(** The [related] link of the document a verb returned. *)
Definition related_link (r : verb_return) : res json :=
  match r with
  | RetDoc d =>
      let? links := py_getitem d "links" in
      py_getitem links "related"
  | _ => inl (PyExc "TypeError" "not a document")
  end.

(** ** A concrete instance for the read methods

    Attribute values are documents, and an object is reached by its id:
    the attribute [f] of an object is the entry [f] of its attributes in the
    store, the attribute of an attribute that is itself an object the entry
    of that object. *)

Module SampleReads.
Inductive val : Type :=
| Ref (id : string)
| Val (j : json).

Definition getattr_ (s : Sample.store) (v : val) (f : string) : res val :=
  let attrs :=
    match v with
    | Ref id => match dict_get id s with Some a => a | None => JNull end
    | Val j => j
    end in
  match attrs with
  | JDict kvs =>
      match dict_get f kvs with
      | Some x => inr (Val x)
      | None => inl (PyExc "AttributeError" f)
      end
  | _ => inl (PyExc "AttributeError" f)
  end.

Definition as_str (v : val) : option string :=
  match v with
  | Val (JStr s) => Some s
  | _ => None
  end.

Definition show (v : val) : string :=
  match v with
  | Val (JStr s) => s
  | Val (JInt z) => Sample.dec z
  | _ => "?"
  end.

Definition read_layer
  : ReadLayer Sample.store Sample.obj Sample.schema_inst val :=
  mk_read_layer Sample.store Sample.obj Sample.schema_inst val
    (fun qs kw s => (inr (Z.of_nat (List.length s), map fst s), s))
    (fun mf rt idf kw s =>
       (inr (Sample.owner kw,
             match getattr_ s (Ref (Sample.owner kw)) mf with
             | inr a =>
                 match getattr_ s a idf with
                 | inr (Val id) => JDict [("type", JStr rt); ("id", id)]
                 | _ => JNull
                 end
             | inl _ => JNull
             end), s))
    (fun sch s objects =>
       inr (JDict [("data", JList (map JStr objects));
                   ("meta", JDict [("generator", JStr "schema")])]))
    (fun result count qs url =>
       py_setitem result "links" (JDict [("self", JStr url)]))
    (fun view kw =>
       inr (view ++ Sample.join EmptyString
                      (map (fun kv => "/" ++ py_str (snd kv)) kw)))
    (fun view kw =>
       inr (view ++ Sample.join EmptyString
                      (map (fun kv => "/" ++ show (snd kv)) kw)))
    Ref
    getattr_
    as_str.

(** Two articles, each with its author. *)
Definition two_articles : Sample.store :=
  [("7", JDict [("title", JStr "Hello");
                ("author", JDict [("id", JStr "3"); ("name", JStr "Ann")])]);
   ("8", JDict [("title", JStr "Again");
                ("author", JDict [("id", JStr "4"); ("name", JStr "Bob")])])].

(** The [author] field as declared: the related view with its placeholder
    still in place. *)
Definition views : view_table val :=
  [("author", ("/people", [("id", Val (JStr "<author.id>"))]))].

Definition author_of (id : string) : request :=
  mk_request "GET" ("/articles/" ++ id ++ "/relationships/author") [] []
    JNull.

Definition article (id : Z) : kwargs := [("id", UInt id)].

Definition list_articles : request :=
  mk_request "GET" "/articles" [] [] JNull.
End SampleReads.

(** A schema that serializes without links and whose validation messages
    are keyed by field, with a resource built on it; and an update request
    with headers. *)
Module SampleEdge.
Definition load (sch : Sample.schema_inst) (j : json) : load_outcome :=
  match py_getitem j "data" with
  | inr d => Loaded d []
  | inl _ =>
      RaisedValidation
        (JDict [("_schema", JList [JStr "Object must include data key."])])
  end.

Definition dump_doc (sch : Sample.schema_inst) (s : Sample.store)
  (o : Sample.obj) : res json :=
  inr (JDict [("data", JDict [("type", JStr "notes"); ("id", JStr o)])]).

Definition notes : SchemaCap Sample.store Sample.obj Sample.schema_inst :=
  mk_schema Sample.store Sample.obj Sample.schema_inst
    "NoteSchema" [("text", Plain)] [] (fun f => inr f)
    (fun _ => inr []) (fun _ _ include => inr include) load dump_doc.

Definition notes_resource
  : resource Sample.store Sample.obj Sample.schema_inst :=
  mk_resource Sample.store Sample.obj Sample.schema_inst notes None
    Sample.data_layer [] [] [].

Definition post_note (body : json) : request :=
  mk_request "POST" "/notes" [] [] body.

Definition note : json :=
  JDict [("data", JDict [("type", JStr "notes");
                         ("attributes", JDict [("text", JStr "x")])])].

Definition notes_view (rq : request)
  : Resource.view Sample.store Sample.obj :=
  Resource.mk_view Sample.store Sample.obj None
    (Some (ResourceList.post Sample.store Sample.obj Sample.schema_inst rq
             notes_resource))
    None None.

Definition patch7_with (h : headers) : request :=
  mk_request "PATCH" "/articles/7" [] h
    (Sample.article_body [("id", JStr "7")] Sample.hello).

Definition quoted (s : string) : string := dquote ++ s ++ dquote.
End SampleEdge.

(** * Properties *)

(** ** Association lists and strings *)

Lemma str_mem_In (s : string) (l : list string) :
  str_mem s l = true <-> In s l.
Proof.
  unfold str_mem. rewrite existsb_exists. split.
  - intros [x [Hin Heq]]. apply String.eqb_eq in Heq. now subst.
  - intros Hin. exists s. split; [assumption | apply String.eqb_refl].
Qed.

Lemma str_mem_not_In (s : string) (l : list string) :
  str_mem s l = false <-> ~ In s l.
Proof.
  rewrite <- str_mem_In. destruct (str_mem s l); split; congruence.
Qed.

Lemma dict_get_set_same {V} (k : string) (v : V) (d : list (string * V)) :
  dict_get k (dict_set k v d) = Some v.
Proof.
  induction d as [|[k' v'] d IH]; simpl.
  - now rewrite String.eqb_refl.
  - destruct (String.eqb k k') eqn:E; simpl.
    + now rewrite String.eqb_refl.
    + now rewrite E.
Qed.

Lemma dict_get_set_other {V} (k k0 : string) (v : V) (d : list (string * V)) :
  k0 <> k -> dict_get k0 (dict_set k v d) = dict_get k0 d.
Proof.
  intros Hne. induction d as [|[k' v'] d IH]; simpl.
  - destruct (String.eqb k0 k) eqn:E; [|reflexivity].
    apply String.eqb_eq in E. contradiction.
  - destruct (String.eqb k k') eqn:E; simpl.
    + apply String.eqb_eq in E. subst k'.
      destruct (String.eqb k0 k) eqn:E0; [|reflexivity].
      apply String.eqb_eq in E0. contradiction.
    + destruct (String.eqb k0 k'); [reflexivity | exact IH].
Qed.

Lemma truthy_some (o : option string) :
  truthy o = true <-> exists s, o = Some s /\ s <> EmptyString.
Proof.
  destruct o as [[|a s]|]; simpl; split; try discriminate.
  - intros [s [H Hne]]. inversion H. subst. contradiction.
  - intros _. exists (String a s). split; [reflexivity | discriminate].
  - reflexivity.
  - intros [s [H _]]. discriminate.
Qed.

(** ** The dispatch wrapper *)

(** A validator list is cut at the commas and each piece is trimmed; header
    names are found whatever their case. *)
Example etag_tokens_trimmed :
  Resource.etag_tokens " abc ,*,  16263" = ["abc"; "*"; "16263"]
  /\ Resource.etag_tokens EmptyString = [EmptyString]
  /\ headers_get "If-Match" [("if-match", "*")] = Some "*".
Proof. repeat split. Qed.

Section DispatchFacts.
Variables store obj : Type.
Variable P : Platform.
Variable cfg : config.
Variable rq : request.

Local Abbreviation dispatch := (Resource.dispatch_request store obj P cfg rq).
Local Abbreviation find := (Resource.find_method store obj rq).
Local Abbreviation build := (Resource.build_response P).
Local Abbreviation tokens := Resource.etag_tokens.
Local Abbreviation failed :=
  (Resource.error_response P Resource.precondition_failed).
Local Abbreviation unchanged :=
  (Resource.error_response P Resource.not_modified).

Lemma dispatch_success v method args kw w response w' :
  find v = Some method ->
  method args kw w = (inr response, w') ->
  dispatch v args kw w =
    (inr (Resource.etag_handling P cfg rq (fst (build response))
            (snd (build response))), w').
Proof.
  intros Hf Hm. unfold Resource.dispatch_request. rewrite Hf, Hm.
  now destruct (build response).
Qed.

Lemma dispatch_jsonapi_error v method args kw w e w' :
  find v = Some method ->
  method args kw w = (inl (JsonApi e), w') ->
  dispatch v args kw w =
    (inr (Some (Resource.error_response P e default_headers)), w').
Proof.
  intros Hf Hm. unfold Resource.dispatch_request. now rewrite Hf, Hm.
Qed.

(** C1 (defect).  The claim asks that the response built from a
    successful verb be emitted whether or not the ETag protocol is
    enabled.  In the code the [return resp] statement sits inside the
    [if current_app.config['ETAG'] is True:] block: whenever the flag is
    not [True], a verb that returned normally makes [dispatch_request]
    return [None], whatever response was built. *)
Theorem dispatch_returns_none_when_etag_disabled
  v method args kw w response w' :
  find v = Some method ->
  method args kw w = (inr response, w') ->
  is_True (ETAG cfg) = false ->
  dispatch v args kw w = (inr None, w').
Proof.
  intros Hf Hm Hoff. rewrite (dispatch_success _ _ _ _ _ _ _ Hf Hm).
  unfold Resource.etag_handling. now rewrite Hoff.
Qed.

(** C2 (amended).  With the ETag protocol enabled, a successful verb
    yields the built response with the hash of its body stored under
    [ETag] (body and status untouched), subject to two tests.  A non-empty
    [If-Match] header whose comma-separated, trimmed tokens contain
    neither the hash nor [*] gives the PreconditionFailed response (412);
    a non-empty [If-Match] that does contain one of them gives the tagged
    response, and [If-None-Match] is not looked at.  Only when [If-Match]
    is absent or empty is [If-None-Match] tested: non-empty and containing
    the hash or [*] gives the NotModified response (304), anything else
    the tagged response. *)
Theorem conditional_request_protocol
  v method args kw w response w' :
  find v = Some method ->
  method args kw w = (inr response, w') ->
  is_True (ETAG cfg) = true ->
  let resp := fst (build response) in
  let h := snd (build response) in
  let etag := sha1_hexdigest P (resp_data resp) in
  let tagged := set_header "ETag" (JStr etag) resp in
  let if_match := headers_get "If-Match" (req_headers rq) in
  let if_none_match := headers_get "If-None-Match" (req_headers rq) in
  let result := dispatch v args kw w in
  snd result = w' /\
  dict_get "ETag" (resp_headers tagged) = Some (JStr etag) /\
  resp_data tagged = resp_data resp /\
  resp_status tagged = resp_status resp /\
  (forall s, if_match = Some s -> s <> EmptyString ->
     (~ In etag (tokens s) /\ ~ In "*" (tokens s) ->
      fst result = inr (Some (failed h)) /\ resp_status (failed h) = 412)
     /\ (In etag (tokens s) \/ In "*" (tokens s) ->
         fst result = inr (Some tagged))) /\
  (truthy if_match = false ->
   forall s, if_none_match = Some s -> s <> EmptyString ->
     (In etag (tokens s) \/ In "*" (tokens s) ->
      fst result = inr (Some (unchanged h))
      /\ resp_status (unchanged h) = 304)
     /\ (~ In etag (tokens s) /\ ~ In "*" (tokens s) ->
         fst result = inr (Some tagged))) /\
  (truthy if_match = false -> truthy if_none_match = false ->
   fst result = inr (Some tagged)).
Proof.
  intros Hf Hm Hon resp h etag tagged if_match if_none_match result.
  subst result. rewrite (dispatch_success _ _ _ _ _ _ _ Hf Hm).
  fold resp h. unfold Resource.etag_handling. rewrite Hon.
  fold etag tagged if_match if_none_match. simpl fst. simpl snd.
  split; [reflexivity|].
  split; [apply dict_get_set_same|].
  split; [reflexivity|]. split; [reflexivity|].
  split; [|split].
  - intros s Hs Hne. rewrite Hs.
    assert (Ht : truthy (Some s) = true).
    { apply truthy_some. now exists s. }
    rewrite Ht. split.
    + intros [H1 H2].
      apply str_mem_not_In in H1. apply str_mem_not_In in H2.
      rewrite H1, H2. simpl. split; reflexivity.
    + intros [H1 | H2].
      * apply str_mem_In in H1. rewrite H1. reflexivity.
      * apply str_mem_In in H2. rewrite H2.
        now rewrite andb_false_r.
  - intros Hnm s Hs Hne. rewrite Hnm, Hs.
    assert (Ht : truthy (Some s) = true).
    { apply truthy_some. now exists s. }
    rewrite Ht. split.
    + intros [H1 | H2].
      * apply str_mem_In in H1. rewrite H1. simpl. split; reflexivity.
      * apply str_mem_In in H2. rewrite H2, orb_true_r.
        split; reflexivity.
    + intros [H1 H2].
      apply str_mem_not_In in H1. apply str_mem_not_In in H2.
      now rewrite H1, H2.
  - intros Hnm Hnn. now rewrite Hnm, Hnn.
Qed.
End DispatchFacts.

(** ** Single-item resources *)

Lemma opt_is_eq (o : option string) (s : string) :
  opt_is o s = true <-> o = Some s.
Proof.
  destruct o as [s'|]; simpl; split; try discriminate.
  - intros H. apply String.eqb_eq in H. now subst.
  - intros H. inversion H. apply String.eqb_refl.
Qed.

Lemma is_False_eq (v : pyval) : is_False v = true <-> v = PyBool false.
Proof.
  destruct v as [|[|]| |]; simpl; split; congruence.
Qed.

Lemma dict_has_false {V} (k : string) (d : list (string * V)) :
  dict_has k d = false <-> dict_get k d = None.
Proof.
  unfold dict_has. destruct (dict_get k d); split; congruence.
Qed.

Section DetailFacts.
Variables store obj schema_inst : Type.
Variable P : Platform.
Variable cfg : config.
Variable rq : request.
Variable R : resource store obj schema_inst.

Local Abbreviation DL := (_data_layer _ _ _ R).
Local Abbreviation SC := (schema _ _ _ R).
Local Abbreviation detail_get :=
  (ResourceDetail.get store obj schema_inst rq R).
Local Abbreviation detail_patch :=
  (ResourceDetail.patch store obj schema_inst rq R).
Local Abbreviation detail_delete :=
  (ResourceDetail.delete store obj schema_inst P cfg rq R).

(** The soft-delete test, clause by clause. *)
Lemma hard_delete_spec :
  ResourceDetail.hard_delete store obj schema_inst cfg rq R = true <->
  (dict_get "deleted_at" (_declared_fields _ _ _ SC) = None
   \/ args_get "permanent" rq = Some "true"
   \/ SOFT_DELETE cfg = PyBool false).
Proof.
  unfold ResourceDetail.hard_delete.
  rewrite !orb_true_iff, negb_true_iff, dict_has_false, opt_is_eq,
    is_False_eq.
  tauto.
Qed.

(** C3.  A single-item delete whose fetch found an object makes exactly one
    more data layer call.  It is [delete_object] exactly when the schema
    declares no [deleted_at] field, or the [permanent] query flag is the
    string [true], or [SOFT_DELETE] is [False]; in every other case it is
    [update_object] with the data [{deleted_at: <now>}], and [delete_object]
    does not occur in the trace.  When that call returns, the method
    returns the bare success-message document, which the wrapper turns into
    a response of status 200 whose body is that document. *)
Theorem delete_is_soft_unless_permanent args kw s0 o s1 :
  let trashed := opt_is (args_get "permanent" rq) "true" in
  dl_get_object _ _ DL kw (Some trashed) s0 = (inr (Some o), s1) ->
  let run := detail_delete args kw (mk_world s0 []) in
  let physical :=
    dict_get "deleted_at" (_declared_fields _ _ _ SC) = None
    \/ args_get "permanent" rq = Some "true"
    \/ SOFT_DELETE cfg = PyBool false in
  let stamp := JDict [("deleted_at", JStr (now_str P))] in
  let message := ResourceDetail.deleted_message in
  (physical ->
   w_trace (snd run) = [GetObject kw (Some trashed); DeleteObject o kw]
   /\ (fst (dl_delete_object _ _ DL o kw s1) = inr tt ->
       fst run = inr (RetDoc message))) /\
  (~ physical ->
   w_trace (snd run) = [GetObject kw (Some trashed); UpdateObject o stamp kw]
   /\ dict_get "deleted_at" [("deleted_at", JStr (now_str P))]
      = Some (JStr (now_str P))
   /\ (fst (dl_update_object _ _ DL o stamp kw s1) = inr tt ->
       fst run = inr (RetDoc message))) /\
  (physical <-> exists o' kw', In (DeleteObject o' kw') (w_trace (snd run))) /\
  (forall r, fst run = inr r ->
     r = RetDoc message
     /\ resp_status (fst (Resource.build_response P r)) = 200
     /\ resp_data (fst (Resource.build_response P r))
        = json_dumps P (stamp_version message)).
Proof.
  intros trashed Hget run physical stamp message.
  assert (Hrun :
    run =
    (if ResourceDetail.hard_delete store obj schema_inst cfg rq R
     then (match fst (dl_delete_object _ _ DL o kw s1) with
           | inl e => inl e | inr _ => inr (RetDoc message) end,
           mk_world (snd (dl_delete_object _ _ DL o kw s1))
             [GetObject kw (Some trashed); DeleteObject o kw])
     else (match fst (dl_update_object _ _ DL o stamp kw s1) with
           | inl e => inl e | inr _ => inr (RetDoc message) end,
           mk_world (snd (dl_update_object _ _ DL o stamp kw s1))
             [GetObject kw (Some trashed); UpdateObject o stamp kw]))).
  { subst run. unfold ResourceDetail.delete, ResourceDetail.before_delete,
      ResourceDetail.after_delete, bind, call, ret. simpl.
    fold trashed. rewrite Hget. cbn [w_store w_trace fst snd app].
    destruct (ResourceDetail.hard_delete store obj schema_inst cfg rq R);
      cbn [w_store w_trace fst snd app].
    - destruct (dl_delete_object _ _ DL o kw s1) as [[e|[]] s2]; reflexivity.
    - fold stamp.
      destruct (dl_update_object _ _ DL o stamp kw s1) as [[e|[]] s2];
        reflexivity. }
  pose proof hard_delete_spec as Hspec. fold physical in Hspec.
  destruct (ResourceDetail.hard_delete store obj schema_inst cfg rq R) eqn:Hd;
    rewrite Hrun; cbn [fst snd w_trace].
  - assert (Hp : physical) by (now apply Hspec).
    split; [|split; [|split]].
    + intros _. split; [reflexivity|]. intros H. now rewrite H.
    + intros Hn. contradiction.
    + split; [|intros _; exact Hp].
      intros _. exists o, kw. simpl. auto.
    + intros r Hr.
      destruct (fst (dl_delete_object _ _ DL o kw s1)); [discriminate|].
      inversion Hr. repeat split.
  - assert (Hp : ~ physical).
    { intros Hp. apply Hspec in Hp. discriminate. }
    split; [|split; [|split]].
    + intros Hn. contradiction.
    + intros _. split; [reflexivity|]. split; [reflexivity|].
      intros H. now rewrite H.
    + split; [intros Hn; contradiction|].
      intros [o' [kw' [H|[H|[]]]]]; discriminate.
    + intros r Hr.
      destruct (fst (dl_update_object _ _ DL o stamp kw s1)); [discriminate|].
      inversion Hr. repeat split.
Qed.

Lemma json_eq_str_false (j : json) (s : string) :
  json_eq_str j s = false <-> j <> JStr s.
Proof.
  destruct j; simpl; split; try congruence; try discriminate.
  - intros H Heq. inversion Heq. subst. now rewrite String.eqb_refl in H.
  - intros H. destruct (String.eqb s0 s) eqn:E; [|reflexivity].
    apply String.eqb_eq in E. subst. contradiction.
Qed.

(** C9.  A single-item get makes one data layer call, [get_object].  The
    [get_trashed] keyword is passed (as [True]) exactly when the
    [get_trashed] query parameter is the string [true]; for any other value,
    or none, the call is made without the keyword.  Whenever that call
    returns no object the method raises ObjectNotFound, whose status is
    404. *)
Theorem get_fetches_trashed_only_on_true args kw w :
  let flag :=
    if opt_is (args_get "get_trashed" rq) "true" then Some true else None in
  let run := detail_get args kw w in
  w_trace (snd run) = (w_trace w ++ [GetObject kw flag])%list /\
  (flag = Some true <-> args_get "get_trashed" rq = Some "true") /\
  (flag = None <-> args_get "get_trashed" rq <> Some "true") /\
  (forall s1,
     dl_get_object _ _ DL kw flag (w_store w) = (inr None, s1) ->
     run = (inl object_not_found,
            mk_world s1 (w_trace w ++ [GetObject kw flag])%list)
     /\ exists e, object_not_found = JsonApi e
                  /\ exc_cls e = ObjectNotFound
                  /\ exc_status (exc_cls e) = 404).
Proof.
  intros flag run.
  assert (Hflag : flag = Some true <-> args_get "get_trashed" rq = Some "true").
  { subst flag. rewrite <- opt_is_eq.
    destruct (opt_is (args_get "get_trashed" rq) "true");
      split; congruence. }
  assert (Hfetch :
    ResourceDetail.fetch store obj schema_inst rq R kw w =
    (fst (dl_get_object _ _ DL kw flag (w_store w)),
     mk_world (snd (dl_get_object _ _ DL kw flag (w_store w)))
       (w_trace w ++ [GetObject kw flag])%list)).
  { unfold ResourceDetail.fetch, call. subst flag.
    destruct (opt_is (args_get "get_trashed" rq) "true");
      match goal with
      | |- context [dl_get_object _ _ ?d ?k ?f ?s] =>
          destruct (dl_get_object _ _ d k f s)
      end; reflexivity. }
  split; [|split; [exact Hflag | split]].
  - subst run. unfold ResourceDetail.get, ResourceDetail.before_get,
      ResourceDetail.after_get, bind, ret, lift, dump.
    rewrite Hfetch.
    destruct (fst (dl_get_object _ _ DL kw flag (w_store w)))
      as [e|[o|]]; cbn [snd w_trace w_store]; try reflexivity.
    destruct (qs_include _ _ _ _ _) as [e|include];
      cbn [snd w_trace]; [reflexivity|].
    destruct (compute_schema _ _ _ _ _ _ _) as [e|sch];
      cbn [snd w_trace]; [reflexivity|].
    destruct (schema_dump _ _ _ _ _ _ _) as [e|result]; reflexivity.
  - subst flag.
    destruct (opt_is (args_get "get_trashed" rq) "true") eqn:E.
    + apply opt_is_eq in E. split; [discriminate | intros H; contradiction].
    + split; [|reflexivity].
      intros _ H. apply opt_is_eq in H. congruence.
  - intros s1 Hnone. split.
    + subst run. unfold ResourceDetail.get, ResourceDetail.before_get,
        bind, ret, raise.
      rewrite Hfetch, Hnone. reflexivity.
    + eexists. repeat split.
Qed.

(** C4.  A single-item update whose body has loaded without errors, and
    whose [data] node has no [id] or an [id] different from the string form
    of the URL identifier (the kwarg named by [url_field], [id] when that is
    not configured), raises BadRequest with source [/data/id] and leaves
    the world as it was: the trace gains no event, so neither [get_object]
    nor [update_object] is called.  Through the dispatch wrapper this is the
    error response of status 400. *)
Theorem patch_rejects_identifier_mismatch args kw w include sch data body d :
  qs_include _ _ _ SC (req_args rq) = inr include ->
  compute_schema _ _ _ SC
    (dict_set "partial" (JBool true) (patch_schema_kwargs _ _ _ R))
    (req_args rq) include = inr sch ->
  schema_load _ _ _ SC sch (req_json rq) = Loaded data [] ->
  req_json rq = JDict body ->
  dict_get "data" body = Some (JDict d) ->
  (dict_get "id" d = None
   \/ exists id v,
        dict_get "id" d = Some id
        /\ dict_get (match url_field _ _ _ R with Some f => f | None => "id"
                     end) kw = Some v
        /\ id <> JStr (py_str v)) ->
  exists detail,
    detail_patch args kw w = (inl (bad_request "/data/id" detail), w)
    /\ forall v,
         Resource.find_method store obj rq v = Some detail_patch ->
         Resource.dispatch_request store obj P cfg rq v args kw w
         = (inr (Some (Resource.error_response P
                         (mk_exc BadRequest (JStr "/data/id") detail)
                         default_headers)), w)
         /\ resp_status (Resource.error_response P
                           (mk_exc BadRequest (JStr "/data/id") detail)
                           default_headers) = 400.
Proof.
  intros Hinc Hsch Hload Hbody Hdata Hid.
  assert (Hcheck : exists detail,
    ResourceDetail.check_id store obj schema_inst R (req_json rq) kw
    = inl (bad_request "/data/id" detail)).
  { unfold ResourceDetail.check_id, ResourceDetail.url_id.
    rewrite Hbody. simpl. rewrite Hdata. simpl. unfold dict_has.
    destruct Hid as [Hno | [id [v [Hsome [Hkw Hne]]]]].
    - rewrite Hno. simpl. eexists. reflexivity.
    - rewrite Hsome. simpl. rewrite Hkw.
      apply json_eq_str_false in Hne. rewrite Hne. simpl.
      eexists. reflexivity. }
  destruct Hcheck as [detail Hcheck]. exists detail.
  assert (Hrun :
    detail_patch args kw w = (inl (bad_request "/data/id" detail), w)).
  { unfold ResourceDetail.patch, bind, lift.
    rewrite Hinc, Hsch, Hload, Hcheck. reflexivity. }
  split; [exact Hrun|].
  intros v Hfind. split; [|reflexivity].
  unfold bad_request in Hrun.
  exact (dispatch_jsonapi_error store obj P cfg rq _ _ _ _ _ _ _ Hfind Hrun).
Qed.
End DetailFacts.

(** ** Loading a body: create and update *)

Lemma stamped_status status title entry :
  dict_get "status" (stamped status title entry) = Some (JStr status).
Proof.
  unfold stamped. rewrite dict_get_set_other by discriminate.
  apply dict_get_set_same.
Qed.

Lemma stamped_title status title entry :
  dict_get "title" (stamped status title entry) = Some (JStr title).
Proof. unfold stamped. apply dict_get_set_same. Qed.

Lemma stamped_other status title entry k :
  k <> "status" -> k <> "title" ->
  dict_get k (stamped status title entry) = dict_get k entry.
Proof.
  intros H1 H2. unfold stamped. now rewrite !dict_get_set_other.
Qed.

Lemma stamp_entries_dicts status title (ds : list (list (string * json))) :
  stamp_entries status title (map JDict ds)
  = inr (map (fun d => JDict (stamped status title d)) ds).
Proof.
  induction ds as [|d ds IH]; simpl; [reflexivity|].
  now rewrite IH.
Qed.

Lemma stamp_errors_dicts status title m ds :
  dict_get "errors" m = Some (JList (map JDict ds)) ->
  stamp_errors status title (JDict m)
  = inr (JDict (dict_set "errors"
                  (JList (map (fun d => JDict (stamped status title d)) ds))
                  m)).
Proof.
  intros H. unfold stamp_errors. simpl. rewrite H. simpl.
  now rewrite stamp_entries_dicts.
Qed.

Section LoadFacts.
Variables store obj schema_inst : Type.
Variable P : Platform.
Variable rq : request.
Variable R : resource store obj schema_inst.

Local Abbreviation DL := (_data_layer _ _ _ R).
Local Abbreviation SC := (schema _ _ _ R).
Local Abbreviation list_post :=
  (ResourceList.post store obj schema_inst rq R).
Local Abbreviation detail_patch :=
  (ResourceDetail.patch store obj schema_inst rq R).

Local Abbreviation post_loads := (post_loads store obj schema_inst rq R).
Local Abbreviation patch_loads := (patch_loads store obj schema_inst rq R).

Lemma post_after_load outcome args kw w :
  post_loads outcome ->
  list_post args kw w =
  match outcome with
  | RaisedIncorrectType messages =>
      (let? errors := stamp_errors "409" "Incorrect type" messages in
       inr (RetPair errors 409), w)
  | RaisedValidation messages =>
      (let? errors := stamp_errors "422" "Validation error" messages in
       inr (RetPair errors 422), w)
  | Loaded data (e :: es) =>
      (let? errors := stamp_errors "422" "Validation error"
                        (JDict (e :: es)) in
       inr (RetPair errors 422), w)
  | _ => list_post args kw w
  end.
Proof.
  intros [include [sch [Hi [Hs Hl]]]].
  destruct outcome as [data [|e es]|m|m|e]; try reflexivity;
    unfold ResourceList.post, bind, lift, ret; rewrite Hi, Hs, Hl;
    match goal with
    | |- context [stamp_errors ?a ?b ?c] => destruct (stamp_errors a b c)
    end; reflexivity.
Qed.

Lemma patch_after_load outcome args kw w :
  patch_loads outcome ->
  detail_patch args kw w =
  match outcome with
  | RaisedIncorrectType messages =>
      (let? errors := stamp_errors "409" "Incorrect type" messages in
       inr (RetPair errors 409), w)
  | RaisedValidation messages =>
      (let? errors := stamp_errors "422" "Validation error" messages in
       inr (RetPair errors 422), w)
  | Loaded data (e :: es) =>
      (let? errors := stamp_errors "422" "Validation error"
                        (JDict (e :: es)) in
       inr (RetPair errors 422), w)
  | _ => detail_patch args kw w
  end.
Proof.
  intros [include [sch [Hi [Hs Hl]]]].
  destruct outcome as [data [|e es]|m|m|e]; try reflexivity;
    unfold ResourceDetail.patch, bind, lift, ret; rewrite Hi, Hs, Hl;
    match goal with
    | |- context [stamp_errors ?a ?b ?c] => destruct (stamp_errors a b c)
    end; reflexivity.
Qed.

(** C8.  When the load of a create or update body fails with error
    entries [ds] under the [errors] key of its messages, the method returns
    that same document with every entry stamped, and makes no data layer
    call.  A structural-type mismatch ([IncorrectTypeError]) stamps status
    ['409'] and title [Incorrect type] and returns status 409; a validation
    failure, raised or returned in [errors], stamps ['422'] and
    [Validation error] and returns 422.  The returned document holds one
    stamped entry for each entry of the load, all of them, in order; the
    wrapper keeps the status the method returned. *)
Theorem load_errors_are_stamped_and_batched m ds :
  dict_get "errors" m = Some (JList (map JDict ds)) ->
  let entries status title :=
    map (fun d => JDict (stamped status title d)) ds in
  let doc status title :=
    JDict (dict_set "errors" (JList (entries status title)) m) in
  let conflict := RetPair (doc "409" "Incorrect type") 409 in
  let invalid := RetPair (doc "422" "Validation error") 422 in
  (forall args kw w,
     (post_loads (RaisedIncorrectType (JDict m)) ->
      list_post args kw w = (inr conflict, w))
     /\ (post_loads (RaisedValidation (JDict m)) ->
         list_post args kw w = (inr invalid, w))
     /\ (forall data, post_loads (Loaded data m) ->
         list_post args kw w = (inr invalid, w))
     /\ (patch_loads (RaisedIncorrectType (JDict m)) ->
         detail_patch args kw w = (inr conflict, w))
     /\ (patch_loads (RaisedValidation (JDict m)) ->
         detail_patch args kw w = (inr invalid, w))
     /\ (forall data, patch_loads (Loaded data m) ->
         detail_patch args kw w = (inr invalid, w))) /\
  (forall status title,
     py_getitem (doc status title) "errors"
     = inr (JList (entries status title))
     /\ List.length (entries status title) = List.length ds
     /\ (forall i d, nth_error ds i = Some d ->
           exists e,
             nth_error (entries status title) i = Some e
             /\ py_getitem e "status" = inr (JStr status)
             /\ py_getitem e "title" = inr (JStr title)
             /\ forall k, k <> "status" -> k <> "title" ->
                  py_getitem e k = py_getitem (JDict d) k)) /\
  resp_status (fst (Resource.build_response P conflict)) = 409 /\
  resp_status (fst (Resource.build_response P invalid)) = 422.
Proof.
  intros Herr entries doc conflict invalid.
  assert (Hne : exists e es, m = e :: es).
  { destruct m as [|e es]; [discriminate | eauto]. }
  split; [|split; [|split; reflexivity]].
  - intros args kw w.
    split; [|split; [|split; [|split; [|split]]]];
      first [intros data Hl | intros Hl].
    + rewrite (post_after_load _ args kw w Hl).
      now rewrite (stamp_errors_dicts _ _ _ _ Herr).
    + rewrite (post_after_load _ args kw w Hl).
      now rewrite (stamp_errors_dicts _ _ _ _ Herr).
    + rewrite (post_after_load _ args kw w Hl).
      destruct Hne as [e [es Hm]]. rewrite Hm. rewrite <- Hm.
      now rewrite (stamp_errors_dicts _ _ _ _ Herr).
    + rewrite (patch_after_load _ args kw w Hl).
      now rewrite (stamp_errors_dicts _ _ _ _ Herr).
    + rewrite (patch_after_load _ args kw w Hl).
      now rewrite (stamp_errors_dicts _ _ _ _ Herr).
    + rewrite (patch_after_load _ args kw w Hl).
      destruct Hne as [e [es Hm]]. rewrite Hm. rewrite <- Hm.
      now rewrite (stamp_errors_dicts _ _ _ _ Herr).
  - intros status title. split; [|split].
    + unfold doc. simpl. now rewrite dict_get_set_same.
    + unfold entries. apply length_map.
    + intros i d Hi. exists (JDict (stamped status title d)).
      split; [|split; [|split]].
      * unfold entries. now rewrite nth_error_map, Hi.
      * simpl. now rewrite stamped_status.
      * simpl. now rewrite stamped_title.
      * intros k H1 H2. simpl. now rewrite stamped_other.
Qed.

(** C5.  A create whose body loads with no errors, whose object the data
    layer creates and whose serialized document has a [self] link under
    [data.links], returns that document with status 201 and the headers
    [{Location: <that self link>}], after the one data layer call
    [create_object data kwargs].  The response the wrapper builds from it
    has status 201, carries the same [Location] header, and its body is the
    encoding of a document whose [data] node is the one the link was read
    from. *)
Theorem post_returns_created_with_location
  args kw s0 t0 include sch data o s1 result d links self :
  qs_include _ _ _ SC (req_args rq) = inr include ->
  compute_schema _ _ _ SC (post_schema_kwargs _ _ _ R) (req_args rq) include
  = inr sch ->
  schema_load _ _ _ SC sch (req_json rq) = Loaded data [] ->
  dl_create_object _ _ DL data kw s0 = (inr o, s1) ->
  schema_dump _ _ _ SC sch s1 o = inr result ->
  py_getitem result "data" = inr d ->
  py_getitem d "links" = inr links ->
  py_getitem links "self" = inr self ->
  let created := RetTriple result 201 [("Location", self)] in
  let resp := fst (Resource.build_response P created) in
  list_post args kw (mk_world s0 t0)
  = (inr created, mk_world s1 (t0 ++ [CreateObject data kw])%list)
  /\ resp_status resp = 201
  /\ dict_get "Location" (resp_headers resp) = Some self
  /\ (exists body,
        resp_data resp = json_dumps P body
        /\ py_getitem body "data" = inr d).
Proof.
  intros Hi Hs Hl Hcreate Hdump Hd Hlinks Hself created resp.
  split; [|split; [reflexivity | split]].
  - unfold ResourceList.post, ResourceList.before_post,
      ResourceList.after_post, bind, lift, ret, call, dump.
    rewrite Hi, Hs, Hl. cbn [w_store w_trace].
    rewrite Hcreate. cbn [w_store w_trace].
    rewrite Hdump, Hd, Hlinks, Hself. reflexivity.
  - subst resp created. simpl.
    destruct (String.eqb "Content-Type" "Location") eqn:E;
      [discriminate E | reflexivity].
  - exists (stamp_version result). split; [reflexivity|].
    destruct result; try discriminate Hd.
    simpl in *. rewrite dict_get_set_other by discriminate.
    exact Hd.
Qed.
End LoadFacts.

(** ** Relationship resources *)

Lemma check_linkage_dict related_type_ detail d :
  check_linkage related_type_ detail (JDict d) =
  match dict_get "type" d with
  | None => inl (bad_request "/data/type" missing_type)
  | Some t =>
      match dict_get "id" d with
      | None => inl (bad_request "/data/id" missing_id)
      | Some _ =>
          if json_eq_str t related_type_ then inr tt
          else inl (JsonApi (mk_exc InvalidType (JStr "/data/type") detail))
      end
  end.
Proof.
  unfold check_linkage. simpl. unfold dict_has.
  destruct (dict_get "type" d) as [t|]; simpl; [|reflexivity].
  destruct (dict_get "id" d) as [i|]; simpl; [|reflexivity].
  now destruct (json_eq_str t related_type_).
Qed.

Lemma check_linkage_ok related_type_ detail d :
  linkage_ok related_type_ d ->
  check_linkage related_type_ detail (JDict d) = inr tt.
Proof.
  intros [Ht Hi]. rewrite check_linkage_dict, Ht.
  destruct (dict_get "id" d); [|contradiction].
  simpl. now rewrite String.eqb_refl.
Qed.

Lemma check_linkages_skip related_type_ detail pre l :
  Forall (linkage_ok related_type_) pre ->
  check_linkages related_type_ detail (map JDict pre ++ l)%list
  = check_linkages related_type_ detail l.
Proof.
  induction 1 as [|d pre Hd _ IH]; simpl; [reflexivity|].
  now rewrite (check_linkage_ok _ _ _ Hd).
Qed.

Lemma rewrite_self_present path kvs ls v :
  dict_get "links" kvs = Some (JDict ls) ->
  dict_get "self" ls = Some v ->
  v <> JNull ->
  rewrite_self path (JDict kvs)
  = inr (JDict (dict_set "links" (JDict (dict_set "self" (JStr path) ls))
                  kvs)).
Proof.
  intros Hl Hs Hv. unfold rewrite_self. simpl. rewrite Hl. simpl.
  rewrite Hs. destruct v; try reflexivity. contradiction.
Qed.

Lemma rewrite_self_absent path kvs :
  (dict_get "links" kvs = None
   \/ exists ls, dict_get "links" kvs = Some (JDict ls)
                 /\ (dict_get "self" ls = None
                     \/ dict_get "self" ls = Some JNull)) ->
  rewrite_self path (JDict kvs) = inr (JDict kvs).
Proof.
  unfold rewrite_self. simpl.
  intros [Hn | [ls [Hl [Hs | Hs]]]].
  - now rewrite Hn.
  - rewrite Hl. simpl. now rewrite Hs.
  - rewrite Hl. simpl. now rewrite Hs.
Qed.

Section RelationshipFacts.
Variables store obj schema_inst : Type.
Variable cfg : config.
Variable rq : request.
Variable R : resource store obj schema_inst.

Local Abbreviation SC := (schema _ _ _ R).
Local Abbreviation rel_data :=
  (ResourceRelationship._get_relationship_data store obj schema_inst cfg rq R).
Local Abbreviation includes_with :=
  (ResourceRelationship.includes_with store obj schema_inst rq R).
Local Abbreviation perform := (mutate store obj schema_inst cfg rq R).
Local Abbreviation storage_call := (dl_mutation store obj schema_inst R).
Local Abbreviation logged := (mutation_event obj).

Ltac open_mutation m :=
  destruct m;
  unfold mutate, dl_mutation, mutation_event,
    ResourceRelationship.post, ResourceRelationship.patch,
    ResourceRelationship.delete, ResourceRelationship.before_post,
    ResourceRelationship.before_patch, ResourceRelationship.before_delete,
    ResourceRelationship.after_post, ResourceRelationship.after_patch,
    ResourceRelationship.after_delete, bind, lift, ret, call, dump.

Lemma includes_with_has rf includes :
  includes_with rf = inr includes -> In rf includes.
Proof.
  unfold ResourceRelationship.includes_with.
  destruct (qs_include _ _ _ _ _) as [e|inc]; [discriminate|].
  destruct (str_mem rf inc) eqn:E; simpl; intros H; inversion H; subst.
  - now apply str_mem_In.
  - apply in_or_app. right. now left.
Qed.

(** A failed check ends the method where it stands. *)
Lemma mutate_rejected m args kw w rf mrf rt rif e :
  rel_data = inr (rf, mrf, rt, rif) ->
  check_data_node (req_json rq) rt = inl e ->
  perform m args kw w = (inl e, w).
Proof.
  intros Hrel Hc. open_mutation m; rewrite Hrel; simpl; now rewrite Hc.
Qed.

(** A passed check is followed by the data layer call, the only one. *)
Lemma mutate_trace m args kw w rf mrf rt rif :
  rel_data = inr (rf, mrf, rt, rif) ->
  check_data_node (req_json rq) rt = inr tt ->
  snd (perform m args kw w)
  = mk_world (snd (storage_call m (req_json rq) mrf rif kw (w_store w)))
      (w_trace w ++ [logged m (req_json rq) mrf rif kw])%list.
Proof.
  intros Hrel Hc.
  open_mutation m; rewrite Hrel; simpl; rewrite Hc;
    match goal with
    | |- context [?f store obj (_data_layer _ _ _ R) ?j ?a ?b ?k ?s] =>
        destruct (f store obj (_data_layer _ _ _ R) j a b k s)
          as [[e|[obj_ updated]] s1]
    end; cbn [fst snd w_store w_trace]; try reflexivity;
    destruct (ResourceRelationship.includes_with _ _ _ _ _ _) as [e|inc];
    cbn [fst snd]; try reflexivity;
    destruct (compute_schema _ _ _ _ _ _ _) as [e|sch];
    cbn [fst snd]; try reflexivity;
    try (destruct (is_False updated); cbn [fst snd]; try reflexivity);
    destruct (schema_dump _ _ _ _ _ _ _) as [e|result];
    cbn [fst snd]; try reflexivity;
    destruct (rewrite_self _ _); reflexivity.
Qed.

(** What the method returns once the data layer has answered. *)
Lemma mutate_result m args kw w rf mrf rt rif obj_ updated s1 includes sch :
  rel_data = inr (rf, mrf, rt, rif) ->
  check_data_node (req_json rq) rt = inr tt ->
  storage_call m (req_json rq) mrf rif kw (w_store w)
  = (inr (obj_, updated), s1) ->
  includes_with rf = inr includes ->
  compute_schema _ _ _ SC [] (req_args rq) includes = inr sch ->
  fst (perform m args kw w) =
  match m with
  | Remove =>
      let? result := schema_dump _ _ _ SC sch s1 obj_ in
      let? result := rewrite_self (req_path rq) result in
      inr (RetPair result (if is_True updated then 200 else 204))
  | _ =>
      if is_False updated then inr (RetPair (JStr EmptyString) 204)
      else
        let? result := schema_dump _ _ _ SC sch s1 obj_ in
        let? result := rewrite_self (req_path rq) result in
        inr (RetPair result 200)
  end.
Proof.
  intros Hrel Hc Hcall Hinc Hsch.
  open_mutation m; simpl in Hcall; rewrite Hrel; simpl; rewrite Hc, Hcall;
    cbn [fst snd w_store w_trace]; rewrite Hinc, Hsch;
    try (destruct (is_False updated); [reflexivity|]);
    cbn [fst snd w_store w_trace];
    destruct (schema_dump _ _ _ _ _ _ _) as [e|result]; try reflexivity;
    destruct (rewrite_self _ _); reflexivity.
Qed.

(** C6.  In a relationship mutation whose relationship resolves, the body
    is checked before anything else: a body object without [data] raises
    BadRequest at [/data]; a [data] object without [type] raises BadRequest
    at [/data/type], with [type] but without [id] BadRequest at [/data/id],
    and with both but a [type] other than the related type InvalidType
    (409); in a [data] list the first element that fails one of these
    tests raises the same error, so every element is tested.  Whenever the
    check raises, the method raises that error with the world untouched:
    no data layer call has been made. *)
Theorem relationship_body_is_checked_before_storage rf mrf rt rif :
  rel_data = inr (rf, mrf, rt, rif) ->
  let failure d e :=
    (dict_get "type" d = None /\ e = bad_request "/data/type" missing_type)
    \/ (dict_get "type" d <> None /\ dict_get "id" d = None
        /\ e = bad_request "/data/id" missing_id)
    \/ (exists t detail,
          dict_get "type" d = Some t /\ dict_get "id" d <> None
          /\ t <> JStr rt
          /\ e = JsonApi (mk_exc InvalidType (JStr "/data/type") detail)) in
  (forall body,
     dict_get "data" body = None ->
     check_data_node (JDict body) rt = inl (bad_request "/data" missing_data))
  /\ (forall body d,
        dict_get "data" body = Some (JDict d) ->
        ~ linkage_ok rt d ->
        exists e, check_data_node (JDict body) rt = inl e /\ failure d e)
  /\ (forall body pre d rest,
        dict_get "data" body
        = Some (JList (map JDict pre ++ JDict d :: rest)%list) ->
        Forall (linkage_ok rt) pre ->
        ~ linkage_ok rt d ->
        exists e, check_data_node (JDict body) rt = inl e /\ failure d e)
  /\ (forall m args kw w e,
        check_data_node (req_json rq) rt = inl e ->
        perform m args kw w = (inl e, w))
  /\ exc_status BadRequest = 400
  /\ exc_status InvalidType = 409.
Proof.
  intros Hrel failure.
  assert (Hone : forall detail d, ~ linkage_ok rt d ->
            exists e, check_linkage rt detail (JDict d) = inl e
                      /\ failure d e).
  { intros detail d Hbad. rewrite check_linkage_dict. unfold failure.
    destruct (dict_get "type" d) as [t|] eqn:Ht.
    - destruct (dict_get "id" d) as [i|] eqn:Hi.
      + destruct (json_eq_str t rt) eqn:Heq.
        * exfalso. apply Hbad. split; [|congruence].
          destruct t; try discriminate. simpl in Heq.
          apply String.eqb_eq in Heq. now subst.
        * eexists. split; [reflexivity|]. right. right.
          exists t, detail. repeat split; try congruence.
          now apply json_eq_str_false.
      + eexists. split; [reflexivity|]. right. left.
        repeat split. congruence.
    - eexists. split; [reflexivity|]. left. now split. }
  split; [|split; [|split; [|split; [|split; reflexivity]]]].
  - intros body Hno. unfold check_data_node. simpl. unfold dict_has.
    now rewrite Hno.
  - intros body d Hd Hbad. unfold check_data_node. simpl. unfold dict_has.
    rewrite Hd. simpl.
    destruct (Hone "The type field does not match the resource type" d Hbad)
      as [e [He Hf]].
    exists e. now rewrite He.
  - intros body pre d rest Hd Hpre Hbad.
    unfold check_data_node. simpl. unfold dict_has. rewrite Hd. simpl.
    rewrite (check_linkages_skip _ _ _ _ Hpre). simpl.
    destruct (Hone "The type provided does not match the resource type" d
                Hbad) as [e [He Hf]].
    exists e. now rewrite He.
  - intros m args kw w e He.
    now apply (mutate_rejected m args kw w _ _ _ _ e Hrel).
Qed.

(** C7.  In a relationship mutation whose body passes the check and whose
    data layer call returns [(obj_, updated)]: the schema is computed with
    an include list that contains the relationship field; [post] and
    [patch] return the empty string with status 204 when [updated] is
    [False], and otherwise the serialized object with status 200; [delete]
    returns the serialized object with status 200 when [updated] is [True]
    and 204 for every other value.  The serialized object has passed
    through the self-link rewrite: a [links.self] that is present and not
    null is replaced by [request.path], and a document without one is left
    as it is. *)
Theorem relationship_result_follows_change
  rf mrf rt rif m args kw w obj_ updated s1 includes sch :
  rel_data = inr (rf, mrf, rt, rif) ->
  check_data_node (req_json rq) rt = inr tt ->
  storage_call m (req_json rq) mrf rif kw (w_store w)
  = (inr (obj_, updated), s1) ->
  includes_with rf = inr includes ->
  compute_schema _ _ _ SC [] (req_args rq) includes = inr sch ->
  let returned := fst (perform m args kw w) in
  let path := req_path rq in
  In rf includes
  /\ (m <> Remove -> updated = PyBool false ->
      returned = inr (RetPair (JStr EmptyString) 204))
  /\ (forall result result',
        schema_dump _ _ _ SC sch s1 obj_ = inr result ->
        rewrite_self path result = inr result' ->
        (m <> Remove -> updated <> PyBool false ->
         returned = inr (RetPair result' 200))
        /\ (m = Remove -> updated = PyBool true ->
            returned = inr (RetPair result' 200))
        /\ (m = Remove -> updated <> PyBool true ->
            returned = inr (RetPair result' 204)))
  /\ (forall kvs ls v,
        dict_get "links" kvs = Some (JDict ls) ->
        dict_get "self" ls = Some v ->
        v <> JNull ->
        exists result',
          rewrite_self path (JDict kvs) = inr result'
          /\ (let? links := py_getitem result' "links" in
              py_getitem links "self") = inr (JStr path)
          /\ forall k, k <> "links" ->
               py_getitem result' k = py_getitem (JDict kvs) k)
  /\ (forall kvs,
        (dict_get "links" kvs = None
         \/ exists ls, dict_get "links" kvs = Some (JDict ls)
                       /\ (dict_get "self" ls = None
                           \/ dict_get "self" ls = Some JNull)) ->
        rewrite_self path (JDict kvs) = inr (JDict kvs)).
Proof.
  intros Hrel Hc Hcall Hinc Hsch returned path.
  pose proof (mutate_result m args kw w _ _ _ _ _ _ _ _ _
                Hrel Hc Hcall Hinc Hsch) as Hres.
  fold returned in Hres.
  split; [exact (includes_with_has _ _ Hinc)|].
  split; [|split; [|split]].
  - intros Hm Hu. rewrite Hres. subst updated.
    destruct m; try reflexivity. contradiction.
  - intros result result' Hdump Hrw. fold path in Hres.
    rewrite Hdump, Hrw in Hres.
    split; [|split].
    + intros Hm Hu. rewrite Hres.
      assert (Hf : is_False updated = false).
      { destruct (is_False updated) eqn:E; [|reflexivity].
        apply is_False_eq in E. contradiction. }
      rewrite Hf. destruct m; try reflexivity. contradiction.
    + intros Hm Hu. subst m updated. exact Hres.
    + intros Hm Hu. subst m. rewrite Hres.
      destruct updated as [|[|]| |]; try reflexivity. contradiction.
  - intros kvs ls v Hl Hs Hv. eexists.
    split; [exact (rewrite_self_present path kvs ls v Hl Hs Hv)|].
    split.
    + simpl. rewrite dict_get_set_same. simpl.
      now rewrite dict_get_set_same.
    + intros k Hk. simpl. now rewrite dict_get_set_other.
  - intros kvs H. now apply rewrite_self_absent.
Qed.

(** C10.  In a relationship mutation whose relationship resolves and whose
    body object has a [data] value that is neither an object nor a list,
    the check raises nothing, and the method's one data layer call is made
    with the body exactly as it was received. *)
Theorem scalar_data_reaches_storage_unchecked rf mrf rt rif body v :
  rel_data = inr (rf, mrf, rt, rif) ->
  req_json rq = JDict body ->
  dict_get "data" body = Some v ->
  (forall d, v <> JDict d) ->
  (forall l, v <> JList l) ->
  check_data_node (req_json rq) rt = inr tt
  /\ forall m args kw w,
       w_trace (snd (perform m args kw w))
       = (w_trace w ++ [logged m (JDict body) mrf rif kw])%list.
Proof.
  intros Hrel Hbody Hdata Hnd Hnl.
  assert (Hc : check_data_node (req_json rq) rt = inr tt).
  { rewrite Hbody. unfold check_data_node. simpl. unfold dict_has.
    rewrite Hdata. simpl.
    destruct v; try reflexivity.
    - destruct (Hnl l eq_refl).
    - destruct (Hnd kvs eq_refl). }
  split; [exact Hc|].
  intros m args kw w.
  rewrite (mutate_trace m args kw w _ _ _ _ Hrel Hc).
  now rewrite Hbody.
Qed.
End RelationshipFacts.

(** ** The properties on the concrete instance *)

Lemma dispatch_returns_none_when_etag_disabled_witness :
  Resource.dispatch_request Sample.store Sample.obj Sample.platform
    Sample.etag_off (Sample.get7 [])
    (Sample.detail_view Sample.etag_off (Sample.get7 []))
    [] Sample.article7 (Sample.start Sample.one_article)
  = (inr None,
     mk_world Sample.one_article [GetObject Sample.article7 None]).
Proof.
  eapply dispatch_returns_none_when_etag_disabled.
  - reflexivity.
  - cbv. reflexivity.
  - reflexivity.
Defined.

Lemma conditional_request_protocol_witness :
  fst (Resource.dispatch_request Sample.store Sample.obj Sample.platform
         Sample.etag_on (Sample.get7 [("If-None-Match", "abc, 16263")])
         (Sample.detail_view Sample.etag_on
            (Sample.get7 [("If-None-Match", "abc, 16263")]))
         [] Sample.article7 (Sample.start Sample.one_article))
  = inr (Some (Resource.error_response Sample.platform Resource.not_modified
                 default_headers)).
Proof.
  edestruct (conditional_request_protocol Sample.store Sample.obj
               Sample.platform Sample.etag_on
               (Sample.get7 [("If-None-Match", "abc, 16263")])
               (Sample.detail_view Sample.etag_on
                  (Sample.get7 [("If-None-Match", "abc, 16263")]))
               (ResourceDetail.get Sample.store Sample.obj Sample.schema_inst
                  (Sample.get7 [("If-None-Match", "abc, 16263")])
                  Sample.articles_resource)
               [] Sample.article7 (Sample.start Sample.one_article))
    as (_ & _ & _ & _ & _ & Hnone & _).
  - reflexivity.
  - cbv. reflexivity.
  - reflexivity.
  - destruct (Hnone eq_refl "abc, 16263" eq_refl) as [H304 _].
    + discriminate.
    + apply H304. left. cbv. auto.
Defined.

(** C2 as first stated reads: when [If-Match] does not fail, an
    [If-None-Match] header that contains the hash or [*] gives NotModified
    (304).  A GET of article 7 with [If-Match: *] and [If-None-Match: *]
    meets both conditions, and the wrapper returns the tagged response of
    status 200, which is not the NotModified response. *)
Lemma if_none_match_skipped_when_if_match_passes :
  headers_get "If-Match"
    (req_headers (Sample.get7 [("If-Match", "*"); ("If-None-Match", "*")]))
  = Some "*"
  /\ In "*" (Resource.etag_tokens "*")
  /\ headers_get "If-None-Match"
       (req_headers (Sample.get7 [("If-Match", "*"); ("If-None-Match", "*")]))
     = Some "*"
  /\ exists resp,
       fst (Resource.dispatch_request Sample.store Sample.obj Sample.platform
              Sample.etag_on
              (Sample.get7 [("If-Match", "*"); ("If-None-Match", "*")])
              (Sample.detail_view Sample.etag_on
                 (Sample.get7 [("If-Match", "*"); ("If-None-Match", "*")]))
              [] Sample.article7 (Sample.start Sample.one_article))
       = inr (Some resp)
       /\ resp_status resp = 200
       /\ resp <> Resource.error_response Sample.platform
                    Resource.not_modified default_headers.
Proof.
  split; [reflexivity|]. split; [cbv; auto|]. split; [reflexivity|].
  eexists. split; [cbv; reflexivity|]. split; [reflexivity|].
  discriminate.
Qed.

Lemma delete_is_soft_unless_permanent_witness :
  w_trace (snd (ResourceDetail.delete Sample.store Sample.obj
                  Sample.schema_inst Sample.platform Sample.etag_on
                  (Sample.delete7 []) Sample.articles_resource
                  [] Sample.article7 (Sample.start Sample.one_article)))
  = [GetObject Sample.article7 (Some false);
     UpdateObject "7"
       (JDict [("deleted_at", JStr (now_str Sample.platform))])
       Sample.article7].
Proof.
  edestruct (delete_is_soft_unless_permanent Sample.store Sample.obj
               Sample.schema_inst Sample.platform Sample.etag_on
               (Sample.delete7 []) Sample.articles_resource
               [] Sample.article7 Sample.one_article)
    as (_ & Hsoft & _).
  - cbv. reflexivity.
  - destruct Hsoft as [Htrace _].
    + intros [H | [H | H]]; discriminate H.
    + exact Htrace.
Defined.

Lemma get_fetches_trashed_only_on_true_witness :
  ResourceDetail.get Sample.store Sample.obj Sample.schema_inst
    (Sample.get7 []) Sample.articles_resource
    [] [("id", UInt 9)] (Sample.start Sample.one_article)
  = (inl object_not_found,
     mk_world Sample.one_article [GetObject [("id", UInt 9)] None]).
Proof.
  destruct (get_fetches_trashed_only_on_true Sample.store Sample.obj
              Sample.schema_inst (Sample.get7 []) Sample.articles_resource
              [] [("id", UInt 9)] (Sample.start Sample.one_article))
    as (_ & _ & _ & Hmissing).
  destruct (Hmissing Sample.one_article eq_refl) as [Hrun _].
  exact Hrun.
Defined.

Lemma patch_rejects_identifier_mismatch_witness :
  exists detail,
    ResourceDetail.patch Sample.store Sample.obj Sample.schema_inst
      (Sample.patch7 "8") Sample.articles_resource
      [] Sample.article7 (Sample.start Sample.one_article)
    = (inl (bad_request "/data/id" detail), Sample.start Sample.one_article).
Proof.
  edestruct (patch_rejects_identifier_mismatch Sample.store Sample.obj
               Sample.schema_inst Sample.platform Sample.etag_on
               (Sample.patch7 "8") Sample.articles_resource
               [] Sample.article7 (Sample.start Sample.one_article))
    as [detail [Hrun _]].
  - reflexivity.
  - reflexivity.
  - cbv. reflexivity.
  - reflexivity.
  - reflexivity.
  - right. exists (JStr "8"), (UInt 7).
    split; [reflexivity|]. split; [reflexivity|]. discriminate.
  - exists detail. exact Hrun.
Defined.

Lemma post_returns_created_with_location_witness :
  exists doc,
    ResourceList.post Sample.store Sample.obj Sample.schema_inst
      (Sample.post_articles Sample.hello) Sample.articles_resource
      [] [] (Sample.start [])
    = (inr (RetTriple doc 201 [("Location", JStr "/articles/1")]),
       mk_world [("1", JDict Sample.hello)]
         [CreateObject (JDict Sample.hello) []]).
Proof.
  edestruct (post_returns_created_with_location Sample.store Sample.obj
               Sample.schema_inst Sample.platform
               (Sample.post_articles Sample.hello) Sample.articles_resource
               [] [] [] [])
    as (Hrun & _).
  - reflexivity.
  - reflexivity.
  - cbv. reflexivity.
  - cbv. reflexivity.
  - cbv. reflexivity.
  - reflexivity.
  - reflexivity.
  - reflexivity.
  - eexists. exact Hrun.
Defined.

Lemma load_errors_are_stamped_and_batched_witness :
  exists first second,
    ResourceList.post Sample.store Sample.obj Sample.schema_inst
      (Sample.post_articles []) Sample.articles_resource
      [] [] (Sample.start [])
    = (inr (RetPair (JDict [("errors", JList [first; second])]) 422),
       Sample.start [])
    /\ py_getitem first "status" = inr (JStr "422")
    /\ py_getitem second "status" = inr (JStr "422").
Proof.
  edestruct (load_errors_are_stamped_and_batched Sample.store Sample.obj
               Sample.schema_inst Sample.platform
               (Sample.post_articles []) Sample.articles_resource
               [("errors",
                 JList
                   [Sample.error_entry "Missing data for required field."
                      "/data/attributes/title";
                    Sample.error_entry "Missing data for required field."
                      "/data/attributes/body"])]
               [[("detail", JStr "Missing data for required field.");
                 ("source", pointer "/data/attributes/title")];
                [("detail", JStr "Missing data for required field.");
                 ("source", pointer "/data/attributes/body")]])
    as (Hruns & _).
  - reflexivity.
  - destruct (Hruns [] [] (Sample.start [])) as (_ & _ & Hpost & _).
    eexists. eexists. split; [|split].
    + apply (Hpost (JDict [])).
      exists []. exists []. repeat split.
    + reflexivity.
    + reflexivity.
Defined.

Lemma relationship_body_is_checked_before_storage_witness :
  mutate Sample.store Sample.obj Sample.schema_inst Sample.etag_on
    (Sample.author_of_7 "POST" (Sample.linkage "comments" "1"))
    Sample.articles_resource Add
    [] Sample.article7 (Sample.start Sample.one_article)
  = (inl (JsonApi (mk_exc InvalidType (JStr "/data/type")
                     "The type field does not match the resource type")),
     Sample.start Sample.one_article).
Proof.
  edestruct (relationship_body_is_checked_before_storage Sample.store
               Sample.obj Sample.schema_inst Sample.etag_on
               (Sample.author_of_7 "POST" (Sample.linkage "comments" "1"))
               Sample.articles_resource "author" "author" "people" "id")
    as (_ & _ & _ & Hbefore & _).
  - reflexivity.
  - apply Hbefore. reflexivity.
Defined.

Lemma relationship_result_follows_change_witness :
  exists doc,
    fst (mutate Sample.store Sample.obj Sample.schema_inst Sample.etag_on
           (Sample.author_of_7 "DELETE" (Sample.linkage "people" "1"))
           Sample.articles_resource Remove
           [] Sample.article7 (Sample.start Sample.one_article))
    = inr (RetPair doc 204)
    /\ (let? links := py_getitem doc "links" in py_getitem links "self")
       = inr (JStr "/articles/7/relationships/author").
Proof.
  edestruct (relationship_result_follows_change Sample.store Sample.obj
               Sample.schema_inst Sample.etag_on
               (Sample.author_of_7 "DELETE" (Sample.linkage "people" "1"))
               Sample.articles_resource "author" "author" "people" "id"
               Remove [] Sample.article7 (Sample.start Sample.one_article))
    as (_ & _ & Hstatus & _).
  - reflexivity.
  - reflexivity.
  - cbv. reflexivity.
  - cbv. reflexivity.
  - reflexivity.
  - edestruct Hstatus as (_ & _ & Hnochange).
    + cbv. reflexivity.
    + cbv. reflexivity.
    + eexists. split.
      * apply Hnochange; [reflexivity | discriminate].
      * reflexivity.
Defined.

Lemma scalar_data_reaches_storage_unchecked_witness :
  w_trace (snd (mutate Sample.store Sample.obj Sample.schema_inst
                  Sample.etag_on (Sample.author_of_7 "POST" (JStr "oops"))
                  Sample.articles_resource Add
                  [] Sample.article7 (Sample.start Sample.one_article)))
  = [CreateRelationship (JDict [("data", JStr "oops")]) "author" "id"
       Sample.article7].
Proof.
  edestruct (scalar_data_reaches_storage_unchecked Sample.store Sample.obj
               Sample.schema_inst Sample.etag_on
               (Sample.author_of_7 "POST" (JStr "oops"))
               Sample.articles_resource "author" "author" "people" "id"
               [("data", JStr "oops")] (JStr "oops"))
    as (_ & Htrace).
  - reflexivity.
  - reflexivity.
  - reflexivity.
  - discriminate.
  - discriminate.
  - apply Htrace.
Defined.

(** * Further properties *)

(** ** Validator lists *)

Lemma split_on_plain s : plain s = true -> split_on "," s = [s].
Proof.
  induction s as [|a s IH]; simpl; [reflexivity|].
  rewrite !andb_true_iff, !negb_true_iff. intros [[_ Hc] Hs].
  rewrite Hc, (IH Hs). reflexivity.
Qed.

Lemma lstrip_plain s : plain s = true -> lstrip s = s.
Proof.
  destruct s as [|a s]; simpl; [reflexivity|].
  rewrite !andb_true_iff, !negb_true_iff. intros [[Ha _] _].
  now rewrite Ha.
Qed.

Lemma rstrip_plain s : plain s = true -> rstrip s = s.
Proof.
  induction s as [|a s IH]; simpl; [reflexivity|].
  rewrite !andb_true_iff, !negb_true_iff. intros [[Ha _] Hs].
  rewrite (IH Hs). destruct s; [now rewrite Ha | reflexivity].
Qed.

Lemma etag_tokens_plain s : plain s = true -> Resource.etag_tokens s = [s].
Proof.
  intros H. unfold Resource.etag_tokens, strip.
  rewrite (split_on_plain _ H). simpl.
  now rewrite (lstrip_plain _ H), (rstrip_plain _ H).
Qed.

Lemma plain_app s t : plain s = true -> plain t = true -> plain (s ++ t) = true.
Proof.
  intros Hs Ht. induction s as [|a s IH]; simpl in *; [exact Ht|].
  rewrite !andb_true_iff in *. destruct Hs as [Ha Hs]. auto.
Qed.

Lemma length_append s t :
  String.length (s ++ t) = (String.length s + String.length t)%nat.
Proof. induction s as [|a s IH]; simpl; [reflexivity | now rewrite IH]. Qed.

Lemma quoted_differs s : dquote ++ s ++ dquote <> s.
Proof.
  intros H. apply (f_equal String.length) in H.
  rewrite !length_append in H. simpl in H. lia.
Qed.

(** ** The dispatch wrapper, beyond the success path *)

Section DispatchMore.
Variables store obj : Type.
Variable P : Platform.
Variable cfg : config.
Variable rq : request.

Local Abbreviation dispatch := (Resource.dispatch_request store obj P cfg rq).
Local Abbreviation find := (Resource.find_method store obj rq).
Local Abbreviation build := (Resource.build_response P).
Local Abbreviation error_of := (Resource.error_response P).

(** X1.  A verb that raises a JSON:API exception is answered with that
    exception's error document and status under the default headers,
    whatever [ETAG] and [DEBUG] say and whatever conditional headers the
    request has: the error path never reaches the ETag block, so it never
    returns [None], never turns into 304 or 412, and the response has no
    [ETag] header.  The world is the one the verb left. *)
Theorem raised_errors_skip_conditional_check v method args kw w e w' :
  find v = Some method ->
  method args kw w = (inl (JsonApi e), w') ->
  let resp :=
    make_response (json_dumps P (jsonapi_errors P [to_dict P e]))
      (exc_status (exc_cls e)) default_headers in
  dispatch v args kw w = (inr (Some resp), w')
  /\ dict_get "ETag" (resp_headers resp) = None.
Proof.
  intros Hf Hm resp. split.
  - unfold Resource.dispatch_request. now rewrite Hf, Hm.
  - reflexivity.
Qed.

(** X2.  A verb that raises any other exception: with [DEBUG] being [True]
    the exception leaves [dispatch_request] as it is; otherwise the answer
    is a JSON:API error of status 500 whose detail is the exception's text
    when [PROPOGATE_ERROR] is [True] and the fixed text [Unknown error] in
    every other case. *)
Theorem unexpected_errors_are_masked v method args kw w c msg w' :
  find v = Some method ->
  method args kw w = (inl (PyExc c msg), w') ->
  (DEBUG cfg = PyBool true ->
   dispatch v args kw w = (inl (PyExc c msg), w'))
  /\ (DEBUG cfg <> PyBool true ->
      exists detail,
        dispatch v args kw w
        = (inr (Some (error_of
                        (mk_exc JsonApiException (pointer EmptyString) detail)
                        default_headers)), w')
        /\ resp_status (error_of
                          (mk_exc JsonApiException (pointer EmptyString)
                             detail) default_headers) = 500
        /\ (PROPOGATE_ERROR cfg = PyBool true -> detail = msg)
        /\ (PROPOGATE_ERROR cfg <> PyBool true ->
            detail = "Unknown error")).
Proof.
  intros Hf Hm. unfold Resource.dispatch_request. rewrite Hf, Hm.
  split.
  - intros Hd. now rewrite Hd.
  - intros Hd.
    assert (Hdebug : is_True (DEBUG cfg) = false).
    { destruct (DEBUG cfg) as [|[|]| |]; try reflexivity. contradiction. }
    rewrite Hdebug.
    destruct (PROPOGATE_ERROR cfg) as [|[|]| |] eqn:Hp; simpl;
      eexists; (split; [reflexivity|]); (split; [reflexivity|]);
      split; intros H; congruence.
Qed.

(** X3.  A method name for which the view has no verb, other than [HEAD],
    fails the assertion before any verb has run: the world is untouched. *)
Theorem unimplemented_method_runs_nothing v args kw w :
  Resource.getattr store obj v (lower (req_method rq)) = None ->
  req_method rq <> "HEAD" ->
  dispatch v args kw w
  = (inl (PyExc "AssertionError"
            ("Unimplemented method " ++ req_method rq)), w).
Proof.
  intros Hg Hh. unfold Resource.dispatch_request, Resource.find_method.
  rewrite Hg.
  destruct (String.eqb (req_method rq) "HEAD") eqn:E.
  - apply String.eqb_eq in E. contradiction.
  - reflexivity.
Qed.
End DispatchMore.

(** X4.  A [HEAD] request is answered by the view's [get] method: it gets
    the response, body included, that the same request gets as a [GET]. *)
Theorem head_is_answered_by_get
  store obj P cfg path args headers body v g a kw w :
  Resource.view_get store obj v = Some g ->
  Resource.dispatch_request store obj P cfg
    (mk_request "HEAD" path args headers body) v a kw w
  = Resource.dispatch_request store obj P cfg
      (mk_request "GET" path args headers body) v a kw w.
Proof.
  intros Hg.
  assert (Hhead : Resource.find_method store obj
                    (mk_request "HEAD" path args headers body) v = Some g).
  { destruct v. simpl in Hg. subst. reflexivity. }
  assert (Hget : Resource.find_method store obj
                   (mk_request "GET" path args headers body) v = Some g).
  { destruct v. simpl in Hg. subst. reflexivity. }
  unfold Resource.dispatch_request. rewrite Hhead, Hget. reflexivity.
Qed.

(** ** Validators sent back by a client *)

Section Validators.
Variables store obj : Type.
Variable P : Platform.
Variable cfg : config.
Variable rq : request.

Local Abbreviation dispatch := (Resource.dispatch_request store obj P cfg rq).
Local Abbreviation find := (Resource.find_method store obj rq).
Local Abbreviation build := (Resource.build_response P).

Lemma dispatch_checked v method args kw w response w' :
  find v = Some method ->
  method args kw w = (inr response, w') ->
  is_True (ETAG cfg) = true ->
  truthy (headers_get "If-Match" (req_headers rq)) = false ->
  forall s a,
    headers_get "If-None-Match" (req_headers rq) = Some (String a s) ->
    let etag := sha1_hexdigest P (resp_data (fst (build response))) in
    dispatch v args kw w =
    (inr (Some
            (if str_mem etag (Resource.etag_tokens (String a s))
                || str_mem "*" (Resource.etag_tokens (String a s))
             then Resource.error_response P Resource.not_modified
                    (snd (build response))
             else set_header "ETag" (JStr etag) (fst (build response)))),
     w').
Proof.
  intros Hf Hm Hon Him s a Hnone etag.
  unfold Resource.dispatch_request. rewrite Hf, Hm.
  destruct (build response) as [resp h] eqn:Hb. simpl fst in *. simpl snd.
  unfold Resource.etag_handling. rewrite Hon, Him, Hnone. fold etag.
  cbn [truthy].
  now destruct (str_mem etag (Resource.etag_tokens (String a s))
                || str_mem "*" (Resource.etag_tokens (String a s))).
Qed.

(** X5.  The validator round trip.  With the ETag protocol enabled and no
    [If-Match] header, a request whose [If-None-Match] header is exactly
    the digest of the body the verb produces now -- the value an earlier
    response carried under [ETag], with no quotes around it -- is answered
    NotModified (304).  The digest is assumed non-empty and free of
    whitespace and commas, as a hexadecimal digest is. *)
Theorem etag_sent_back_gives_not_modified
  v method args kw w response w' :
  find v = Some method ->
  method args kw w = (inr response, w') ->
  is_True (ETAG cfg) = true ->
  truthy (headers_get "If-Match" (req_headers rq)) = false ->
  let etag := sha1_hexdigest P (resp_data (fst (build response))) in
  plain etag = true ->
  etag <> EmptyString ->
  headers_get "If-None-Match" (req_headers rq) = Some etag ->
  dispatch v args kw w
  = (inr (Some (Resource.error_response P Resource.not_modified
                  (snd (build response)))), w')
  /\ resp_status (Resource.error_response P Resource.not_modified
                    (snd (build response))) = 304.
Proof.
  intros Hf Hm Hon Him etag Hplain Hne Hnone.
  split; [|reflexivity].
  destruct etag as [|a s] eqn:He; [contradiction|].
  rewrite (dispatch_checked _ _ _ _ _ _ _ Hf Hm Hon Him s a Hnone).
  fold etag. rewrite He.
  rewrite (etag_tokens_plain _ Hplain). simpl.
  now rewrite Ascii.eqb_refl, String.eqb_refl.
Qed.

(** X6.  Validators are compared as written.  The same digest sent back
    between double quotes, the form of an entity tag in HTTP, matches
    nothing: the answer is the full response with its [ETag] header, not
    NotModified. *)
Theorem quoted_etag_is_not_recognised
  v method args kw w response w' :
  find v = Some method ->
  method args kw w = (inr response, w') ->
  is_True (ETAG cfg) = true ->
  truthy (headers_get "If-Match" (req_headers rq)) = false ->
  let etag := sha1_hexdigest P (resp_data (fst (build response))) in
  plain etag = true ->
  headers_get "If-None-Match" (req_headers rq)
  = Some (dquote ++ etag ++ dquote) ->
  dispatch v args kw w
  = (inr (Some (set_header "ETag" (JStr etag) (fst (build response)))), w').
Proof.
  intros Hf Hm Hon Him etag Hplain Hnone.
  assert (Hq : plain (dquote ++ etag ++ dquote) = true).
  { apply plain_app; [reflexivity|]. apply plain_app; [assumption|].
    reflexivity. }
  change (dquote ++ etag ++ dquote)
    with (String (ascii_of_nat 34) (etag ++ dquote)) in Hnone, Hq.
  rewrite (dispatch_checked _ _ _ _ _ _ _ Hf Hm Hon Him _ _ Hnone).
  fold etag. rewrite (etag_tokens_plain _ Hq).
  assert (H1 : str_mem etag [String (ascii_of_nat 34) (etag ++ dquote)]
               = false).
  { apply str_mem_not_In. intros [H|[]].
    exact (quoted_differs etag H). }
  rewrite H1. reflexivity.
Qed.
End Validators.

(** ** Single-item resources, beyond the stated cases *)

Section DetailMore.
Variables store obj schema_inst : Type.
Variable P : Platform.
Variable cfg : config.
Variable rq : request.
Variable R : resource store obj schema_inst.

Local Abbreviation DL := (_data_layer _ _ _ R).
Local Abbreviation SC := (schema _ _ _ R).
Local Abbreviation detail_patch :=
  (ResourceDetail.patch store obj schema_inst rq R).
Local Abbreviation detail_delete :=
  (ResourceDetail.delete store obj schema_inst P cfg rq R).
Local Abbreviation patch_loads := (patch_loads store obj schema_inst rq R).
Local Abbreviation trashed_flag :=
  (if opt_is (args_get "get_trashed" rq) "true" then Some true else None).

Lemma fetch_run kw s0 t0 :
  ResourceDetail.fetch store obj schema_inst rq R kw (mk_world s0 t0)
  = (fst (dl_get_object _ _ DL kw trashed_flag s0),
     mk_world (snd (dl_get_object _ _ DL kw trashed_flag s0))
       (t0 ++ [GetObject kw trashed_flag])%list).
Proof.
  unfold ResourceDetail.fetch, call.
  destruct (opt_is (args_get "get_trashed" rq) "true");
    cbn [w_store w_trace];
    match goal with
    | |- context [dl_get_object _ _ ?d ?k ?f ?s] =>
        destruct (dl_get_object _ _ d k f s)
    end; reflexivity.
Qed.

(** The update once the body has loaded and its identifier has passed. *)
Lemma patch_after_checks args kw s0 t0 include sch data :
  qs_include _ _ _ SC (req_args rq) = inr include ->
  compute_schema _ _ _ SC
    (dict_set "partial" (JBool true) (patch_schema_kwargs _ _ _ R))
    (req_args rq) include = inr sch ->
  schema_load _ _ _ SC sch (req_json rq) = Loaded data [] ->
  ResourceDetail.check_id store obj schema_inst R (req_json rq) kw = inr tt ->
  detail_patch args kw (mk_world s0 t0) =
  match dl_get_object _ _ DL kw trashed_flag s0 with
  | (inl e, s1) => (inl e, mk_world s1 (t0 ++ [GetObject kw trashed_flag]))
  | (inr None, s1) =>
      (inl object_not_found, mk_world s1 (t0 ++ [GetObject kw trashed_flag]))
  | (inr (Some o), s1) =>
      let trace :=
        ((t0 ++ [GetObject kw trashed_flag]) ++ [UpdateObject o data kw]) in
      match dl_update_object _ _ DL o data kw s1 with
      | (inl e, s2) => (inl e, mk_world s2 trace)
      | (inr _, s2) =>
          (let? result := schema_dump _ _ _ SC sch s2 o in
           inr (RetDoc result), mk_world s2 trace)
      end
  end%list.
Proof.
  intros Hi Hs Hl Hc.
  unfold ResourceDetail.patch, ResourceDetail.before_patch,
    ResourceDetail.after_patch, bind, lift, ret, raise, dump, call.
  rewrite Hi, Hs, Hl, Hc. rewrite fetch_run.
  destruct (dl_get_object _ _ DL kw trashed_flag s0) as [[e|[o|]] s1];
    cbn [fst snd w_store w_trace]; try reflexivity.
  destruct (dl_update_object _ _ DL o data kw s1) as [[e|[]] s2];
    cbn [fst snd w_store w_trace]; try reflexivity.
  now destruct (schema_dump _ _ _ SC sch s2 o).
Qed.

Lemma check_id_passes body d v kw :
  req_json rq = JDict body ->
  dict_get "data" body = Some (JDict d) ->
  dict_get (match url_field _ _ _ R with Some f => f | None => "id" end) kw
  = Some v ->
  dict_get "id" d = Some (JStr (py_str v)) ->
  ResourceDetail.check_id store obj schema_inst R (req_json rq) kw = inr tt.
Proof.
  intros Hb Hd Hk Hid. unfold ResourceDetail.check_id, ResourceDetail.url_id.
  rewrite Hb. simpl. rewrite Hd. simpl. unfold dict_has. rewrite Hid. simpl.
  rewrite Hk. simpl. now rewrite String.eqb_refl.
Qed.

(** X7.  An update whose body has loaded without errors and names the URL
    identifier fetches the object and then either raises ObjectNotFound
    with no further call, when there is none, or calls [update_object]
    with the loaded data (not the raw body) and returns the object
    serialized from the store as the update left it. *)
Theorem patch_updates_then_serializes
  args kw s0 t0 include sch data body d v :
  qs_include _ _ _ SC (req_args rq) = inr include ->
  compute_schema _ _ _ SC
    (dict_set "partial" (JBool true) (patch_schema_kwargs _ _ _ R))
    (req_args rq) include = inr sch ->
  schema_load _ _ _ SC sch (req_json rq) = Loaded data [] ->
  req_json rq = JDict body ->
  dict_get "data" body = Some (JDict d) ->
  dict_get (match url_field _ _ _ R with Some f => f | None => "id" end) kw
  = Some v ->
  dict_get "id" d = Some (JStr (py_str v)) ->
  (forall s1,
     dl_get_object _ _ DL kw trashed_flag s0 = (inr None, s1) ->
     detail_patch args kw (mk_world s0 t0)
     = (inl object_not_found,
        mk_world s1 (t0 ++ [GetObject kw trashed_flag])%list))
  /\ (forall o s1 s2 result,
        dl_get_object _ _ DL kw trashed_flag s0 = (inr (Some o), s1) ->
        dl_update_object _ _ DL o data kw s1 = (inr tt, s2) ->
        schema_dump _ _ _ SC sch s2 o = inr result ->
        detail_patch args kw (mk_world s0 t0)
        = (inr (RetDoc result),
           mk_world s2
             (t0 ++ [GetObject kw trashed_flag; UpdateObject o data kw])%list)).
Proof.
  intros Hi Hs Hl Hb Hd Hk Hid.
  pose proof (check_id_passes _ _ _ _ Hb Hd Hk Hid) as Hc.
  split.
  - intros s1 Hget.
    rewrite (patch_after_checks args kw s0 t0 _ _ _ Hi Hs Hl Hc), Hget.
    reflexivity.
  - intros o s1 s2 result Hget Hupd Hdump.
    rewrite (patch_after_checks args kw s0 t0 _ _ _ Hi Hs Hl Hc), Hget.
    cbv zeta. rewrite Hupd, Hdump, <- app_assoc. reflexivity.
Qed.

(** X8.  The conditional check comes after the verb.  With the ETag
    protocol enabled, an update that succeeds while the request's
    [If-Match] header matches neither the digest of the new body nor [*] is
    answered PreconditionFailed (412) -- and the object has been updated:
    [update_object] is in the trace and the store is the updated one. *)
Theorem precondition_failure_follows_update
  v args kw s0 t0 include sch data body d u o s1 s2 result s :
  Resource.find_method store obj rq v = Some detail_patch ->
  qs_include _ _ _ SC (req_args rq) = inr include ->
  compute_schema _ _ _ SC
    (dict_set "partial" (JBool true) (patch_schema_kwargs _ _ _ R))
    (req_args rq) include = inr sch ->
  schema_load _ _ _ SC sch (req_json rq) = Loaded data [] ->
  req_json rq = JDict body ->
  dict_get "data" body = Some (JDict d) ->
  dict_get (match url_field _ _ _ R with Some f => f | None => "id" end) kw
  = Some u ->
  dict_get "id" d = Some (JStr (py_str u)) ->
  dl_get_object _ _ DL kw trashed_flag s0 = (inr (Some o), s1) ->
  dl_update_object _ _ DL o data kw s1 = (inr tt, s2) ->
  schema_dump _ _ _ SC sch s2 o = inr result ->
  is_True (ETAG cfg) = true ->
  headers_get "If-Match" (req_headers rq) = Some s ->
  s <> EmptyString ->
  let etag := sha1_hexdigest P (json_dumps P (stamp_version result)) in
  ~ In etag (Resource.etag_tokens s) ->
  ~ In "*" (Resource.etag_tokens s) ->
  Resource.dispatch_request store obj P cfg rq v args kw (mk_world s0 t0)
  = (inr (Some (Resource.error_response P Resource.precondition_failed
                  default_headers)),
     mk_world s2
       (t0 ++ [GetObject kw trashed_flag; UpdateObject o data kw])%list)
  /\ resp_status (Resource.error_response P Resource.precondition_failed
                    default_headers) = 412.
Proof.
  intros Hf Hi Hs Hl Hb Hd Hk Hid Hget Hupd Hdump Hon Hm Hne etag H1 H2.
  split; [|reflexivity].
  pose proof (check_id_passes _ _ _ _ Hb Hd Hk Hid) as Hc.
  pose proof (patch_after_checks args kw s0 t0 _ _ _ Hi Hs Hl Hc) as Hrun.
  rewrite Hget in Hrun. cbv zeta in Hrun.
  rewrite Hupd, Hdump, <- app_assoc in Hrun. simpl app in Hrun.
  unfold Resource.dispatch_request. rewrite Hf, Hrun.
  simpl Resource.build_response. cbv iota.
  unfold Resource.etag_handling. rewrite Hon, Hm. simpl resp_data.
  fold etag.
  assert (Ht : truthy (Some s) = true).
  { apply truthy_some. now exists s. }
  rewrite Ht.
  apply str_mem_not_In in H1. apply str_mem_not_In in H2.
  now rewrite H1, H2.
Qed.

(** X9.  A delete fetches the object with [get_trashed] set to whether the
    [permanent] query flag is the string [true] (the [get_trashed] query
    flag plays no part); when there is no object it raises ObjectNotFound
    and makes no other call, neither [delete_object] nor
    [update_object]. *)
Theorem delete_of_missing_object_stops args kw w s1 :
  let trashed := opt_is (args_get "permanent" rq) "true" in
  dl_get_object _ _ DL kw (Some trashed) (w_store w) = (inr None, s1) ->
  detail_delete args kw w
  = (inl object_not_found,
     mk_world s1 (w_trace w ++ [GetObject kw (Some trashed)])%list)
  /\ (trashed = true <-> args_get "permanent" rq = Some "true").
Proof.
  intros trashed Hget. split; [|apply opt_is_eq].
  unfold ResourceDetail.delete, ResourceDetail.before_delete, bind, ret,
    call, raise.
  fold trashed. now rewrite Hget.
Qed.

End DetailMore.

(** ** Creating and loading, beyond the stated cases *)

Section LoadMore.
Variables store obj schema_inst : Type.
Variable P : Platform.
Variable cfg : config.
Variable rq : request.
Variable R : resource store obj schema_inst.

Local Abbreviation DL := (_data_layer _ _ _ R).
Local Abbreviation SC := (schema _ _ _ R).
Local Abbreviation list_post :=
  (ResourceList.post store obj schema_inst rq R).
Local Abbreviation detail_patch :=
  (ResourceDetail.patch store obj schema_inst rq R).
Local Abbreviation post_loads := (post_loads store obj schema_inst rq R).
Local Abbreviation patch_loads := (patch_loads store obj schema_inst rq R).

(** X11.  A create is not undone when its response cannot be built.  If
    the body loads and the object is created but the serialized document
    has no [data.links.self], reading the link raises after
    [create_object] has run: the method raises, the store keeps the new
    object, and the wrapper (outside debug mode) answers 500 instead of
    201. *)
Theorem post_without_self_link_keeps_object
  v args kw s0 t0 include sch data o s1 result e :
  Resource.find_method store obj rq v = Some list_post ->
  qs_include _ _ _ SC (req_args rq) = inr include ->
  compute_schema _ _ _ SC (post_schema_kwargs _ _ _ R) (req_args rq) include
  = inr sch ->
  schema_load _ _ _ SC sch (req_json rq) = Loaded data [] ->
  dl_create_object _ _ DL data kw s0 = (inr o, s1) ->
  schema_dump _ _ _ SC sch s1 o = inr result ->
  (let? d := py_getitem result "data" in
   let? links := py_getitem d "links" in
   py_getitem links "self") = inl e ->
  let after := mk_world s1 (t0 ++ [CreateObject data kw])%list in
  list_post args kw (mk_world s0 t0) = (inl e, after)
  /\ exists cls msg,
       e = PyExc cls msg
       /\ (is_True (DEBUG cfg) = false ->
           exists resp,
             Resource.dispatch_request store obj P cfg rq v args kw
               (mk_world s0 t0) = (inr (Some resp), after)
             /\ resp_status resp = 500).
Proof.
  intros Hf Hi Hs Hl Hcreate Hdump Hlink after.
  assert (Hrun : list_post args kw (mk_world s0 t0) = (inl e, after)).
  { unfold ResourceList.post, ResourceList.before_post,
      ResourceList.after_post, bind, lift, ret, call, dump.
    rewrite Hi, Hs, Hl. cbn [w_store w_trace].
    rewrite Hcreate. cbn [w_store w_trace]. rewrite Hdump.
    destruct (py_getitem result "data") as [e1|d];
      [inversion Hlink; reflexivity|].
    destruct (py_getitem d "links") as [e2|links];
      [inversion Hlink; reflexivity|].
    destruct (py_getitem links "self") as [e3|self];
      [inversion Hlink; reflexivity|].
    discriminate. }
  split; [exact Hrun|].
  assert (He : exists cls msg, e = PyExc cls msg).
  { destruct result; simpl in Hlink;
      try (inversion Hlink; eauto; fail).
    destruct (dict_get "data" kvs) as [d|]; [|inversion Hlink; eauto].
    destruct d; simpl in Hlink; try (inversion Hlink; eauto; fail).
    destruct (dict_get "links" kvs0) as [l|]; [|inversion Hlink; eauto].
    destruct l; simpl in Hlink; try (inversion Hlink; eauto; fail).
    destruct (dict_get "self" kvs1); inversion Hlink; eauto. }
  destruct He as [cls [msg He]]. exists cls, msg. split; [exact He|].
  intros Hdebug. subst e. unfold Resource.dispatch_request.
  rewrite Hf, Hrun, Hdebug. eexists. split; [reflexivity|].
  now destruct (is_True (PROPOGATE_ERROR cfg)).
Qed.

(** X12.  The stamping loop reads [messages['errors']].  When a load
    fails with messages that are a dict without that key -- raised as
    [IncorrectTypeError] or [ValidationError], or returned as a non-empty
    [errors] -- create and update raise [KeyError] instead of returning the
    409 or 422 document; no data layer call is made. *)
Theorem load_messages_without_errors_key_raise m :
  dict_get "errors" m = None ->
  let failed := inl (PyExc "KeyError" "errors") in
  forall args kw w,
    (post_loads (RaisedIncorrectType (JDict m)) ->
     list_post args kw w = (failed, w))
    /\ (post_loads (RaisedValidation (JDict m)) ->
        list_post args kw w = (failed, w))
    /\ (forall data, m <> [] -> post_loads (Loaded data m) ->
        list_post args kw w = (failed, w))
    /\ (patch_loads (RaisedIncorrectType (JDict m)) ->
        detail_patch args kw w = (failed, w))
    /\ (patch_loads (RaisedValidation (JDict m)) ->
        detail_patch args kw w = (failed, w))
    /\ (forall data, m <> [] -> patch_loads (Loaded data m) ->
        detail_patch args kw w = (failed, w)).
Proof.
  intros Hno failed args kw w.
  assert (Hst : forall status title,
            stamp_errors status title (JDict m)
            = inl (PyExc "KeyError" "errors")).
  { intros. unfold stamp_errors. simpl. now rewrite Hno. }
  split; [|split; [|split; [|split; [|split]]]].
  - intros Hl. rewrite (post_after_load _ _ _ _ _ _ args kw w Hl).
    now rewrite Hst.
  - intros Hl. rewrite (post_after_load _ _ _ _ _ _ args kw w Hl).
    now rewrite Hst.
  - intros data Hne Hl.
    rewrite (post_after_load _ _ _ _ _ _ args kw w Hl).
    destruct m as [|x xs]; [contradiction|]. now rewrite Hst.
  - intros Hl. rewrite (patch_after_load _ _ _ _ _ _ args kw w Hl).
    now rewrite Hst.
  - intros Hl. rewrite (patch_after_load _ _ _ _ _ _ args kw w Hl).
    now rewrite Hst.
  - intros data Hne Hl.
    rewrite (patch_after_load _ _ _ _ _ _ args kw w Hl).
    destruct m as [|x xs]; [contradiction|]. now rewrite Hst.
Qed.
End LoadMore.

(** ** Relationship resources, beyond the stated cases *)

Lemma split_on_nonnil c s : split_on c s <> [].
Proof.
  destruct s as [|a s]; simpl; [discriminate|].
  destruct (Ascii.eqb a c); [discriminate|].
  destruct (split_on c s); discriminate.
Qed.

Lemma split_on_lacks c s : lacks c s = true -> split_on c s = [s].
Proof.
  induction s as [|a s IH]; simpl; [reflexivity|].
  rewrite andb_true_iff, negb_true_iff. intros [Ha Hs].
  now rewrite Ha, (IH Hs).
Qed.

Lemma split_on_app c p t :
  split_on c (p ++ String c t) = (split_on c p ++ split_on c t)%list.
Proof.
  induction p as [|a p IH]; simpl.
  - now rewrite Ascii.eqb_refl.
  - destruct (Ascii.eqb a c); [now rewrite IH|].
    rewrite IH. destruct (split_on c p) as [|h l] eqn:E; [|reflexivity].
    destruct (split_on_nonnil c p E).
Qed.

Lemma last_segment c p seg :
  lacks c seg = true ->
  last (split_on c (p ++ String c seg)) EmptyString = seg.
Proof.
  intros H. rewrite split_on_app, (split_on_lacks _ _ H).
  apply last_last.
Qed.

Lemma replace_char_lacks a b s :
  a <> b -> lacks a (replace_char a b s) = true.
Proof.
  intros Hab. induction s as [|c s IH]; simpl; [reflexivity|].
  rewrite IH, andb_true_r, negb_true_iff.
  destruct (Ascii.eqb c a) eqn:E.
  - apply Ascii.eqb_neq. congruence.
  - exact E.
Qed.

Lemma json_eq_str_true (j : json) (s : string) :
  json_eq_str j s = true <-> j = JStr s.
Proof.
  destruct j; simpl; split; try discriminate.
  - intros H. apply String.eqb_eq in H. now subst.
  - intros H. inversion H. apply String.eqb_refl.
Qed.

Lemma check_linkage_iff related_type_ detail d :
  check_linkage related_type_ detail (JDict d) = inr tt
  <-> linkage_ok related_type_ d.
Proof.
  split; [|apply check_linkage_ok].
  rewrite check_linkage_dict. unfold linkage_ok.
  destruct (dict_get "type" d) as [t|]; [|discriminate].
  destruct (dict_get "id" d) as [i|]; [|discriminate].
  destruct (json_eq_str t related_type_) eqn:E; [|discriminate].
  intros _. apply json_eq_str_true in E. subst. split; congruence.
Qed.

Lemma check_linkages_iff related_type_ detail ds :
  check_linkages related_type_ detail (map JDict ds) = inr tt
  <-> Forall (linkage_ok related_type_) ds.
Proof.
  induction ds as [|d ds IH]; simpl.
  - split; [constructor | reflexivity].
  - destruct (check_linkage related_type_ detail (JDict d)) as [e|[]] eqn:E.
    + split; [discriminate|]. intros H. inversion H; subst.
      rewrite (check_linkage_ok _ detail _ H2) in E. discriminate.
    + apply check_linkage_iff in E. rewrite IH. split.
      * intros H. now constructor.
      * intros H. now inversion H.
Qed.

Lemma dict_set_idem {V} (k : string) (v : V) (d : list (string * V)) :
  dict_set k v (dict_set k v d) = dict_set k v d.
Proof.
  induction d as [|[k' v'] d IH]; simpl.
  - now rewrite String.eqb_refl.
  - destruct (String.eqb k k') eqn:E; simpl.
    + now rewrite String.eqb_refl.
    + now rewrite E, IH.
Qed.

(** X13.  The acceptance side of the relationship check.  For a body whose
    [data] is an object, the check passes exactly when that object has the
    related type under [type] and has an [id] (of any value); for a body
    whose [data] is a list of objects, exactly when every element does.
    In particular an empty list passes. *)
Theorem relationship_check_accepts_exactly_linkage related_type_ body :
  (forall d,
     dict_get "data" body = Some (JDict d) ->
     (check_data_node (JDict body) related_type_ = inr tt
      <-> linkage_ok related_type_ d))
  /\ (forall ds,
        dict_get "data" body = Some (JList (map JDict ds)) ->
        (check_data_node (JDict body) related_type_ = inr tt
         <-> Forall (linkage_ok related_type_) ds))
  /\ (dict_get "data" body = Some (JList []) ->
      check_data_node (JDict body) related_type_ = inr tt).
Proof.
  split; [|split].
  - intros d Hd. unfold check_data_node. simpl. unfold dict_has.
    rewrite Hd. simpl. rewrite <- (check_linkage_iff related_type_
      "The type field does not match the resource type" d).
    destruct (check_linkage _ _ (JDict d)) as [e|[]];
      split; congruence.
  - intros ds Hd. unfold check_data_node. simpl. unfold dict_has.
    rewrite Hd. simpl. apply check_linkages_iff.
  - intros Hd. unfold check_data_node. simpl. unfold dict_has.
    now rewrite Hd.
Qed.

(** X14.  The self-link rewrite is idempotent: applied to a document it
    has already rewritten, it succeeds and changes nothing. *)
Theorem rewrite_self_is_idempotent path result result' :
  rewrite_self path result = inr result' ->
  rewrite_self path result' = inr result'.
Proof.
  intros H. unfold rewrite_self in H.
  destruct result as [| | | | | |kvs]; try discriminate H.
  simpl in H.
  destruct (dict_get "links" kvs) as [links|] eqn:Hl.
  - destruct links as [| | | | | |ls]; try discriminate H.
    simpl in H.
    destruct (dict_get "self" ls) as [self|] eqn:Hs.
    + destruct self; simpl in H;
        try (inversion H; subst; clear H;
             unfold rewrite_self; simpl;
             rewrite !dict_get_set_same; simpl;
             rewrite !dict_get_set_same; simpl;
             now rewrite !dict_set_idem).
      inversion H. subst. apply rewrite_self_absent.
      right. exists ls. auto.
    + simpl in H. inversion H. subst. apply rewrite_self_absent.
      right. exists ls. auto.
  - simpl in H. inversion H. subst. apply rewrite_self_absent. now left.
Qed.

Section RelationshipMore.
Variables store obj schema_inst : Type.
Variable cfg : config.
Variable rq : request.
Variable R : resource store obj schema_inst.

Local Abbreviation SC := (schema _ _ _ R).
Local Abbreviation rel_data :=
  (ResourceRelationship._get_relationship_data store obj schema_inst cfg rq R).
Local Abbreviation includes_with :=
  (ResourceRelationship.includes_with store obj schema_inst rq R).
Local Abbreviation perform := (mutate store obj schema_inst cfg rq R).

Ltac open_mutation m :=
  destruct m;
  unfold mutate, ResourceRelationship.post, ResourceRelationship.patch,
    ResourceRelationship.delete, bind, lift.

(** X15.  The relationship field is what follows the last slash of the
    request path, with dashes turned into underscores when [DASHERIZE_API]
    is [True]; when that name is a relationship of the schema declared as
    a [Relationship] field, resolution gives the name, its model field,
    the field's related type and its id field. *)
Theorem relationship_named_by_last_segment prefix seg t i mf :
  req_path rq = prefix ++ "/" ++ seg ->
  lacks "/" seg = true ->
  let rf :=
    if is_True (DASHERIZE_API cfg) then replace_char "-" "_" seg else seg in
  In rf (get_relationships_values _ _ _ SC) ->
  dict_get rf (_declared_fields _ _ _ SC) = Some (Relationship t i) ->
  get_model_field _ _ _ SC rf = inr mf ->
  rel_data = inr (rf, mf, t, i)
  /\ (DASHERIZE_API cfg = PyBool true -> lacks "-" rf = true).
Proof.
  intros Hp Hseg rf Hin Hf Hm. split.
  - unfold ResourceRelationship._get_relationship_data,
      ResourceRelationship.declared.
    rewrite Hp. change (prefix ++ "/" ++ seg) with (prefix ++ String "/" seg).
    rewrite (last_segment _ _ _ Hseg). fold rf.
    apply str_mem_In in Hin. rewrite Hin. simpl.
    rewrite Hf. simpl. now rewrite Hm.
  - intros Hd. subst rf. rewrite Hd. simpl.
    apply replace_char_lacks. discriminate.
Qed.

(** X16.  A last path segment that names no relationship of the schema
    ends every mutation with RelationNotFound (404) before the body is
    looked at and before any data layer call; a path that ends with a
    slash names the empty relationship. *)
Theorem unknown_relationship_is_rejected_first m args kw w :
  let seg := last (split_on "/" (req_path rq)) EmptyString in
  let rf :=
    if is_True (DASHERIZE_API cfg) then replace_char "-" "_" seg else seg in
  ~ In rf (get_relationships_values _ _ _ SC) ->
  perform m args kw w
  = (inl (JsonApi (mk_exc RelationNotFound (JStr EmptyString)
                     (schema_name _ _ _ SC ++ " has no attribute " ++ rf))),
     w)
  /\ exc_status RelationNotFound = 404
  /\ (forall prefix, req_path rq = prefix ++ "/" -> seg = EmptyString).
Proof.
  intros seg rf Hnot. split; [|split; [reflexivity|]].
  - apply str_mem_not_In in Hnot.
    assert (Hrel : rel_data =
      inl (JsonApi (mk_exc RelationNotFound (JStr EmptyString)
                      (schema_name _ _ _ SC ++ " has no attribute " ++ rf)))).
    { unfold ResourceRelationship._get_relationship_data.
      fold seg. fold rf. now rewrite Hnot. }
    open_mutation m; now rewrite Hrel.
  - intros prefix Hp. subst seg. rewrite Hp.
    change (prefix ++ "/") with (prefix ++ String "/" EmptyString).
    now apply last_segment.
Qed.

(** X17.  A relationship mutation whose body is no container -- null (no
    JSON body), a number or a boolean -- or whose [data] list holds such an
    element after valid ones, raises [TypeError] from the membership test,
    not BadRequest, and makes no data layer call. *)
Theorem malformed_relationship_body_raises_type_error rf mrf rt rif :
  rel_data = inr (rf, mrf, rt, rif) ->
  (scalar (req_json rq) = true ->
   forall m args kw w,
     exists msg, perform m args kw w = (inl (PyExc "TypeError" msg), w))
  /\ (forall body pre x rest,
        req_json rq = JDict body ->
        dict_get "data" body
        = Some (JList (map JDict pre ++ x :: rest)%list) ->
        Forall (linkage_ok rt) pre ->
        scalar x = true ->
        forall m args kw w,
          exists msg, perform m args kw w = (inl (PyExc "TypeError" msg), w)).
Proof.
  intros Hrel. split.
  - intros Hs m args kw w.
    assert (Hc : exists msg,
              check_data_node (req_json rq) rt = inl (PyExc "TypeError" msg)).
    { destruct (req_json rq); try discriminate Hs;
        eexists; reflexivity. }
    destruct Hc as [msg Hc]. exists msg.
    open_mutation m; rewrite Hrel; simpl; now rewrite Hc.
  - intros body pre x rest Hb Hd Hpre Hs m args kw w.
    assert (Hc : exists msg,
              check_data_node (req_json rq) rt = inl (PyExc "TypeError" msg)).
    { rewrite Hb. unfold check_data_node. simpl. unfold dict_has.
      rewrite Hd. simpl. rewrite (check_linkages_skip _ _ _ _ Hpre).
      destruct x; try discriminate Hs; eexists; reflexivity. }
    destruct Hc as [msg Hc]. exists msg.
    open_mutation m; rewrite Hrel; simpl; now rewrite Hc.
Qed.

(** X18.  The include list handed to [compute_schema] by a mutation is the
    query's include list with the relationship field appended when it is
    not there: the other paths keep their order, the field is never added
    twice, and a list without duplicates stays so. *)
Theorem relationship_field_is_included_once rf include :
  qs_include _ _ _ SC (req_args rq) = inr include ->
  exists includes,
    includes_with rf = inr includes
    /\ (In rf include -> includes = include)
    /\ (~ In rf include -> includes = (include ++ [rf])%list)
    /\ (NoDup include -> NoDup includes).
Proof.
  intros Hq. unfold ResourceRelationship.includes_with. rewrite Hq.
  destruct (str_mem rf include) eqn:E; simpl; eexists;
    (split; [reflexivity|]).
  - apply str_mem_In in E. repeat split; auto. intros H. contradiction.
  - apply str_mem_not_In in E. repeat split; auto.
    + intros H. contradiction.
    + intros Hnd. apply NoDup_app; auto.
      * constructor; [intros [] | constructor].
      * intros a Ha [H|[]]. subst. contradiction.
Qed.
End RelationshipMore.

(** ** The read methods *)

Lemma dict_get_absent {V} (k : string) (d : list (string * V)) :
  ~ In k (map fst d) -> dict_get k d = None.
Proof.
  induction d as [|[k' v] d IH]; simpl; [reflexivity|].
  intros H. destruct (String.eqb k k') eqn:E.
  - apply String.eqb_eq in E. subst. exfalso. apply H. now left.
  - apply IH. intros Hin. apply H. now right.
Qed.

Lemma dict_has_In {V} (k : string) (d : list (string * V)) :
  In k (map fst d) -> dict_has k d = true.
Proof.
  unfold dict_has. induction d as [|[k' v] d IH]; simpl; [contradiction|].
  intros [H|H].
  - subst. now rewrite String.eqb_refl.
  - destruct (String.eqb k k'); [reflexivity | now apply IH].
Qed.

Lemma dict_set_keys {V} (k : string) (v : V) (d : list (string * V)) :
  dict_has k d = true -> map fst (dict_set k v d) = map fst d.
Proof.
  unfold dict_has. induction d as [|[k' v'] d IH]; simpl; [discriminate|].
  destruct (String.eqb k k') eqn:E; simpl.
  - apply String.eqb_eq in E. now subst.
  - intros H. now rewrite IH.
Qed.

Lemma dict_set_same_value {V} (k : string) (v : V) (d : list (string * V)) :
  dict_get k d = Some v -> dict_set k v d = d.
Proof.
  induction d as [|[k' v'] d IH]; simpl; [discriminate|].
  destruct (String.eqb k k') eqn:E.
  - apply String.eqb_eq in E. intros H. inversion H. now subst.
  - intros H. now rewrite IH.
Qed.

Section ReadFacts.
Variables store obj schema_inst val : Type.
Variable cfg : config.
Variable R : resource store obj schema_inst.
Variable RL : ReadLayer store obj schema_inst val.

Local Abbreviation SC := (schema _ _ _ R).
Local Abbreviation placeholder :=
  (ResourceRelationshipRead.placeholder store obj schema_inst val RL).
Local Abbreviation traverse :=
  (ResourceRelationshipRead.traverse store obj schema_inst val RL).
Local Abbreviation resolve_items :=
  (ResourceRelationshipRead.resolve_items store obj schema_inst val RL).
Local Abbreviation relationship_get :=
  (fun rq =>
     ResourceRelationshipRead.get store obj schema_inst val cfg rq R RL).
Local Abbreviation rel_data :=
  (fun rq =>
     ResourceRelationship._get_relationship_data store obj schema_inst cfg
       rq R).

Lemma resolve_items_keys s o items d r d' :
  resolve_items s o items d = (r, d') ->
  (forall k, In k (map fst items) -> In k (map fst d)) ->
  map fst d' = map fst d.
Proof.
  revert d. induction items as [|[k v] items IH]; simpl; intros d H Hin.
  - now inversion H.
  - destruct (placeholder v) as [path|].
    + destruct (traverse s o path) as [e|x]; [now inversion H|].
      rewrite (IH _ H).
      * apply dict_set_keys, dict_has_In, Hin. now left.
      * intros k' Hk'.
        rewrite dict_set_keys by (apply dict_has_In, Hin; now left).
        apply Hin. now right.
    + apply (IH _ H). intros k' Hk'. apply Hin. now right.
Qed.

Lemma resolve_items_values s o items :
  NoDup (map fst items) ->
  forall d d',
    resolve_items s o items d = (inr tt, d') ->
    forall key,
      match dict_get key items with
      | Some value =>
          match placeholder value with
          | Some path =>
              exists x, traverse s o path = inr x /\ dict_get key d' = Some x
          | None => dict_get key d' = dict_get key d
          end
      | None => dict_get key d' = dict_get key d
      end.
Proof.
  induction items as [|[k v] items IH]; simpl; intros Hnd d d' H key.
  - now inversion H.
  - inversion Hnd as [|? ? Hk Hnd']; subst.
    pose proof (dict_get_absent k items Hk) as Habs.
    destruct (placeholder v) as [path|] eqn:Hp.
    + destruct (traverse s o path) as [e|x] eqn:Ht; [discriminate H|].
      pose proof (IH Hnd' _ _ H key) as Hrec.
      destruct (String.eqb key k) eqn:E.
      * apply String.eqb_eq in E. subst key.
        rewrite Habs in Hrec. rewrite Hp. exists x. split; [exact Ht|].
        now rewrite Hrec, dict_get_set_same.
      * assert (Hne : key <> k) by (now apply String.eqb_neq).
        rewrite (dict_get_set_other k key x d Hne) in Hrec. exact Hrec.
    + pose proof (IH Hnd' _ _ H key) as Hrec.
      destruct (String.eqb key k) eqn:E; [|exact Hrec].
      apply String.eqb_eq in E. subst key.
      rewrite Habs in Hrec. now rewrite Hp.
Qed.

Lemma resolve_items_nothing s o items d :
  Forall (fun kv => placeholder (snd kv) = None) items ->
  resolve_items s o items d = (inr tt, d).
Proof.
  induction 1 as [|[k v] items Hv _ IH]; simpl; [reflexivity|].
  simpl in Hv. now rewrite Hv.
Qed.

(** X19.  The placeholder loop, on a dict with distinct keys and when no
    attribute access raises: the dict keeps its keys in their order; an
    entry whose value is a string between [<] and [>] now holds the value
    reached from the owner by the dotted attribute path written between
    them; every other entry holds what it held. *)
Theorem placeholders_are_resolved_in_place s o d d' :
  NoDup (map fst d) ->
  resolve_items s o d d = (inr tt, d') ->
  map fst d' = map fst d
  /\ forall key value,
       dict_get key d = Some value ->
       match placeholder value with
       | Some path =>
           exists x, traverse s o path = inr x /\ dict_get key d' = Some x
       | None => dict_get key d' = Some value
       end.
Proof.
  intros Hnd H. split.
  - apply (resolve_items_keys _ _ _ _ _ _ H). auto.
  - intros key value Hget.
    pose proof (resolve_items_values s o d Hnd d d' H key) as Hv.
    rewrite Hget in Hv.
    destruct (placeholder value) as [path|]; [exact Hv | congruence].
Qed.






(** What a successful relationship get has done. *)
Lemma relationship_get_success
  rq args kw views w r views' w' rf mrf rt rif :
  rel_data rq = inr (rf, mrf, rt, rif) ->
  relationship_get rq args kw views w = ((inr r, views'), w') ->
  exists view kwargs o data s related,
    dict_get rf views = Some (view, kwargs)
    /\ get_relationship _ _ _ _ RL mrf rt rif kw (w_store w)
       = (inr (o, data), s)
    /\ (exists resolved,
          resolve_items s (of_obj _ _ _ _ RL o) kwargs kwargs
          = (inr tt, resolved)
          /\ views' = dict_set rf (view, resolved) views
          /\ url_for_related _ _ _ _ RL view resolved = inr related)
    /\ related_link r = inr (JStr related)
    /\ w' = mk_world s (w_trace w).
Proof.
  intros Hrel. unfold ResourceRelationshipRead.get. rewrite Hrel.
  unfold ResourceRelationshipRead.related_attrs, read.
  destruct (dict_get rf views) as [[view kwargs]|]; [|discriminate].
  destruct (get_relationship _ _ _ _ RL mrf rt rif kw (w_store w))
    as [[e|[o data]] s]; [discriminate|].
  cbn [w_store].
  destruct (resolve_items s (of_obj _ _ _ _ RL o) kwargs kwargs)
    as [[e|[]] resolved] eqn:Hres; [discriminate|].
  unfold ResourceRelationshipRead.finish.
  destruct (url_for_related _ _ _ _ RL view resolved) as [e|related] eqn:Hu;
    [discriminate|].
  intros H. injection H as Hr Hv Hw.
  exists view, kwargs, o, data, s, related.
  split; [reflexivity|]. split; [reflexivity|].
  split.
  { exists resolved. split; [exact Hres|]. split; [now symmetry | exact Hu]. }
  split; [|now symmetry].
  unfold ResourceRelationshipRead.with_included in Hr.
  destruct (qs_include _ _ _ _ _) as [e|[|i include]];
    [discriminate | inversion Hr; reflexivity |].
  destruct (compute_schema _ _ _ _ _ _ _) as [e|sch]; [discriminate|].
  destruct (schema_dump _ _ _ _ _ _ _) as [e|ser]; [discriminate|].
  destruct (py_get ser "included" (JDict [])) as [e|inc]; [discriminate|].
  simpl in Hr. inversion Hr. reflexivity.
Qed.

(** X21.  The placeholders are resolved in the field's own dict, so they
    are resolved once.  After a successful relationship get has left no
    placeholder in the field's [related_view_kwargs], any later successful
    get on the same field -- for whatever owner -- leaves the table as it
    is and returns the [related] link of that first request. *)
Theorem related_link_is_fixed_by_first_request
  rq1 rq2 a1 k1 a2 k2 views w1 r1 views1 w1' w2 r2 views2 w2'
  rf mrf rt rif mrf2 rt2 rif2 :
  rel_data rq1 = inr (rf, mrf, rt, rif) ->
  rel_data rq2 = inr (rf, mrf2, rt2, rif2) ->
  relationship_get rq1 a1 k1 views w1 = ((inr r1, views1), w1') ->
  (forall view kwargs,
     dict_get rf views1 = Some (view, kwargs) ->
     Forall (fun kv => placeholder (snd kv) = None) kwargs) ->
  relationship_get rq2 a2 k2 views1 w2 = ((inr r2, views2), w2') ->
  related_link r2 = related_link r1 /\ views2 = views1.
Proof.
  intros Hrel1 Hrel2 Hrun1 Hclean Hrun2.
  destruct (relationship_get_success _ _ _ _ _ _ _ _ _ _ _ _ Hrel1 Hrun1)
    as (view & kwargs & o & data & s & related & _ & _ &
        (resolved & _ & Hviews & Hurl) & Hlink1 & _).
  destruct (relationship_get_success _ _ _ _ _ _ _ _ _ _ _ _ Hrel2 Hrun2)
    as (view2 & kwargs2 & o2 & data2 & s2 & related2 & Hget2 & _ &
        (resolved2 & Hres2 & Hviews2 & Hurl2) & Hlink2 & _).
  assert (Hentry : dict_get rf views1 = Some (view, resolved)).
  { rewrite Hviews. apply dict_get_set_same. }
  rewrite Hentry in Hget2. inversion Hget2. subst view2 kwargs2.
  rewrite (resolve_items_nothing _ _ _ _ (Hclean _ _ Hentry)) in Hres2.
  inversion Hres2. subst resolved2.
  split.
  - rewrite Hlink1, Hlink2. congruence.
  - rewrite Hviews2. now apply dict_set_same_value.
Qed.
End ReadFacts.

Section ListReadFacts.
Variables store obj schema_inst val : Type.
Variable rq : request.
Variable R : resource store obj schema_inst.
Variable RL : ReadLayer store obj schema_inst val.
Variable view : string.
Variable view_kwargs : option pyval.
Variable view_args : kwargs.

Local Abbreviation SC := (schema _ _ _ R).
Local Abbreviation list_get :=
  (ResourceListRead.get store obj schema_inst val rq R RL view view_kwargs
     view_args).

(** X22.  A collection get whose pieces all succeed returns the paginated
    document with its [meta] member replaced by [{count: n}], [n] being the
    count the data layer returned with the objects: whatever [meta] the
    serializer or the pagination helper had put there is gone, and every
    other member is as the pagination helper left it.  The URL kwargs of
    the request are handed to [url_for] only when the class attribute
    [view_kwargs] is [True].  No call of the trace is made. *)
Theorem collection_get_reports_storage_count
  args kw s0 t0 n objects s1 include sch result url d :
  get_collection _ _ _ _ RL (req_args rq) kw s0 = (inr (n, objects), s1) ->
  qs_include _ _ _ SC (req_args rq) = inr include ->
  compute_schema _ _ _ SC
    (dict_set "many" (JBool true) (get_schema_kwargs _ _ _ R))
    (req_args rq) include = inr sch ->
  dump_many _ _ _ _ RL sch s1 objects = inr result ->
  url_for_view _ _ _ _ RL view
    (if match view_kwargs with Some v => is_True v | None => false end
     then view_args else []) = inr url ->
  add_pagination_links _ _ _ _ RL result n (req_args rq) url
  = inr (JDict d) ->
  exists doc,
    list_get args kw (mk_world s0 t0) = (inr (RetDoc doc), mk_world s1 t0)
    /\ py_getitem doc "meta" = inr (JDict [("count", JInt n)])
    /\ forall k, k <> "meta" -> py_getitem doc k = py_getitem (JDict d) k.
Proof.
  intros Hc Hi Hs Hd Hu Hp.
  exists (JDict (dict_set "meta" (JDict [("count", JInt n)]) d)).
  split; [|split].
  - unfold ResourceListRead.get, ResourceListRead.before_get,
      ResourceListRead.after_get, bind, lift, ret, read.
    cbn [w_store w_trace]. rewrite Hc. cbn [w_store w_trace].
    rewrite Hi, Hs. cbn [w_store]. rewrite Hd.
    assert (Hu' : url_for_view _ _ _ _ RL view
                    match view_kwargs with
                    | Some v => if is_True v then view_args else []
                    | None => []
                    end = inr url).
    { destruct view_kwargs as [v|]; exact Hu. }
    rewrite Hu', Hp. reflexivity.
  - simpl. now rewrite dict_get_set_same.
  - intros k Hk. simpl. now rewrite dict_get_set_other.
Qed.
End ListReadFacts.

(** ** Class creation *)

(** X23.  Every resource class that the metaclass creates has
    [check_headers] as its first decorator, followed by the decorators of
    its own body in their order; its data layer is the default
    [SqlalchemyDataLayer] when the [data_layer] dict names no class, and an
    application class only when the dict names it and it inherits from
    [BaseDataLayer]. *)
Theorem created_class_checks_headers_first name d rc :
  ResourceMeta.new name d = inr rc ->
  (exists own,
     ResourceMeta.class_decorators rc = "check_headers" :: own
     /\ (ResourceMeta.body_decorators d = None -> own = [])
     /\ (forall l,
           ResourceMeta.body_decorators d = Some (ResourceMeta.AsTuple l) ->
           own = l))
  /\ (ResourceMeta.body_data_layer d
      = Some (ResourceMeta.DataLayerDict ResourceMeta.NoClass) ->
      ResourceMeta.class_data_layer rc
      = Some ResourceMeta.SqlalchemyDataLayer)
  /\ (forall n b,
        ResourceMeta.class_data_layer rc = Some (ResourceMeta.Custom n b) ->
        b = true
        /\ ResourceMeta.body_data_layer d
           = Some (ResourceMeta.DataLayerDict
                     (ResourceMeta.Class (ResourceMeta.Custom n b)))).
Proof.
  unfold ResourceMeta.new, ResourceMeta.choose_data_layer,
    ResourceMeta.choose_decorators.
  destruct d as [dl dec]. simpl.
  destruct dl as [[|[| |[|n0 [|]]]]|]; try discriminate;
    destruct dec as [[l|l]|]; try discriminate;
    intros H; inversion H; subst; clear H; simpl;
    (split; [eexists; split; [reflexivity|];
             split; [intros E; congruence
                    | intros l' E; congruence]|]);
    (split; [intros E; congruence|]);
    intros n b E; inversion E; subst; split; reflexivity.
Qed.

(** ** The further properties on the concrete instances *)

Lemma raised_errors_skip_conditional_check_witness :
  exists resp,
    Resource.dispatch_request Sample.store Sample.obj Sample.platform
      Sample.etag_on (Sample.get7 [("If-None-Match", "*")])
      (Sample.detail_view Sample.etag_on
         (Sample.get7 [("If-None-Match", "*")]))
      [] [("id", UInt 9)] (Sample.start Sample.one_article)
    = (inr (Some resp),
       mk_world Sample.one_article [GetObject [("id", UInt 9)] None])
    /\ resp_status resp = 404.
Proof.
  edestruct (raised_errors_skip_conditional_check Sample.store Sample.obj
               Sample.platform Sample.etag_on
               (Sample.get7 [("If-None-Match", "*")])
               (Sample.detail_view Sample.etag_on
                  (Sample.get7 [("If-None-Match", "*")]))
               (ResourceDetail.get Sample.store Sample.obj
                  Sample.schema_inst (Sample.get7 [("If-None-Match", "*")])
                  Sample.articles_resource)
               [] [("id", UInt 9)] (Sample.start Sample.one_article))
    as [Hrun _].
  - reflexivity.
  - cbv. reflexivity.
  - eexists. split; [exact Hrun | reflexivity].
Defined.

Lemma unexpected_errors_are_masked_witness :
  exists resp,
    Resource.dispatch_request Sample.store Sample.obj Sample.platform
      Sample.etag_on (Sample.patch7 "7")
      (Sample.detail_view Sample.etag_on (Sample.patch7 "7"))
      [] [] (Sample.start Sample.one_article)
    = (inr (Some resp), Sample.start Sample.one_article)
    /\ resp_status resp = 500.
Proof.
  edestruct (unexpected_errors_are_masked Sample.store Sample.obj
               Sample.platform Sample.etag_on (Sample.patch7 "7")
               (Sample.detail_view Sample.etag_on (Sample.patch7 "7"))
               (ResourceDetail.patch Sample.store Sample.obj
                  Sample.schema_inst (Sample.patch7 "7")
                  Sample.articles_resource)
               [] [] (Sample.start Sample.one_article))
    as [_ Hmasked].
  - reflexivity.
  - cbv. reflexivity.
  - destruct Hmasked as [detail [Hrun [Hstatus _]]]; [discriminate|].
    eexists. split; [exact Hrun | exact Hstatus].
Defined.

Lemma unimplemented_method_runs_nothing_witness :
  Resource.dispatch_request Sample.store Sample.obj Sample.platform
    Sample.etag_on (mk_request "PUT" "/articles/7" [] [] JNull)
    (Sample.detail_view Sample.etag_on (Sample.get7 []))
    [] Sample.article7 (Sample.start Sample.one_article)
  = (inl (PyExc "AssertionError" "Unimplemented method PUT"),
     Sample.start Sample.one_article).
Proof.
  apply (unimplemented_method_runs_nothing Sample.store Sample.obj
           Sample.platform Sample.etag_on
           (mk_request "PUT" "/articles/7" [] [] JNull)).
  - reflexivity.
  - discriminate.
Defined.

Lemma head_is_answered_by_get_witness :
  Resource.dispatch_request Sample.store Sample.obj Sample.platform
    Sample.etag_on (mk_request "HEAD" "/articles/7" [] [] JNull)
    (Sample.detail_view Sample.etag_on (Sample.get7 []))
    [] Sample.article7 (Sample.start Sample.one_article)
  = Resource.dispatch_request Sample.store Sample.obj Sample.platform
      Sample.etag_on (mk_request "GET" "/articles/7" [] [] JNull)
      (Sample.detail_view Sample.etag_on (Sample.get7 []))
      [] Sample.article7 (Sample.start Sample.one_article).
Proof.
  eapply head_is_answered_by_get. reflexivity.
Defined.

Lemma etag_sent_back_gives_not_modified_witness :
  fst (Resource.dispatch_request Sample.store Sample.obj Sample.platform
         Sample.etag_on (Sample.get7 [("If-None-Match", "16263")])
         (Sample.detail_view Sample.etag_on
            (Sample.get7 [("If-None-Match", "16263")]))
         [] Sample.article7 (Sample.start Sample.one_article))
  = inr (Some (Resource.error_response Sample.platform Resource.not_modified
                 default_headers)).
Proof.
  edestruct (etag_sent_back_gives_not_modified Sample.store Sample.obj
               Sample.platform Sample.etag_on
               (Sample.get7 [("If-None-Match", "16263")])
               (Sample.detail_view Sample.etag_on
                  (Sample.get7 [("If-None-Match", "16263")]))
               (ResourceDetail.get Sample.store Sample.obj
                  Sample.schema_inst
                  (Sample.get7 [("If-None-Match", "16263")])
                  Sample.articles_resource)
               [] Sample.article7 (Sample.start Sample.one_article))
    as [Hrun _].
  - reflexivity.
  - cbv. reflexivity.
  - reflexivity.
  - reflexivity.
  - reflexivity.
  - discriminate.
  - reflexivity.
  - rewrite Hrun. reflexivity.
Defined.

Lemma quoted_etag_is_not_recognised_witness :
  exists resp,
    fst (Resource.dispatch_request Sample.store Sample.obj Sample.platform
           Sample.etag_on
           (Sample.get7 [("If-None-Match", SampleEdge.quoted "16263")])
           (Sample.detail_view Sample.etag_on
              (Sample.get7 [("If-None-Match", SampleEdge.quoted "16263")]))
           [] Sample.article7 (Sample.start Sample.one_article))
    = inr (Some resp)
    /\ resp_status resp = 200.
Proof.
  eexists. split.
  - erewrite (quoted_etag_is_not_recognised Sample.store Sample.obj
                Sample.platform Sample.etag_on
                (Sample.get7 [("If-None-Match", SampleEdge.quoted "16263")])
                (Sample.detail_view Sample.etag_on
                   (Sample.get7
                      [("If-None-Match", SampleEdge.quoted "16263")]))
                (ResourceDetail.get Sample.store Sample.obj
                   Sample.schema_inst
                   (Sample.get7
                      [("If-None-Match", SampleEdge.quoted "16263")])
                   Sample.articles_resource)
                [] Sample.article7 (Sample.start Sample.one_article)).
    + reflexivity.
    + reflexivity.
    + cbv. reflexivity.
    + reflexivity.
    + reflexivity.
    + reflexivity.
    + reflexivity.
  - reflexivity.
Defined.

Lemma patch_updates_then_serializes_witness :
  exists doc,
    ResourceDetail.patch Sample.store Sample.obj Sample.schema_inst
      (Sample.patch7 "7") Sample.articles_resource
      [] Sample.article7 (Sample.start Sample.one_article)
    = (inr (RetDoc doc),
       mk_world Sample.one_article
         [GetObject Sample.article7 None;
          UpdateObject "7" (JDict Sample.hello) Sample.article7]).
Proof.
  edestruct (patch_updates_then_serializes Sample.store Sample.obj
               Sample.schema_inst (Sample.patch7 "7")
               Sample.articles_resource [] Sample.article7
               Sample.one_article [])
    as [_ Hupdate].
  - reflexivity.
  - reflexivity.
  - cbv. reflexivity.
  - reflexivity.
  - reflexivity.
  - reflexivity.
  - reflexivity.
  - eexists. eapply Hupdate.
    + reflexivity.
    + reflexivity.
    + reflexivity.
Defined.

Lemma precondition_failure_follows_update_witness :
  Resource.dispatch_request Sample.store Sample.obj Sample.platform
    Sample.etag_on (SampleEdge.patch7_with [("If-Match", "zzz")])
    (Sample.detail_view Sample.etag_on
       (SampleEdge.patch7_with [("If-Match", "zzz")]))
    [] Sample.article7 (Sample.start Sample.one_article)
  = (inr (Some (Resource.error_response Sample.platform
                  Resource.precondition_failed default_headers)),
     mk_world Sample.one_article
       [GetObject Sample.article7 None;
        UpdateObject "7" (JDict Sample.hello) Sample.article7]).
Proof.
  edestruct (precondition_failure_follows_update Sample.store Sample.obj
               Sample.schema_inst Sample.platform Sample.etag_on
               (SampleEdge.patch7_with [("If-Match", "zzz")])
               Sample.articles_resource
               (Sample.detail_view Sample.etag_on
                  (SampleEdge.patch7_with [("If-Match", "zzz")]))
               [] Sample.article7 Sample.one_article [])
    as [Hrun _].
  - reflexivity.
  - reflexivity.
  - reflexivity.
  - cbv. reflexivity.
  - reflexivity.
  - reflexivity.
  - reflexivity.
  - reflexivity.
  - reflexivity.
  - reflexivity.
  - reflexivity.
  - reflexivity.
  - reflexivity.
  - discriminate.
  - cbv. intros [H|[]]. discriminate H.
  - cbv. intros [H|[]]. discriminate H.
  - exact Hrun.
Defined.

Lemma delete_of_missing_object_stops_witness :
  ResourceDetail.delete Sample.store Sample.obj Sample.schema_inst
    Sample.platform Sample.etag_on (Sample.delete7 [])
    Sample.articles_resource
    [] [("id", UInt 9)] (Sample.start Sample.one_article)
  = (inl object_not_found,
     mk_world Sample.one_article [GetObject [("id", UInt 9)] (Some false)]).
Proof.
  edestruct (delete_of_missing_object_stops Sample.store Sample.obj
               Sample.schema_inst Sample.platform Sample.etag_on
               (Sample.delete7 []) Sample.articles_resource
               [] [("id", UInt 9)] (Sample.start Sample.one_article))
    as [Hrun _].
  - reflexivity.
  - exact Hrun.
Defined.


Lemma post_without_self_link_keeps_object_witness :
  exists stored resp,
    ResourceList.post Sample.store Sample.obj Sample.schema_inst
      (SampleEdge.post_note SampleEdge.note) SampleEdge.notes_resource
      [] [] (Sample.start [])
    = (inl (PyExc "KeyError" "links"),
       mk_world [("1", stored)] [CreateObject stored []])
    /\ Resource.dispatch_request Sample.store Sample.obj Sample.platform
         Sample.etag_on (SampleEdge.post_note SampleEdge.note)
         (SampleEdge.notes_view (SampleEdge.post_note SampleEdge.note))
         [] [] (Sample.start [])
       = (inr (Some resp), mk_world [("1", stored)] [CreateObject stored []])
    /\ resp_status resp = 500.
Proof.
  edestruct (post_without_self_link_keeps_object Sample.store Sample.obj
               Sample.schema_inst Sample.platform Sample.etag_on
               (SampleEdge.post_note SampleEdge.note)
               SampleEdge.notes_resource
               (SampleEdge.notes_view (SampleEdge.post_note SampleEdge.note))
               [] [] [] [])
    as [Hrun [cls [msg [He Hresp]]]].
  - reflexivity.
  - reflexivity.
  - reflexivity.
  - cbv. reflexivity.
  - cbv. reflexivity.
  - reflexivity.
  - cbv. reflexivity.
  - destruct (Hresp eq_refl) as [resp [Hd Hs]].
    eexists. exists resp. split; [exact Hrun|]. split; [exact Hd | exact Hs].
Defined.

Lemma load_messages_without_errors_key_raise_witness :
  ResourceList.post Sample.store Sample.obj Sample.schema_inst
    (SampleEdge.post_note JNull) SampleEdge.notes_resource
    [] [] (Sample.start [])
  = (inl (PyExc "KeyError" "errors"), Sample.start []).
Proof.
  edestruct (load_messages_without_errors_key_raise Sample.store Sample.obj
               Sample.schema_inst (SampleEdge.post_note JNull)
               SampleEdge.notes_resource
               [("_schema", JList [JStr "Object must include data key."])])
    as (_ & Hraised & _).
  - reflexivity.
  - apply Hraised. exists []. exists []. repeat split.
Defined.

Lemma relationship_check_accepts_exactly_linkage_witness :
  check_data_node
    (JDict [("data", JList [Sample.linkage "people" "1";
                            Sample.linkage "people" "2"])])
    "people" = inr tt.
Proof.
  destruct (relationship_check_accepts_exactly_linkage "people"
              [("data", JList [Sample.linkage "people" "1";
                               Sample.linkage "people" "2"])])
    as (_ & Hlist & _).
  apply (Hlist [[("type", JStr "people"); ("id", JStr "1")];
                [("type", JStr "people"); ("id", JStr "2")]] eq_refl).
  repeat constructor; discriminate.
Defined.

Lemma rewrite_self_is_idempotent_witness :
  rewrite_self "/articles/7/relationships/author"
    (JDict [("links",
             JDict [("self", JStr "/articles/7/relationships/author")])])
  = inr (JDict [("links",
                 JDict [("self", JStr "/articles/7/relationships/author")])]).
Proof.
  apply (rewrite_self_is_idempotent "/articles/7/relationships/author"
           (JDict [("links", JDict [("self", JStr "/articles/7")])])).
  reflexivity.
Defined.

Lemma relationship_named_by_last_segment_witness :
  ResourceRelationship._get_relationship_data Sample.store Sample.obj
    Sample.schema_inst Sample.etag_on
    (Sample.author_of_7 "POST" JNull) Sample.articles_resource
  = inr ("author", "author", "people", "id").
Proof.
  edestruct (relationship_named_by_last_segment Sample.store Sample.obj
               Sample.schema_inst Sample.etag_on
               (Sample.author_of_7 "POST" JNull) Sample.articles_resource
               "/articles/7/relationships" "author")
    as [Hrel _].
  - reflexivity.
  - reflexivity.
  - simpl. left. reflexivity.
  - reflexivity.
  - reflexivity.
  - exact Hrel.
Defined.

Lemma unknown_relationship_is_rejected_first_witness :
  mutate Sample.store Sample.obj Sample.schema_inst Sample.etag_on
    (mk_request "POST" "/articles/7/relationships/comments" [] [] JNull)
    Sample.articles_resource Add
    [] Sample.article7 (Sample.start Sample.one_article)
  = (inl (JsonApi (mk_exc RelationNotFound (JStr EmptyString)
                     "ArticleSchema has no attribute comments")),
     Sample.start Sample.one_article).
Proof.
  edestruct (unknown_relationship_is_rejected_first Sample.store Sample.obj
               Sample.schema_inst Sample.etag_on
               (mk_request "POST" "/articles/7/relationships/comments" [] []
                  JNull)
               Sample.articles_resource Add
               [] Sample.article7 (Sample.start Sample.one_article))
    as [Hrun _].
  - cbv. intros [H|[]]. discriminate H.
  - exact Hrun.
Defined.

Lemma malformed_relationship_body_raises_type_error_witness :
  exists msg,
    mutate Sample.store Sample.obj Sample.schema_inst Sample.etag_on
      (SampleReads.author_of "7") Sample.articles_resource Remove
      [] Sample.article7 (Sample.start Sample.one_article)
    = (inl (PyExc "TypeError" msg), Sample.start Sample.one_article).
Proof.
  edestruct (malformed_relationship_body_raises_type_error Sample.store
               Sample.obj Sample.schema_inst Sample.etag_on
               (SampleReads.author_of "7") Sample.articles_resource
               "author" "author" "people" "id")
    as [Hscalar _].
  - reflexivity.
  - apply Hscalar. reflexivity.
Defined.

Lemma relationship_field_is_included_once_witness :
  ResourceRelationship.includes_with Sample.store Sample.obj
    Sample.schema_inst
    (mk_request "POST" "/articles/7/relationships/author"
       [("include", "author,author.books")] [] JNull)
    Sample.articles_resource "author"
  = inr ["author"; "author.books"].
Proof.
  edestruct (relationship_field_is_included_once Sample.store Sample.obj
               Sample.schema_inst
               (mk_request "POST" "/articles/7/relationships/author"
                  [("include", "author,author.books")] [] JNull)
               Sample.articles_resource "author")
    as [includes [Hrun [Hsame _]]].
  - reflexivity.
  - rewrite Hrun. rewrite Hsame; [reflexivity|]. simpl. left. reflexivity.
Defined.

Lemma placeholders_are_resolved_in_place_witness :
  dict_get "id"
    (snd (ResourceRelationshipRead.resolve_items Sample.store Sample.obj
            Sample.schema_inst SampleReads.val SampleReads.read_layer
            SampleReads.two_articles (SampleReads.Ref "7")
            [("id", SampleReads.Val (JStr "<author.id>"))]
            [("id", SampleReads.Val (JStr "<author.id>"))]))
  = Some (SampleReads.Val (JStr "3")).
Proof.
  destruct (placeholders_are_resolved_in_place Sample.store Sample.obj
              Sample.schema_inst SampleReads.val SampleReads.read_layer
              SampleReads.two_articles (SampleReads.Ref "7")
              [("id", SampleReads.Val (JStr "<author.id>"))]
              (snd (ResourceRelationshipRead.resolve_items Sample.store
                      Sample.obj Sample.schema_inst SampleReads.val
                      SampleReads.read_layer SampleReads.two_articles
                      (SampleReads.Ref "7")
                      [("id", SampleReads.Val (JStr "<author.id>"))]
                      [("id", SampleReads.Val (JStr "<author.id>"))])))
    as [_ Hvalues].
  - repeat constructor. intros [].
  - reflexivity.
  - destruct (Hvalues "id" (SampleReads.Val (JStr "<author.id>")) eq_refl)
      as [x [Hx Hget]].
    rewrite Hget. cbv in Hx. congruence.
Defined.


Lemma related_link_is_fixed_by_first_request_witness :
  exists first second table,
    ResourceRelationshipRead.get Sample.store Sample.obj Sample.schema_inst
      SampleReads.val Sample.etag_on (SampleReads.author_of "7")
      Sample.articles_resource SampleReads.read_layer
      [] (SampleReads.article 7) SampleReads.views
      (Sample.start SampleReads.two_articles)
    = ((inr first, table), Sample.start SampleReads.two_articles)
    /\ ResourceRelationshipRead.get Sample.store Sample.obj
         Sample.schema_inst SampleReads.val Sample.etag_on
         (SampleReads.author_of "8") Sample.articles_resource
         SampleReads.read_layer
         [] (SampleReads.article 8) table
         (Sample.start SampleReads.two_articles)
       = ((inr second, table), Sample.start SampleReads.two_articles)
    /\ related_link first = inr (JStr "/people/3")
    /\ related_link second = inr (JStr "/people/3").
Proof.
  eexists. eexists. eexists.
  split; [cbv; reflexivity|]. split; [cbv; reflexivity|].
  split; [reflexivity|].
  etransitivity.
  - eapply proj1.
    eapply (related_link_is_fixed_by_first_request Sample.store Sample.obj
              Sample.schema_inst SampleReads.val Sample.etag_on
              Sample.articles_resource SampleReads.read_layer)
      with (rq1 := SampleReads.author_of "7")
           (rq2 := SampleReads.author_of "8")
           (a1 := []) (k1 := SampleReads.article 7)
           (a2 := []) (k2 := SampleReads.article 8)
           (views := SampleReads.views)
           (w1 := Sample.start SampleReads.two_articles)
           (w2 := Sample.start SampleReads.two_articles).
    + cbv. reflexivity.
    + cbv. reflexivity.
    + cbv. reflexivity.
    + intros view kwargs H. cbv in H. inversion H. subst.
      repeat constructor.
    + cbv. reflexivity.
  - reflexivity.
Defined.

Lemma collection_get_reports_storage_count_witness :
  exists doc,
    ResourceListRead.get Sample.store Sample.obj Sample.schema_inst
      SampleReads.val SampleReads.list_articles Sample.articles_resource
      SampleReads.read_layer "/articles" None []
      [] [] (Sample.start SampleReads.two_articles)
    = (inr (RetDoc doc), Sample.start SampleReads.two_articles)
    /\ py_getitem doc "meta" = inr (JDict [("count", JInt 2)]).
Proof.
  edestruct (collection_get_reports_storage_count Sample.store Sample.obj
               Sample.schema_inst SampleReads.val SampleReads.list_articles
               Sample.articles_resource SampleReads.read_layer
               "/articles" None [] [] [] SampleReads.two_articles [])
    as [doc [Hrun [Hmeta _]]].
  - reflexivity.
  - reflexivity.
  - reflexivity.
  - reflexivity.
  - reflexivity.
  - cbv. reflexivity.
  - exists doc. split; [exact Hrun | exact Hmeta].
Defined.

Lemma created_class_checks_headers_first_witness :
  exists rc,
    ResourceMeta.new "ArticleDetail"
      (ResourceMeta.mk_body
         (Some (ResourceMeta.DataLayerDict ResourceMeta.NoClass))
         (Some (ResourceMeta.AsTuple ["login_required"])))
    = inr rc
    /\ ResourceMeta.class_decorators rc = ["check_headers"; "login_required"]
    /\ ResourceMeta.class_data_layer rc
       = Some ResourceMeta.SqlalchemyDataLayer.
Proof.
  eexists. split; [reflexivity|].
  edestruct (created_class_checks_headers_first "ArticleDetail"
               (ResourceMeta.mk_body
                  (Some (ResourceMeta.DataLayerDict ResourceMeta.NoClass))
                  (Some (ResourceMeta.AsTuple ["login_required"]))))
    as [[own [Hdec [_ Hown]]] [Hdl _]].
  - reflexivity.
  - split.
    + rewrite Hdec. now rewrite (Hown ["login_required"] eq_refl).
    + now apply Hdl.
Defined.

(** ** What the wrapper builds from a tuple or a document *)

(** X24.  The response built from a document, a pair or a triple has the
    JSON:API media type under [Content-Type], also when the verb's own
    headers named another, and keeps every other header of a triple; its
    body is the encoding of the document, to which a dict document has
    gained the member [jsonapi: {version: 1.0}] -- replacing one it had,
    keeping all others -- while any other document is encoded as it is. *)
Theorem built_response_is_jsonapi P response :
  (forall r, response <> RetResponse r) ->
  let resp := fst (Resource.build_response P response) in
  let h := snd (Resource.build_response P response) in
  resp_headers resp = h
  /\ dict_get "Content-Type" h = Some Resource.content_type
  /\ (forall d st h0 k,
        response = RetTriple d st h0 -> k <> "Content-Type" ->
        dict_get k h = dict_get k h0)
  /\ (exists d,
        resp_data resp = json_dumps P (stamp_version d)
        /\ (response = RetDoc d
            \/ (exists st, response = RetPair d st)
            \/ (exists st h0, response = RetTriple d st h0))
        /\ (forall kvs,
              d = JDict kvs ->
              py_getitem (stamp_version d) "jsonapi" = inr jsonapi_version
              /\ forall k, k <> "jsonapi" ->
                   py_getitem (stamp_version d) k = py_getitem d k)
        /\ ((forall kvs, d <> JDict kvs) -> stamp_version d = d)).
Proof.
  intros Hnot resp h.
  assert (Hstamp : forall d,
    (forall kvs, d = JDict kvs ->
       py_getitem (stamp_version d) "jsonapi" = inr jsonapi_version
       /\ forall k, k <> "jsonapi" ->
            py_getitem (stamp_version d) k = py_getitem d k)
    /\ ((forall kvs, d <> JDict kvs) -> stamp_version d = d)).
  { intros d. split.
    - intros kvs Hd. subst d. simpl. rewrite dict_get_set_same.
      split; [reflexivity|]. intros k Hk.
      now rewrite dict_get_set_other.
    - intros Hd. destruct d; try reflexivity. destruct (Hd kvs eq_refl). }
  destruct response as [r|d|d st|d st h0]; subst resp h; simpl.
  - destruct (Hnot r eq_refl).
  - split; [reflexivity|]. split; [reflexivity|].
    split; [intros ? ? ? ? H; discriminate H|].
    exists d. split; [reflexivity|]. split; [now left|]. apply Hstamp.
  - split; [reflexivity|]. split; [reflexivity|].
    split; [intros ? ? ? ? H; discriminate H|].
    exists d. split; [reflexivity|].
    split; [right; left; now exists st|]. apply Hstamp.
  - split; [reflexivity|].
    split; [apply dict_get_set_same|].
    split.
    + intros d' st' h0' k H Hk. inversion H. subst.
      now apply dict_get_set_other.
    + exists d. split; [reflexivity|].
      split; [right; right; now exists st, h0|]. apply Hstamp.
Qed.

Lemma built_response_is_jsonapi_witness :
  dict_get "Location"
    (resp_headers
       (fst (Resource.build_response Sample.platform
               (RetTriple (JDict []) 201
                  [("Content-Type", JStr "text/html");
                   ("Location", JStr "/articles/1")]))))
  = Some (JStr "/articles/1")
  /\ dict_get "Content-Type"
       (snd (Resource.build_response Sample.platform
               (RetTriple (JDict []) 201
                  [("Content-Type", JStr "text/html");
                   ("Location", JStr "/articles/1")])))
     = Some (JStr "application/vnd.api+json").
Proof.
  destruct (built_response_is_jsonapi Sample.platform
              (RetTriple (JDict []) 201
                 [("Content-Type", JStr "text/html");
                  ("Location", JStr "/articles/1")]))
    as (Hh & Hct & Hkeep & _).
  - discriminate.
  - split; [|exact Hct].
    rewrite Hh.
    rewrite (Hkeep (JDict []) 201
               [("Content-Type", JStr "text/html");
                ("Location", JStr "/articles/1")] "Location" eq_refl).
    + reflexivity.
    + discriminate.
Defined.

(** ** Validation documents and the conditional check *)

Section LoadThroughDispatch.
Variables store obj schema_inst : Type.
Variable P : Platform.
Variable cfg : config.
Variable rq : request.
Variable R : resource store obj schema_inst.

Local Abbreviation list_post :=
  (ResourceList.post store obj schema_inst rq R).
Local Abbreviation post_loads := (post_loads store obj schema_inst rq R).

(** X25.  The 422 document of a failed validation is returned by the verb
    as a pair, so it goes through the success path of the wrapper and its
    ETag block.  With the ETag protocol enabled and no [If-Match], a create
    whose body fails validation while the request says
    [If-None-Match: *] is answered NotModified (304), not 422; with the
    protocol not enabled it gets no response at all. *)
Theorem validation_failure_meets_conditional_check v args kw w m ds :
  Resource.find_method store obj rq v = Some list_post ->
  post_loads (RaisedValidation (JDict m)) ->
  dict_get "errors" m = Some (JList (map JDict ds)) ->
  (is_True (ETAG cfg) = true ->
   truthy (headers_get "If-Match" (req_headers rq)) = false ->
   headers_get "If-None-Match" (req_headers rq) = Some "*" ->
   Resource.dispatch_request store obj P cfg rq v args kw w
   = (inr (Some (Resource.error_response P Resource.not_modified
                   default_headers)), w))
  /\ (is_True (ETAG cfg) = false ->
      Resource.dispatch_request store obj P cfg rq v args kw w
      = (inr None, w)).
Proof.
  intros Hf Hl Herr.
  pose proof (post_after_load _ _ _ _ _ _ args kw w Hl) as Hrun.
  cbv iota in Hrun. rewrite (stamp_errors_dicts _ _ _ _ Herr) in Hrun.
  unfold Resource.dispatch_request. rewrite Hf, Hrun.
  cbn [Resource.build_response]. cbv iota.
  unfold Resource.etag_handling. split.
  - intros Hon Him Hnone. rewrite Hon, Him, Hnone. cbn [truthy].
    replace (str_mem "*" (Resource.etag_tokens "*")) with true
      by reflexivity.
    now rewrite orb_true_r.
  - intros Hoff. now rewrite Hoff.
Qed.
End LoadThroughDispatch.

Lemma validation_failure_meets_conditional_check_witness :
  Resource.dispatch_request Sample.store Sample.obj Sample.platform
    Sample.etag_off
    (mk_request "POST" "/articles" [] [] JNull)
    (Resource.mk_view Sample.store Sample.obj None
       (Some (ResourceList.post Sample.store Sample.obj Sample.schema_inst
                (mk_request "POST" "/articles" [] [] JNull)
                Sample.articles_resource))
       None None)
    [] [] (Sample.start [])
  = (inr None, Sample.start []).
Proof.
  edestruct (validation_failure_meets_conditional_check Sample.store
               Sample.obj Sample.schema_inst Sample.platform Sample.etag_off
               (mk_request "POST" "/articles" [] [] JNull)
               Sample.articles_resource
               (Resource.mk_view Sample.store Sample.obj None
                  (Some (ResourceList.post Sample.store Sample.obj
                           Sample.schema_inst
                           (mk_request "POST" "/articles" [] [] JNull)
                           Sample.articles_resource))
                  None None)
               [] [] (Sample.start [])
               [("errors",
                 JList [Sample.error_entry "Object must include data key."
                          "/"])]
               [[("detail", JStr "Object must include data key.");
                 ("source", pointer "/")]])
    as [_ Hoff].
  - reflexivity.
  - exists []. exists []. repeat split.
  - reflexivity.
  - apply Hoff. reflexivity.
Defined.
